(** * crsserver: subscription / device / transaction state machine

    A shallow embedding of the subscription model statics
    (models/subscription.js), the admin controller
    (controllers/adminController.js), the self-service subscription
    controller (controllers/subscriptionController.js) and the price and
    duration tables (utils/helpers.js), with the properties of the
    specification stated and settled against them.

    Conventions of the embedding.
    - A collection is the list of its documents in insertion order; [_id]
      is the key ([save] and [findById] go by it).
    - Dates are milliseconds since the epoch ([Z]); every handler reads the
      clock once and receives it as [now].
    - Prices are in cents ([Z]): 29.99 is [2999].
    - [queuePosition] is a [String] path of the schema: the model keeps it
      as [option string] ([None] when the document has no such field), and
      the store orders it as it orders strings.
    - A handler is a computation in [M]: it threads the three collections
      and either answers or throws a [CustomError] (HTTP code, message).
      Writes made before a throw stay: no handler modelled here commits or
      rolls back a store transaction around its writes.
    - [populate("user")] is taken to find the user, and the e-mails sent
      after the writes are left out: their failures are caught and change
      neither the store nor the answer. *)

From Stdlib Require Import String Ascii List ZArith Lia Bool Permutation.
From Stdlib Require Import DecimalString Decimal DecimalZ DecimalNat.
From Stdlib Require OrdersEx.
Import ListNotations.
Open Scope string_scope.
Open Scope Z_scope.

(** ** JavaScript values used by the handlers *)

(** [n.toString()] for an integer number. *)
Definition toString (n : Z) : string := NilZero.string_of_int (Z.to_int n).

Definition digit_of (c : ascii) : option Z :=
  let n := Z.of_nat (nat_of_ascii c) in
  if (48 <=? n) && (n <=? 57) then Some (n - 48) else None.

Fixpoint parseDigits (acc : Z) (s : string) : Z :=
  match s with
  | EmptyString => acc
  | String c s' =>
      match digit_of c with
      | Some d => parseDigits (10 * acc + d) s'
      | None => acc
      end
  end.

(** [parseInt(s)] on a trimmed string: the value of the longest prefix of
    decimal digits, [None] (NaN) when [s] does not start with a digit. *)
Definition parseInt (s : string) : option Z :=
  match s with
  | EmptyString => None
  | String c _ =>
      match digit_of c with
      | Some _ => Some (parseDigits 0 s)
      | None => None
      end
  end.

Fixpoint allDigits (s : string) : bool :=
  match s with
  | EmptyString => true
  | String c s' =>
      match digit_of c with Some _ => allDigits s' | None => false end
  end.

(** [Number(v)] for a value that is [undefined] or a trimmed string of
    digits: [None] is NaN; the empty string converts to 0. *)
Definition toNumber (v : option string) : option Z :=
  match v with
  | None => None
  | Some s => if allDigits s then Some (parseDigits 0 s) else None
  end.

(** Truthiness of an optional string: [undefined] and [""] are falsy. *)
Definition truthy (v : option string) : bool :=
  match v with
  | None | Some EmptyString => false
  | Some _ => true
  end.

(** ** utils/helpers.js *)

Fixpoint lookup {A : Type} (k : string) (table : list (string * A)) : option A :=
  match table with
  | [] => None
  | (k', v) :: rest => if String.eqb k k' then Some v else lookup k rest
  end.

Definition SUBSCRIPTION_PRICES : list (string * Z) :=
  [ ("mobile-v4-basic", 2999);
    ("mobile-v4-premium", 4999);
    ("mobile-v4-enterprise", 9999);
    ("mobile-v5-basic", 3999);
    ("mobile-v5-premium", 5999);
    ("full-suite-basic", 7999);
    ("full-suite-premium", 14999) ].

(** The names that every object literal inherits from [Object.prototype]:
    looked up in a table, such a name gives no entry of the table but a
    function (for "__proto__" an object), which is truthy. *)
Definition objectPrototypeNames : list string :=
  [ "constructor"; "__defineGetter__"; "__defineSetter__"; "hasOwnProperty";
    "__lookupGetter__"; "__lookupSetter__"; "isPrototypeOf";
    "propertyIsEnumerable"; "toString"; "valueOf"; "__proto__";
    "toLocaleString" ].

Definition inheritedName (key : string) : bool :=
  existsb (String.eqb key) objectPrototypeNames.

(** What a lookup in a table of numbers gives: a number, or the function
    or object that the name inherits. *)
Inductive Looked : Type :=
  | Number (n : Z)
  | Inherited (name : string).

(** The number that the handlers compute with, where they take the plan
    from a stored subscription. No subscription is stored with a plan
    whose price is not a number ([save] refuses the value at [price]), so
    that there the lookup is a number; elsewhere the case [Inherited] is
    told apart before any arithmetic. *)
Definition numberOf (v : Looked) : Z :=
  match v with
  | Number n => n
  | Inherited _ => 0
  end.

Coercion numberOf : Looked >-> Z.
#[warnings="-ambiguous-paths"]
Coercion Number : Z >-> Looked.

(** [table[key] || fallback]: the entry of the table when it is truthy,
    else what the name inherits, else the fallback. *)
Definition lookupOr (key : string) (table : list (string * Z)) (fallback : Z)
  : Looked :=
  match lookup key table with
  | Some v => if v =? 0 then Number fallback else Number v
  | None => if inheritedName key then Inherited key else Number fallback
  end.

Definition getSubscriptionPrice (subscriptionType : string) : Looked :=
  lookupOr subscriptionType SUBSCRIPTION_PRICES 2999.

(** [a <= b] of two looked-up values: a function or an object is not a
    number, and no comparison with it holds. *)
Definition lessOrEqual (a b : Looked) : bool :=
  match a, b with
  | Number x, Number y => x <=? y
  | _, _ => false
  end.

Definition SUBSCRIPTION_TYPES : list (string * Z) :=
  [ ("mobile-v4-basic", 30);
    ("mobile-v4-premium", 60);
    ("mobile-v4-enterprise", 90);
    ("mobile-v5-basic", 30);
    ("mobile-v5-premium", 60);
    ("full-suite-basic", 60);
    ("full-suite-premium", 90) ].

Definition getSubscriptionDuration (subscriptionType : string) : Looked :=
  lookupOr subscriptionType SUBSCRIPTION_TYPES 30.

Definition msPerDay : Z := 24 * 60 * 60 * 1000.

(** ** Documents *)

Inductive Status : Type :=
  PENDING | QUEUED | ACTIVE | EXPIRED | CANCELLED | APPROVED.

Definition Status_eqb (a b : Status) : bool :=
  match a, b with
  | PENDING, PENDING | QUEUED, QUEUED | ACTIVE, ACTIVE
  | EXPIRED, EXPIRED | CANCELLED, CANCELLED | APPROVED, APPROVED => true
  | _, _ => false
  end.

Module Subscription.
Record t : Type := mk {
  _id : string;
  user : string;
  imei : string;
  plan : string;
  price : Z;
  queuePosition : option string;
  startDate : option Z;
  endDate : option Z;
  status : Status;
  reviewedBy : option string;
  reviewedAt : option Z;
  adminNotes : option string;
  priority : Z;
  createdAt : Z;
  cancelledAt : option Z;
  cancellationReason : option string
}.

(** The schema declares no path [subscriptionType]: reading it off a
    document gives [undefined], whatever the document holds. *)
Definition subscriptionType (d : t) : option string := None.

Definition set_plan v d :=
  mk (_id d) (user d) (imei d) v (price d) (queuePosition d) (startDate d)
     (endDate d) (status d) (reviewedBy d) (reviewedAt d) (adminNotes d)
     (priority d) (createdAt d) (cancelledAt d) (cancellationReason d).
Definition set_price v d :=
  mk (_id d) (user d) (imei d) (plan d) v (queuePosition d) (startDate d)
     (endDate d) (status d) (reviewedBy d) (reviewedAt d) (adminNotes d)
     (priority d) (createdAt d) (cancelledAt d) (cancellationReason d).
Definition set_queuePosition v d :=
  mk (_id d) (user d) (imei d) (plan d) (price d) v (startDate d)
     (endDate d) (status d) (reviewedBy d) (reviewedAt d) (adminNotes d)
     (priority d) (createdAt d) (cancelledAt d) (cancellationReason d).
Definition set_startDate v d :=
  mk (_id d) (user d) (imei d) (plan d) (price d) (queuePosition d) v
     (endDate d) (status d) (reviewedBy d) (reviewedAt d) (adminNotes d)
     (priority d) (createdAt d) (cancelledAt d) (cancellationReason d).
Definition set_endDate v d :=
  mk (_id d) (user d) (imei d) (plan d) (price d) (queuePosition d)
     (startDate d) v (status d) (reviewedBy d) (reviewedAt d) (adminNotes d)
     (priority d) (createdAt d) (cancelledAt d) (cancellationReason d).
Definition set_status v d :=
  mk (_id d) (user d) (imei d) (plan d) (price d) (queuePosition d)
     (startDate d) (endDate d) v (reviewedBy d) (reviewedAt d) (adminNotes d)
     (priority d) (createdAt d) (cancelledAt d) (cancellationReason d).
Definition set_reviewedBy v d :=
  mk (_id d) (user d) (imei d) (plan d) (price d) (queuePosition d)
     (startDate d) (endDate d) (status d) v (reviewedAt d) (adminNotes d)
     (priority d) (createdAt d) (cancelledAt d) (cancellationReason d).
Definition set_reviewedAt v d :=
  mk (_id d) (user d) (imei d) (plan d) (price d) (queuePosition d)
     (startDate d) (endDate d) (status d) (reviewedBy d) v (adminNotes d)
     (priority d) (createdAt d) (cancelledAt d) (cancellationReason d).
Definition set_adminNotes v d :=
  mk (_id d) (user d) (imei d) (plan d) (price d) (queuePosition d)
     (startDate d) (endDate d) (status d) (reviewedBy d) (reviewedAt d) v
     (priority d) (createdAt d) (cancelledAt d) (cancellationReason d).
Definition set_cancelledAt v d :=
  mk (_id d) (user d) (imei d) (plan d) (price d) (queuePosition d)
     (startDate d) (endDate d) (status d) (reviewedBy d) (reviewedAt d)
     (adminNotes d) (priority d) (createdAt d) v (cancellationReason d).
Definition set_cancellationReason v d :=
  mk (_id d) (user d) (imei d) (plan d) (price d) (queuePosition d)
     (startDate d) (endDate d) (status d) (reviewedBy d) (reviewedAt d)
     (adminNotes d) (priority d) (createdAt d) (cancelledAt d) v.
End Subscription.

Module Device.
(** Modelled from the spec: the device model is not among the sources; the
    record holds the fields of section 3 that the controllers read and
    write (owner, IMEI, OTP shared secret, device name, onboarded flag). *)
Record t : Type := mk {
  _id : string;
  user : string;
  imei : string;
  totpSecret : string;
  deviceName : string;
  isOnboarded : bool
}.

Definition set_isOnboarded v d :=
  mk (_id d) (user d) (imei d) (totpSecret d) (deviceName d) v.
End Device.

Inductive TransactionStatus : Type :=
  TX_PENDING | TX_COMPLETED | TX_FAILED | TX_CANCELLED.

Inductive TransactionType : Type :=
  | SUBSCRIPTION_CREATED
  | SUBSCRIPTION_APPROVED
  | SUBSCRIPTION_ACTIVATED
  | SUBSCRIPTION_UPGRADED
  | SUBSCRIPTION_DOWNGRADED
  | SUBSCRIPTION_CANCELLED
  | SUBSCRIPTION_REJECTED
  | SUBSCRIPTION_EXPIRED
  | QUEUE_POSITION_UPDATED.

Module Transaction.
(** Modelled from the spec: the transaction model is not among the
    sources; the record holds the fields of section 3 that the controllers
    write when they build a ledger entry. The [metadata] bag is left out:
    nothing is read back from it. *)
Record t : Type := mk {
  _id : nat;
  user : string;
  subscription : string;
  device : option string;
  transactionId : string;
  type : TransactionType;
  amount : Z;
  plan : string;
  status : TransactionStatus;
  processedBy : option string;
  processedAt : option Z;
  previousTransaction : option nat;
  relatedTransactions : list nat;
  adminNotes : string;
  subscriptionPeriod : option (option Z * option Z);
  completedAt : option Z
}.

Definition set_relatedTransactions v d :=
  mk (_id d) (user d) (subscription d) (device d) (transactionId d) (type d)
     (amount d) (plan d) (status d) (processedBy d) (processedAt d)
     (previousTransaction d) v (adminNotes d) (subscriptionPeriod d)
     (completedAt d).
Definition set_status v d :=
  mk (_id d) (user d) (subscription d) (device d) (transactionId d) (type d)
     (amount d) (plan d) v (processedBy d) (processedAt d)
     (previousTransaction d) (relatedTransactions d) (adminNotes d)
     (subscriptionPeriod d) (completedAt d).
Definition set_completedAt v d :=
  mk (_id d) (user d) (subscription d) (device d) (transactionId d) (type d)
     (amount d) (plan d) (status d) (processedBy d) (processedAt d)
     (previousTransaction d) (relatedTransactions d) (adminNotes d)
     (subscriptionPeriod d) v.
End Transaction.

(** ** The store and the handler monad *)

Record State : Type := mkState {
  subscriptions : list Subscription.t;
  transactions : list Transaction.t;
  devices : list Device.t
}.

Definition with_subscriptions (v : list Subscription.t) (s : State) : State :=
  mkState v (transactions s) (devices s).
Definition with_transactions (v : list Transaction.t) (s : State) : State :=
  mkState (subscriptions s) v (devices s).
Definition with_devices (v : list Device.t) (s : State) : State :=
  mkState (subscriptions s) (transactions s) v.

(** What a handler hands to [res.json] or to [next(err)]. *)
Inductive Result (A : Type) : Type :=
  | Ok (a : A)
  | Throw (code : Z) (message : string).
Arguments Ok {A} a.
Arguments Throw {A} code message.

Definition M (A : Type) : Type := State -> Result A * State.

Definition ret {A : Type} (a : A) : M A := fun s => (Ok a, s).

Definition bind {A B : Type} (m : M A) (k : A -> M B) : M B :=
  fun s =>
    match m s with
    | (Ok a, s') => k a s'
    | (Throw code msg, s') => (Throw code msg, s')
    end.

Definition throw {A : Type} (code : Z) (msg : string) : M A :=
  fun s => (Throw code msg, s).

Definition gets {A : Type} (f : State -> A) : M A := fun s => (Ok (f s), s).

Definition modify (f : State -> State) : M unit := fun s => (Ok tt, f s).

Notation "x <- m ;; k" := (bind m (fun x => k))
  (at level 61, m at next level, right associativity).
Notation "m ;;; k" := (bind m (fun _ => k))
  (at level 61, right associativity).

(** [if (cond) throw new CustomError(code, msg)]. *)
Definition throwIf (cond : bool) (code : Z) (msg : string) : M unit :=
  if cond then throw code msg else ret tt.

(** ** models/subscription.js: queries and statics *)

Definition findById (id : string) (docs : list Subscription.t)
  : option Subscription.t :=
  find (fun d => String.eqb (Subscription._id d) id) docs.

(** [doc.save()] of a document that is already stored: the stored document
    with the same [_id] takes the in-memory one's values. *)
Definition replaceById (d : Subscription.t) (docs : list Subscription.t)
  : list Subscription.t :=
  map (fun x =>
         if String.eqb (Subscription._id x) (Subscription._id d) then d else x)
      docs.

(** [cancelledAt] and [cancellationReason] are not paths of the schema: a
    handler that assigns them changes the document it holds, and [save]
    writes the schema's paths only. *)
Definition schemaPaths (d : Subscription.t) : Subscription.t :=
  Subscription.set_cancellationReason None (Subscription.set_cancelledAt None d).

Definition saveSubscription (d : Subscription.t) : M unit :=
  modify (fun s =>
    with_subscriptions (replaceById (schemaPaths d) (subscriptions s)) s).

(** The filter [{ imei, status: { $in: ["QUEUED", "PENDING"] } }]. *)
Definition inQueue (imei : string) (d : Subscription.t) : bool :=
  String.eqb (Subscription.imei d) imei
  && (Status_eqb (Subscription.status d) QUEUED
      || Status_eqb (Subscription.status d) PENDING).

(** The store's order on the values of a [String] path: a missing field
    sorts before every string, two strings compare character by character. *)
Definition position_ltb (a b : option string) : bool :=
  match a, b with
  | None, Some _ => true
  | Some x, Some y => String.ltb x y
  | _, None => false
  end.

(** [findOne(...).sort({ queuePosition: -1 })]: a document whose
    [queuePosition] is greatest in the store's order. *)
Fixpoint lastByQueuePosition (docs : list Subscription.t)
  : option Subscription.t :=
  match docs with
  | [] => None
  | d :: rest =>
      match lastByQueuePosition rest with
      | None => Some d
      | Some b =>
          if position_ltb (Subscription.queuePosition d)
                          (Subscription.queuePosition b)
          then Some b else Some d
      end
  end.

Definition getNextQueuePosition (imei : string) : M string :=
  lastQueued <- gets (fun s =>
    lastByQueuePosition (filter (inQueue imei) (subscriptions s))) ;;
  match lastQueued with
  | None => ret "1"
  | Some d =>
      if negb (truthy (Subscription.queuePosition d)) then ret "1"
      else
        let lastPosition :=
          match Subscription.queuePosition d with
          | Some p => match parseInt p with Some n => n | None => 0 end
          | None => 0
          end in
        ret (toString (lastPosition + 1))
  end.

(** [sort({ priority: -1, createdAt: 1 })]: does [a] come no later than [b]. *)
Definition queueOrder (a b : Subscription.t) : bool :=
  (Subscription.priority b <? Subscription.priority a)
  || ((Subscription.priority a =? Subscription.priority b)
      && (Subscription.createdAt a <=? Subscription.createdAt b)).

Fixpoint insertSorted (d : Subscription.t) (sorted : list Subscription.t)
  : list Subscription.t :=
  match sorted with
  | [] => [d]
  | x :: rest =>
      if queueOrder d x then d :: sorted else x :: insertSorted d rest
  end.

Fixpoint sortQueue (docs : list Subscription.t) : list Subscription.t :=
  match docs with
  | [] => []
  | d :: rest => insertSorted d (sortQueue rest)
  end.

(** The body of [for (let i = 0; i < queuedSubs.length; i++)], from index
    [i] on, over the documents that remain. *)
Fixpoint reorderLoop (i : nat) (queuedSubs : list Subscription.t) : M unit :=
  match queuedSubs with
  | [] => ret tt
  | d :: rest =>
      saveSubscription
        (Subscription.set_queuePosition
           (Some (toString (Z.of_nat (i + 1)))) d) ;;;
      reorderLoop (S i) rest
  end.

Definition reorderDeviceQueue (imei : string) : M nat :=
  queuedSubs <- gets (fun s =>
    sortQueue (filter (inQueue imei) (subscriptions s))) ;;
  reorderLoop 0 queuedSubs ;;;
  ret (length queuedSubs).

Definition hasActiveSubscription (imei : string) : M bool :=
  gets (fun s =>
    negb (Nat.eqb
      (length (filter (fun d =>
         String.eqb (Subscription.imei d) imei
         && Status_eqb (Subscription.status d) ACTIVE) (subscriptions s)))
      0)).

(** ** Queue invariants, in the specification's words *)

(** The queue positions of an IMEI: those of its subscriptions whose status
    is PENDING or QUEUED. *)
Definition queuePositions (imei : string) (docs : list Subscription.t)
  : list (option string) :=
  map Subscription.queuePosition (filter (inQueue imei) docs).

(** The positions [1..n], as the schema stores them. *)
Definition positions1 (n : nat) : list (option string) :=
  map (fun k => Some (toString (Z.of_nat k))) (seq 1 n).

(** Positions are exactly [{1,...,N}], each once, [N] the number of
    subscriptions in the queue. *)
Definition densePacked (imei : string) (docs : list Subscription.t) : Prop :=
  Permutation (queuePositions imei docs)
              (positions1 (length (filter (inQueue imei) docs))).

(** The greatest position of the queue as a number, plus one: what the
    specification asks of [getNextQueuePosition]. *)
Definition specNextQueuePosition (imei : string) (docs : list Subscription.t)
  : string :=
  toString
    (1 + fold_right Z.max 0
           (map (fun p => match toNumber p with Some n => n | None => 0 end)
                (queuePositions imei docs))).

Definition isSome {A : Type} (o : option A) : bool :=
  match o with Some _ => true | None => false end.

Definition findOneSubscription (p : Subscription.t -> bool)
  : M (option Subscription.t) :=
  gets (fun s => find p (subscriptions s)).

Definition isWhitespace (c : ascii) : bool :=
  let n := nat_of_ascii c in
  (Nat.eqb n 32 || (Nat.leb 9 n && Nat.leb n 13))%bool.

Fixpoint trimStart (s : string) : string :=
  match s with
  | EmptyString => EmptyString
  | String c s' => if isWhitespace c then trimStart s' else s
  end.

Fixpoint trimEnd (s : string) : string :=
  match s with
  | EmptyString => EmptyString
  | String c s' =>
      match trimEnd s' with
      | EmptyString => if isWhitespace c then EmptyString else String c EmptyString
      | t => String c t
      end
  end.

(** [s.trim()]. *)
Definition trim (s : string) : string := trimEnd (trimStart s).

(** [v || ""] for an optional string. *)
Definition orEmpty (v : option string) : string :=
  match v with Some s => s | None => "" end.

(** ** What the handlers leave to Mongoose, the store and the language *)

(** In a few places the outcome of a handler hangs on the libraries under
    it, in ways that the sources do not settle. What the libraries answer
    there is taken as given: every property below holds for every
    platform. *)
Class Platform : Type := mkPlatform {
  (** the strings that Mongoose casts to an ObjectId *)
  isObjectId : string -> bool;
  (** the message of the CastError for a string that it does not cast *)
  castErrorMessage : string -> string;
  (** the message with which the store refuses an [$inc] whose operand,
      cast to the [String] path, is the string of [k] *)
  incRefusedMessage : Z -> string;
  (** the message of the ValidationError for an amount that is NaN *)
  notANumberMessage : string;
  (** [Number(s) < 1], for a string [s] *)
  lessThanOne : string -> bool
}.

(** ** controllers/adminController.js *)

Module AdminController.

(** The [additionalData] argument of [logTransactionUpdate]; its [metadata]
    bag is merged into the new entry's and carries no state, it is left
    out of the embedding. *)
Record AdditionalData : Type := mkAdditional {
  ad_adminNotes : option string;
  ad_subscriptionPeriod : option (option Z * option Z)
}.

(** The [data] object of a bulk request. *)
Record BulkData : Type := mkBulkData {
  activateNow : bool;
  comments : option string;
  reason : option string
}.

(** One entry of a bulk answer: [{ id, status, reason, success }]. *)
Record BulkResult : Type := mkBulkResult {
  br_id : string;
  br_status : string;
  br_reason : option string;
  br_success : bool
}.

(** The answer of a bulk request. *)
Record BulkResponse : Type := mkBulkResponse {
  results : list BulkResult;
  processed : nat;
  successful : nat;
  failed : nat
}.

Section Externals.

(** [Transaction.generateTransactionId()], of the transaction model; it
    may depend on what the ledger holds. *)
Variable generateTransactionId : list Transaction.t -> string.

Context {platform : Platform}.

(** A fresh [_id] for a new ledger entry. *)
Definition freshTransactionId (txs : list Transaction.t) : nat :=
  S (fold_right Nat.max 0%nat (map Transaction._id txs)).

(** [Transaction.findOne({ subscription }).sort({ createdAt: -1 })]: the
    latest entry of the subscription's chain (the ledger is kept in
    creation order). *)
Definition latestTransaction (subscriptionId : string)
           (txs : list Transaction.t) : option Transaction.t :=
  find (fun t => String.eqb (Transaction.subscription t) subscriptionId)
       (List.rev txs).

Definition saveTransaction (t : Transaction.t) (txs : list Transaction.t)
  : list Transaction.t :=
  map (fun x =>
         if Nat.eqb (Transaction._id x) (Transaction._id t) then t else x)
      txs.

Definition logTransactionUpdate (now : Z) (subscriptionId : string)
           (type : TransactionType) (status : TransactionStatus)
           (adminId : string) (additionalData : AdditionalData)
  : M (option Transaction.t) :=
  existingTransaction <- gets (fun s =>
    latestTransaction subscriptionId (transactions s)) ;;
  match existingTransaction with
  | Some existing =>
      txs <- gets transactions ;;
      let newTransaction :=
        Transaction.mk
          (freshTransactionId txs)
          (Transaction.user existing)
          subscriptionId
          (Transaction.device existing)
          (generateTransactionId txs)
          type
          (Transaction.amount existing)
          (Transaction.plan existing)
          status
          (Some adminId)
          (Some now)
          (Some (Transaction._id existing))
          []
          (orEmpty (ad_adminNotes additionalData))
          (match ad_subscriptionPeriod additionalData with
           | Some p => Some p
           | None => Transaction.subscriptionPeriod existing
           end)
          None in
      modify (fun s =>
        with_transactions (transactions s ++ [newTransaction]) s) ;;;
      modify (fun s =>
        with_transactions
          (saveTransaction
             (Transaction.set_relatedTransactions
                (Transaction.relatedTransactions existing
                 ++ [Transaction._id newTransaction])
                existing)
             (transactions s)) s) ;;;
      ret (Some newTransaction)
  | None => ret None
  end.

Definition approveSubscription (now : Z) (adminId id : string)
           (comments : option string) (activateNow : bool)
  : M Subscription.t :=
  found <- gets (fun s => findById id (subscriptions s)) ;;
  match found with
  | None => throw 404 "Subscription not found"
  | Some subscription =>
      throwIf (negb (Status_eqb (Subscription.status subscription) PENDING))
              400 "Only pending subscriptions can be approved" ;;;
      existingActive <- findOneSubscription (fun d =>
        String.eqb (Subscription.user d) (Subscription.user subscription)
        && Status_eqb (Subscription.status d) ACTIVE
        && negb (String.eqb (Subscription._id d) id)) ;;
      throwIf (isSome existingActive)
              400 "User already has an active subscription" ;;;
      deviceActive <- findOneSubscription (fun d =>
        String.eqb (Subscription.imei d) (Subscription.imei subscription)
        && Status_eqb (Subscription.status d) ACTIVE
        && negb (String.eqb (Subscription._id d) id)) ;;
      throwIf (isSome deviceActive)
              400 "Device already has an active subscription" ;;;
      let subscription :=
        if activateNow then
          let subscriptionDuration :=
            getSubscriptionDuration (Subscription.plan subscription) in
          Subscription.set_endDate
            (Some (now + subscriptionDuration * msPerDay))
            (Subscription.set_startDate (Some now)
               (Subscription.set_status ACTIVE subscription))
        else Subscription.set_status APPROVED subscription in
      let subscription :=
        Subscription.set_reviewedAt (Some now)
          (Subscription.set_reviewedBy (Some adminId)
             (Subscription.set_adminNotes comments subscription)) in
      saveSubscription subscription ;;;
      logTransactionUpdate now id
        (if activateNow then SUBSCRIPTION_ACTIVATED
         else SUBSCRIPTION_APPROVED)
        (if activateNow then TX_COMPLETED else TX_PENDING)
        adminId
        (mkAdditional comments
           (if activateNow
            then Some (Subscription.startDate subscription,
                       Subscription.endDate subscription)
            else None)) ;;;
      ret subscription
  end.

Definition rejectSubscription (now : Z) (adminId id : string)
           (reason comments : option string) : M Subscription.t :=
  throwIf (negb (truthy reason)) 400 "Rejection reason is required" ;;;
  found <- gets (fun s => findById id (subscriptions s)) ;;
  match found with
  | None => throw 404 "Subscription not found"
  | Some subscription =>
      throwIf (negb (Status_eqb (Subscription.status subscription) PENDING))
              400 "Only pending subscriptions can be rejected" ;;;
      let subscription :=
        Subscription.set_reviewedAt (Some now)
          (Subscription.set_reviewedBy (Some adminId)
             (Subscription.set_adminNotes
                (Some (trim (orEmpty reason ++ ". " ++ orEmpty comments)))
                (Subscription.set_status CANCELLED subscription))) in
      saveSubscription subscription ;;;
      logTransactionUpdate now id SUBSCRIPTION_REJECTED TX_FAILED adminId
        (mkAdditional (Subscription.adminNotes subscription) None) ;;;
      ret subscription
  end.

Definition activateSubscription (now : Z) (adminId id : string)
           (comments : option string) : M Subscription.t :=
  found <- gets (fun s => findById id (subscriptions s)) ;;
  match found with
  | None => throw 404 "Subscription not found"
  | Some subscription =>
      throwIf (negb (Status_eqb (Subscription.status subscription) APPROVED))
              400 "Only approved subscriptions can be activated" ;;;
      existingActive <- findOneSubscription (fun d =>
        ((String.eqb (Subscription.user d) (Subscription.user subscription)
          && Status_eqb (Subscription.status d) ACTIVE)
         || (String.eqb (Subscription.imei d) (Subscription.imei subscription)
             && Status_eqb (Subscription.status d) ACTIVE))
        && negb (String.eqb (Subscription._id d) id)) ;;
      throwIf (isSome existingActive)
              400 "User or device already has an active subscription" ;;;
      let subscriptionDuration :=
        getSubscriptionDuration (Subscription.plan subscription) in
      let subscription :=
        Subscription.set_endDate
          (Some (now + subscriptionDuration * msPerDay))
          (Subscription.set_startDate (Some now)
             (Subscription.set_status ACTIVE subscription)) in
      let subscription :=
        if truthy comments then
          Subscription.set_adminNotes
            (Some (trim (orEmpty (Subscription.adminNotes subscription)
                         ++ " " ++ orEmpty comments)))
            subscription
        else subscription in
      saveSubscription subscription ;;;
      logTransactionUpdate now id SUBSCRIPTION_ACTIVATED TX_COMPLETED adminId
        (mkAdditional comments
           (Some (Subscription.startDate subscription,
                  Subscription.endDate subscription))) ;;;
      ret subscription
  end.

(** Range operators of a filter on a [String] path: the store compares
    a string with a string only, in its order on strings. *)
Definition matches (op : string -> string -> bool)
           (field bound : option string) : bool :=
  match field, bound with
  | Some x, Some b => op x b
  | _, _ => false
  end.
Definition op_gte (x b : string) : bool := negb (String.ltb x b).
Definition op_gt (x b : string) : bool := String.ltb b x.
Definition op_lt (x b : string) : bool := String.ltb x b.
Definition op_lte (x b : string) : bool := negb (String.ltb b x).

(** [updateMany(filter, { $inc: { queuePosition: k } })]. [queuePosition]
    is a [String] path: Mongoose casts the operand of [$inc] to a string,
    and the store refuses an [$inc] by a string, whatever the filter and
    whether a document matches it or not. Nothing is written; the error
    is the store's own and goes to [next(err)]. *)
Definition updateManyInc (p : Subscription.t -> bool) (k : Z) : M unit :=
  throw 500 (incRefusedMessage k).

(** [newPosition] of the request body: a number (an integer), a string,
    or nothing. *)
Inductive Position : Type :=
  | PositionNumber (n : Z)
  | PositionString (s : string)
  | PositionAbsent.

(** [!newPosition || newPosition < 1]. *)
Definition invalidPosition (newPosition : Position) : bool :=
  match newPosition with
  | PositionNumber n => (n =? 0) || (n <? 1)
  | PositionString s => String.eqb s "" || lessThanOne s
  | PositionAbsent => true
  end.

(** [newPosition === oldPosition]: the stored position is a string or
    [undefined], so that a number is never the same. *)
Definition samePosition (newPosition : Position) (oldPosition : option string)
  : bool :=
  match newPosition, oldPosition with
  | PositionString s, Some o => String.eqb s o
  | PositionAbsent, None => true
  | _, _ => false
  end.

(** [n < oldPosition], a number against a string or [undefined]: the
    right side is converted to a number, and the comparison is false when
    that is NaN. *)
Definition numberLt (newPosition : Z) (oldPosition : option string) : bool :=
  match toNumber oldPosition with
  | Some o => newPosition <? o
  | None => false
  end.

(** [newPosition < oldPosition]: two strings compare as strings; with
    [undefined] on a side the comparison is false. *)
Definition positionLt (newPosition : Position) (oldPosition : option string)
  : bool :=
  match newPosition, oldPosition with
  | PositionNumber n, _ => numberLt n oldPosition
  | PositionString s, Some o => String.ltb s o
  | _, _ => false
  end.

(** [newPosition] in a template literal, and cast to the [String] path. *)
Definition positionText (newPosition : Position) : string :=
  match newPosition with
  | PositionNumber n => toString n
  | PositionString s => s
  | PositionAbsent => "undefined"
  end.

Definition showPosition (v : option string) : string :=
  match v with Some s => s | None => "undefined" end.

(** The block that shifts, saves and logs runs unless [newPosition] is
    the very string that is stored; it starts with [updateMany]. *)
Definition updateQueuePosition (now : Z) (adminId id : string)
           (newPosition : Position)
  : M (Subscription.t * option string * Position) :=
  throwIf (invalidPosition newPosition)
          400 "Valid queue position is required" ;;;
  found <- gets (fun s => findById id (subscriptions s)) ;;
  match found with
  | None => throw 404 "Subscription not found"
  | Some subscription =>
      throwIf (negb (Status_eqb (Subscription.status subscription) PENDING))
              400 "Can only update queue position for pending subscriptions" ;;;
      let oldPosition := Subscription.queuePosition subscription in
      if samePosition newPosition oldPosition then
        ret (subscription, oldPosition, newPosition)
      else
        (if positionLt newPosition oldPosition then
           updateManyInc (fun d =>
             matches op_gte (Subscription.queuePosition d)
                     (Some (positionText newPosition))
             && matches op_lt (Subscription.queuePosition d) oldPosition
             && Status_eqb (Subscription.status d) PENDING
             && negb (String.eqb (Subscription._id d) id)) 1
         else
           updateManyInc (fun d =>
             matches op_gt (Subscription.queuePosition d) oldPosition
             && matches op_lte (Subscription.queuePosition d)
                        (Some (positionText newPosition))
             && Status_eqb (Subscription.status d) PENDING
             && negb (String.eqb (Subscription._id d) id)) (-1)) ;;;
        let subscription :=
          Subscription.set_queuePosition
            (match newPosition with
             | PositionAbsent => None
             | _ => Some (trim (positionText newPosition))
             end)
            subscription in
        saveSubscription subscription ;;;
        logTransactionUpdate now id QUEUE_POSITION_UPDATED TX_PENDING adminId
          (mkAdditional
             (Some ("Queue position changed from "
                    ++ showPosition oldPosition ++ " to "
                    ++ positionText newPosition))
             None) ;;;
        ret (subscription, oldPosition, newPosition)
  end.

Fixpoint mapM {A B : Type} (f : A -> M B) (l : list A) : M (list B) :=
  match l with
  | [] => ret []
  | a :: rest =>
      b <- f a ;;
      bs <- mapM f rest ;;
      ret (b :: bs)
  end.

(** The message of the TypeError raised by reading a property of an
    [undefined] [data]. *)
Definition typeErrorMessage (property : string) : string :=
  "Cannot read properties of undefined (reading '" ++ property ++ "')".

Definition invalidOrNotFound (id : string) : BulkResult :=
  mkBulkResult id "failed" (Some "Invalid status or not found") false.

(** What [findById(id)] hands to a callback of a bulk request: the
    document, nothing, or the CastError of an id that is no ObjectId. The
    ids of the stored documents are ObjectIds, so that the cast decides
    for an id that the store does not hold. *)
Inductive Lookup : Type :=
  | Document (d : Subscription.t)
  | Missing
  | NotAnId.

Definition readById (id : string) (docs : list Subscription.t) : Lookup :=
  match findById id docs with
  | Some d => Document d
  | None => if isObjectId id then Missing else NotAnId
  end.

(** The entry for an id whose [findById] threw. *)
Definition castFailed (id : string) : BulkResult :=
  mkBulkResult id "failed" (Some (castErrorMessage id)) false.

(** The callback of the [approve] case, with its [try]/[catch], from the
    answer of its [findById] on. *)
Definition bulkApproveOne (now : Z) (adminId : string)
           (data : option BulkData) (read : string * Lookup) : M BulkResult :=
  let id := fst read in
  match snd read with
  | Document sub =>
      if Status_eqb (Subscription.status sub) PENDING then
        match data with
        | None =>
            ret (mkBulkResult id "failed"
                   (Some (typeErrorMessage "activateNow")) false)
        | Some data =>
            let sub :=
              Subscription.set_reviewedAt (Some now)
                (Subscription.set_reviewedBy (Some adminId)
                   (Subscription.set_adminNotes
                      (Some (orEmpty (comments data)))
                      (Subscription.set_status
                         (if activateNow data then ACTIVE else APPROVED)
                         sub))) in
            let sub :=
              if activateNow data then
                let duration :=
                  getSubscriptionDuration (Subscription.plan sub) in
                Subscription.set_endDate (Some (now + duration * msPerDay))
                  (Subscription.set_startDate (Some now) sub)
              else sub in
            saveSubscription sub ;;;
            logTransactionUpdate now id
              (if activateNow data then SUBSCRIPTION_ACTIVATED
               else SUBSCRIPTION_APPROVED)
              (if activateNow data then TX_COMPLETED else TX_PENDING)
              adminId
              (mkAdditional
                 (Some ("Bulk operation: " ++ orEmpty (comments data)))
                 None) ;;;
            ret (mkBulkResult id "approved" None true)
        end
      else ret (invalidOrNotFound id)
  | Missing => ret (invalidOrNotFound id)
  | NotAnId => ret (castFailed id)
  end.

(** The callback of the [reject] case, from the answer of its [findById]
    on; [data] is known to be an object with a truthy [reason] when it
    runs. *)
Definition bulkRejectOne (now : Z) (adminId : string)
           (data : BulkData) (read : string * Lookup) : M BulkResult :=
  let id := fst read in
  match snd read with
  | Document sub =>
      if Status_eqb (Subscription.status sub) PENDING then
        let sub :=
          Subscription.set_reviewedAt (Some now)
            (Subscription.set_reviewedBy (Some adminId)
               (Subscription.set_adminNotes
                  (Some (trim (orEmpty (reason data) ++ ". "
                               ++ orEmpty (comments data))))
                  (Subscription.set_status CANCELLED sub))) in
        saveSubscription sub ;;;
        logTransactionUpdate now id SUBSCRIPTION_REJECTED TX_FAILED adminId
          (mkAdditional (Subscription.adminNotes sub) None) ;;;
        ret (mkBulkResult id "rejected" None true)
      else ret (invalidOrNotFound id)
  | Missing => ret (invalidOrNotFound id)
  | NotAnId => ret (castFailed id)
  end.

Definition countSuccess (rs : list BulkResult) : nat :=
  length (filter br_success rs).
Definition countFailed (rs : list BulkResult) : nat :=
  length (filter (fun r => negb (br_success r)) rs).

(** [subscriptionIds.map(async (id) => ...)] starts every callback, and
    each runs up to its first [await], the [findById] of its id: all the
    reads are asked for before any callback goes on, so that every
    callback, also the callbacks of one id that is listed twice, reads
    the store as the request found it. *)
Definition readAll (subscriptionIds : list string)
  : M (list (string * Lookup)) :=
  gets (fun s =>
    map (fun id => (id, readById id (subscriptions s))) subscriptionIds).

(** [Promise.all] then lets the callbacks go on, interleaved. They are run
    here one after the other in the order of the ids, each from its read
    to its end. A callback saves the document that it read with the
    fields that it set, and the callbacks of one id set the same fields:
    the answers and the subscriptions stored do not hang on the
    interleaving; the order of the entries that the callbacks append to
    the ledger does. *)
Definition bulkUpdateSubscriptions (now : Z) (adminId : string)
           (subscriptionIds : list string) (action : string)
           (data : option BulkData) : M BulkResponse :=
  throwIf (Nat.eqb (length subscriptionIds) 0)
          400 "Subscription IDs array is required" ;;;
  throwIf (String.eqb action "") 400 "Action is required" ;;;
  updateResult <-
    (if String.eqb action "approve" then
       reads <- readAll subscriptionIds ;;
       mapM (bulkApproveOne now adminId data) reads
     else if String.eqb action "reject" then
       match data with
       | None => throw 500 (typeErrorMessage "reason")
       | Some d =>
           throwIf (negb (truthy (reason d)))
                   400 "Rejection reason is required for bulk rejection" ;;;
           reads <- readAll subscriptionIds ;;
           mapM (bulkRejectOne now adminId d) reads
       end
     else throw 400 "Invalid action specified") ;;
  ret (mkBulkResponse updateResult (length subscriptionIds)
         (countSuccess updateResult) (countFailed updateResult)).

End Externals.

End AdminController.

(** ** controllers/subscriptionController.js *)

Module SubscriptionController.

Section Externals.

Context {platform : Platform}.

Variable generateTransactionId : list Transaction.t -> string.

(** [transaction.updateStatus(status, { completedAt })], a method of the
    transaction model: how it rewrites the ledger. *)
Variable updateStatus :
  Transaction.t -> TransactionStatus -> Z ->
  list Transaction.t -> list Transaction.t.

(** The one-time code of a secret at a counter (HMAC-based, computed by
    the speakeasy library). *)
Variable hotp : string -> Z -> string.

(** The offsets [-w .. w]. *)
Definition windowOffsets (w : nat) : list Z :=
  map (fun k => Z.of_nat k - Z.of_nat w) (seq 0 (2 * w + 1)).

(** [speakeasy.totp.verify({ secret, token, window })]: the token is
    accepted when it is the code of a counter at most [window] steps
    before or after the current one; a step is 30 seconds. *)
Definition totpVerify (now : Z) (secret token : string) (window : nat)
  : bool :=
  existsb (fun i => String.eqb token (hotp secret (now / 30000 + i)))
          (windowOffsets window).

Definition findDevice (userId imei : string) (docs : list Device.t)
  : option Device.t :=
  find (fun d => String.eqb (Device.user d) userId
                 && String.eqb (Device.imei d) imei) docs.

(** [Model.findByIdAndUpdate(id, update)]. *)
Definition updateSubscriptionById (id : string)
           (update : Subscription.t -> Subscription.t) : M unit :=
  modify (fun s =>
    with_subscriptions
      (map (fun x => if String.eqb (Subscription._id x) id
                     then update x else x) (subscriptions s)) s).

Definition updateDeviceById (id : string)
           (update : Device.t -> Device.t) : M unit :=
  modify (fun s =>
    with_devices
      (map (fun x => if String.eqb (Device._id x) id
                     then update x else x) (devices s)) s).

(** The answer of the OTP activation: the duration in days and the
    subscription type it was looked up with. *)
Record Activation : Type := mkActivation {
  act_duration : Z;
  act_subscriptionType : option string
}.

(** [endDate.setDate(endDate.getDate() + duration)]: [duration] calendar
    days later, taken as days of 24 hours. *)
Definition addDays (date duration : Z) : Z := date + duration * msPerDay.

(** The self-service activation by one-time code. A request field that
    is absent is the empty string: both are falsy. [userId] is
    [req.user._id]. *)
Definition activateSubscription (now : Z) (userId : string)
           (subscriptionId imei totpCode : string) : M Activation :=
  throwIf (String.eqb imei "" || String.eqb subscriptionId ""
           || String.eqb totpCode "")
          400 "Please provide all required fields" ;;;
  found <- gets (fun s => findById subscriptionId (subscriptions s)) ;;
  match found with
  | None => throw 404 "Subscription not found"
  | Some subscription =>
      throwIf (negb (String.eqb (Subscription.user subscription) userId))
              403 "Unauthorized access to subscription" ;;;
      throwIf (negb (Status_eqb (Subscription.status subscription) QUEUED))
              400 "Subscription not queued" ;;;
      throwIf (negb (String.eqb (Subscription.imei subscription) imei))
              400 "Invalid IMEI" ;;;
      foundDevice <- gets (fun s => findDevice userId imei (devices s)) ;;
      match foundDevice with
      | None => throw 404 "Device not found"
      | Some device =>
          let verified :=
            totpVerify now (Device.totpSecret device) totpCode 2 in
          throwIf (negb verified) 400 "Invalid OTP" ;;;
          let subscriptionType :=
            Subscription.subscriptionType subscription in
          let durationInDays :=
            match subscriptionType with
            | Some k => lookup k SUBSCRIPTION_TYPES
            | None => None
            end in
          let duration :=
            match durationInDays with
            | Some d => if d =? 0 then 30 else d
            | None => 30
            end in
          let endDate := addDays now duration in
          updateSubscriptionById subscriptionId (fun d =>
            Subscription.set_endDate (Some endDate)
              (Subscription.set_startDate (Some now)
                 (Subscription.set_status ACTIVE d))) ;;;
          updateDeviceById (Device._id device)
            (Device.set_isOnboarded true) ;;;
          ret (mkActivation duration subscriptionType)
      end
  end.

Definition newTransaction (txs : list Transaction.t) (userId : string)
           (subscriptionId : string) (type : TransactionType) (amount : Z)
           (plan : string) (status : TransactionStatus)
           (completedAt : option Z) : Transaction.t :=
  Transaction.mk (S (fold_right Nat.max 0%nat (map Transaction._id txs)))
    userId subscriptionId None (generateTransactionId txs) type amount plan
    status None None None [] "" None completedAt.

Definition findOwned (subscriptionId userId : string) (st : Status)
  : M (option Subscription.t) :=
  findOneSubscription (fun d =>
    String.eqb (Subscription._id d) subscriptionId
    && String.eqb (Subscription.user d) userId
    && Status_eqb (Subscription.status d) st).

(** The answer of an upgrade: the subscription, the ledger entry and the
    amount charged. For a plan name that [Object.prototype] holds the
    price is a function: the comparison [newPrice <= oldPrice] is false
    of it, so that no conflict is raised, and the amount,
    [newPrice - oldPrice], is NaN. [amount] is a [Number] path of the
    ledger (the reports sum it), and Mongoose casts no NaN to a number:
    [transaction.save()] fails validation, the handler ends in that
    error and has written nothing. Prices are counted in cents. *)
Definition upgradeSubscription (now : Z) (userId subscriptionId : string)
           (newPlan : string) : M (Subscription.t * Transaction.t * Z) :=
  found <- findOwned subscriptionId userId ACTIVE ;;
  match found with
  | None => throw 404 "Active subscription not found"
  | Some subscription =>
      let oldPrice := Subscription.price subscription in
      let newPrice := getSubscriptionPrice newPlan in
      throwIf (lessOrEqual newPrice (Number oldPrice)) 400
              "New plan must be higher tier" ;;;
      match newPrice with
      | Inherited _ =>
          throw 500 notANumberMessage
      | Number newPrice =>
          let proratedAmount := newPrice - oldPrice in
          txs <- gets transactions ;;
          let transaction :=
            newTransaction txs userId subscriptionId SUBSCRIPTION_UPGRADED
                           proratedAmount newPlan TX_PENDING None in
          modify (fun s =>
            with_transactions (transactions s ++ [transaction]) s) ;;;
          let subscription :=
            Subscription.set_price newPrice
              (Subscription.set_plan newPlan subscription) in
          let newDuration := getSubscriptionDuration newPlan in
          match Subscription.startDate subscription with
          | None =>
              throw 500
                "Cannot read properties of undefined (reading 'getTime')"
          | Some startDate =>
              let subscription :=
                Subscription.set_endDate
                  (Some (startDate + newDuration * msPerDay)) subscription in
              saveSubscription subscription ;;;
              modify (fun s =>
                with_transactions
                  (updateStatus transaction TX_COMPLETED now (transactions s))
                  s) ;;;
              ret (subscription, transaction, proratedAmount)
          end
      end
  end.

Definition cancelSubscription (now : Z) (userId subscriptionId : string)
           (reason : option string) (immediate : bool)
  : M (Subscription.t * Transaction.t) :=
  found <- findOwned subscriptionId userId ACTIVE ;;
  match found with
  | None => throw 404 "Active subscription not found"
  | Some subscription =>
      txs <- gets transactions ;;
      let transaction :=
        newTransaction txs userId subscriptionId SUBSCRIPTION_CANCELLED 0
                       (Subscription.plan subscription) TX_COMPLETED
                       (Some now) in
      modify (fun s => with_transactions (transactions s ++ [transaction]) s) ;;;
      let subscription :=
        if immediate then
          Subscription.set_endDate (Some now)
            (Subscription.set_status CANCELLED subscription)
        else
          Subscription.set_cancellationReason reason
            (Subscription.set_cancelledAt (Some now) subscription) in
      saveSubscription subscription ;;;
      ret (subscription, transaction)
  end.

Definition renewSubscription (now : Z) (userId subscriptionId : string)
  : M (Subscription.t * Transaction.t) :=
  found <- findOwned subscriptionId userId EXPIRED ;;
  match found with
  | None => throw 404 "Expired subscription not found"
  | Some subscription =>
      txs <- gets transactions ;;
      let transaction :=
        newTransaction txs userId subscriptionId SUBSCRIPTION_ACTIVATED
                       (Subscription.price subscription)
                       (Subscription.plan subscription) TX_PENDING None in
      modify (fun s => with_transactions (transactions s ++ [transaction]) s) ;;;
      modify (fun s =>
        with_transactions
          (updateStatus transaction TX_COMPLETED now (transactions s)) s) ;;;
      let duration := getSubscriptionDuration (Subscription.plan subscription) in
      let subscription :=
        Subscription.set_cancellationReason None
          (Subscription.set_cancelledAt None
             (Subscription.set_endDate (Some (now + duration * msPerDay))
                (Subscription.set_startDate (Some now)
                   (Subscription.set_status ACTIVE subscription)))) in
      saveSubscription subscription ;;;
      ret (subscription, transaction)
  end.

End Externals.

End SubscriptionController.

(** ** controllers/subscriptionController.js: devices and downgrade *)

Module SelfService.

(** The answer of [checkDeviceIsOnboarded]. *)
Record Onboarding : Type := mkOnboarding {
  ob_isOnboarded : bool;
  ob_deviceExists : bool
}.

(** The [pendingPlanChange] that [downgradeSubscription] puts on the
    document it holds; it is not a path of the schema. Its price is what
    the lookup gave, a number or not. *)
Record PendingPlanChange : Type := mkPendingPlanChange {
  pc_newPlan : string;
  pc_newPrice : Looked;
  pc_effectiveDate : option Z
}.

Section Externals.

Variable generateTransactionId : list Transaction.t -> string.

(** [QRCode.toDataURL], of the qrcode library. *)
Variable toDataURL : string -> string.

(** The [_id] that the store gives to an inserted device. *)
Variable freshDeviceId : list Device.t -> string.

(** Whether the devices collection has a unique index on [imei]: the
    device model is not among the sources. With one, the insert of a
    second device with an IMEI fails with the duplicate-key error that the
    [catch] turns into 400 "imei already exists". *)
Variable imeiUnique : bool.

Definition checkDeviceIsOnboarded (userId imei : string) : M Onboarding :=
  throwIf (String.eqb imei "") 400 "Please provide all valid IMEI" ;;;
  existingDeviceByImei <- gets (fun s =>
    SubscriptionController.findDevice userId imei (devices s)) ;;
  ret (mkOnboarding
         (match existingDeviceByImei with
          | Some d => Device.isOnboarded d
          | None => false
          end)
         (isSome existingDeviceByImei)).

(** [findOneAndUpdate(filter, update)] on a document that exists: the
    first document that matches takes the update. *)
Fixpoint updateFirst (p : Device.t -> bool) (f : Device.t -> Device.t)
         (docs : list Device.t) : list Device.t :=
  match docs with
  | [] => []
  | d :: rest => if p d then f d :: rest else d :: updateFirst p f rest
  end.

(** [secret] and [otpauthUrl] are the [base32] and [otpauth_url] of the
    secret that [speakeasy.generateSecret] drew for this request. The
    upsert is keyed by (user, imei). *)
Definition setupDeviceOtp (secret otpauthUrl : string)
           (userId imei deviceName : string) : M (string * string) :=
  throwIf (String.eqb imei "" || String.eqb deviceName "")
          400 "Please provide all required fields" ;;;
  existing <- gets (fun s =>
    SubscriptionController.findDevice userId imei (devices s)) ;;
  match existing with
  | Some _ =>
      modify (fun s =>
        with_devices
          (updateFirst
             (fun d => String.eqb (Device.user d) userId
                       && String.eqb (Device.imei d) imei)
             (fun d => Device.mk (Device._id d) userId imei secret
                                 deviceName false)
             (devices s)) s) ;;;
      ret (toDataURL otpauthUrl, secret)
  | None =>
      taken <- gets (fun s =>
        existsb (fun d => String.eqb (Device.imei d) imei) (devices s)) ;;
      throwIf (imeiUnique && taken) 400 "imei already exists" ;;;
      modify (fun s =>
        with_devices
          (devices s
           ++ [Device.mk (freshDeviceId (devices s)) userId imei secret
                         deviceName false]) s) ;;;
      ret (toDataURL otpauthUrl, secret)
  end.

Definition downgradeSubscription (now : Z) (userId subscriptionId : string)
           (newPlan : string)
  : M (Subscription.t * PendingPlanChange * Transaction.t) :=
  found <- SubscriptionController.findOwned subscriptionId userId ACTIVE ;;
  match found with
  | None => throw 404 "Active subscription not found"
  | Some subscription =>
      let newPrice := getSubscriptionPrice newPlan in
      txs <- gets transactions ;;
      let transaction :=
        SubscriptionController.newTransaction generateTransactionId txs
          userId subscriptionId SUBSCRIPTION_DOWNGRADED 0 newPlan
          TX_COMPLETED (Some now) in
      modify (fun s => with_transactions (transactions s ++ [transaction]) s) ;;;
      saveSubscription subscription ;;;
      ret (subscription,
           mkPendingPlanChange newPlan newPrice
                               (Subscription.endDate subscription),
           transaction)
  end.

End Externals.

End SelfService.

(** * Definitions used by the properties *)

(** ** Invariants and filters, in the words of the specification *)

(** [_id] is the key of the collection: no two documents share it. *)
Definition uniqueIds (docs : list Subscription.t) : Prop :=
  NoDup (map Subscription._id docs).

(** The ACTIVE subscriptions of an identity ([key] is [user]) or of an
    IMEI ([key] is [imei]). *)
Definition activeFor (key : Subscription.t -> string) (k : string)
           (docs : list Subscription.t) : list Subscription.t :=
  filter (fun d => String.eqb (key d) k
                   && Status_eqb (Subscription.status d) ACTIVE) docs.

(** At most one ACTIVE subscription per identity and at most one per IMEI. *)
Definition atMostOneActive (docs : list Subscription.t) : Prop :=
  (forall u, (length (activeFor Subscription.user u docs) <= 1)%nat)
  /\ (forall i, (length (activeFor Subscription.imei i docs) <= 1)%nat).

(** The filter [{ _id: subscriptionId, user: userId, status }]. *)
Definition ownedBy (subscriptionId userId : string) (st : Status)
           (d : Subscription.t) : bool :=
  String.eqb (Subscription._id d) subscriptionId
  && String.eqb (Subscription.user d) userId
  && Status_eqb (Subscription.status d) st.

(** ** What [reorderDeviceQueue] writes *)

(** The array that [reorderDeviceQueue] walks: the queue of the IMEI, sorted. *)
Definition sortedQueue (imei : string) (docs : list Subscription.t)
  : list Subscription.t :=
  sortQueue (filter (inQueue imei) docs).

(** The index of the document with a given [_id] in the sorted array. *)
Fixpoint indexOf (id : string) (l : list Subscription.t) : option nat :=
  match l with
  | [] => None
  | d :: rest =>
      if String.eqb (Subscription._id d) id then Some 0%nat
      else option_map S (indexOf id rest)
  end.

(** The document that the loop, started at index [i] over the array [l],
    leaves in the place of the stored document [x]. *)
Definition renumber (i : nat) (l : list Subscription.t) (x : Subscription.t)
  : Subscription.t :=
  match indexOf (Subscription._id x) l with
  | Some k =>
      schemaPaths
        (Subscription.set_queuePosition
           (Some (toString (Z.of_nat (i + k + 1)))) (nth k l x))
  | None => x
  end.

(** The queue position that the loop writes for [x]. *)
Definition positionWritten (i : nat) (l : list Subscription.t)
           (x : Subscription.t) : option string :=
  match indexOf (Subscription._id x) l with
  | Some k => Some (toString (Z.of_nat (i + k + 1)))
  | None => Subscription.queuePosition x
  end.

(** ** Ledger entries of the admin transitions *)

(** The entry that [logTransactionUpdate] builds after [prior]. *)
Definition loggedEntry
           (generateTransactionId : list Transaction.t -> string)
           (now : Z) (subscriptionId : string)
           (type : TransactionType) (status : TransactionStatus)
           (adminId : string)
           (additionalData : AdminController.AdditionalData)
           (txs : list Transaction.t) (prior : Transaction.t)
  : Transaction.t :=
  Transaction.mk
    (AdminController.freshTransactionId txs) (Transaction.user prior)
    subscriptionId
    (Transaction.device prior) (generateTransactionId txs) type
    (Transaction.amount prior) (Transaction.plan prior) status
    (Some adminId) (Some now) (Some (Transaction._id prior)) []
    (orEmpty (AdminController.ad_adminNotes additionalData))
    (match AdminController.ad_subscriptionPeriod additionalData with
     | Some p => Some p
     | None => Transaction.subscriptionPeriod prior
     end)
    None.

(** The ledger after [logTransactionUpdate]: with a prior entry for the
    subscription the new entry is appended and its [_id] is pushed on
    the prior entry's [relatedTransactions]; without one the ledger is
    left as it is. *)
Definition ledgerAfterLog
           (generateTransactionId : list Transaction.t -> string)
           (now : Z) (subscriptionId : string)
           (type : TransactionType) (status : TransactionStatus)
           (adminId : string)
           (additionalData : AdminController.AdditionalData)
           (txs : list Transaction.t) : list Transaction.t :=
  match AdminController.latestTransaction subscriptionId txs with
  | Some prior =>
      let entry :=
        loggedEntry generateTransactionId now subscriptionId type status
                    adminId additionalData txs prior in
      AdminController.saveTransaction
        (Transaction.set_relatedTransactions
           (Transaction.relatedTransactions prior ++ [Transaction._id entry])
           prior)
        (txs ++ [entry])
  | None => txs
  end.





(** ** Bulk callbacks, per id *)

(** The document that the [approve] callback saves. *)
Definition bulkApproved (now : Z) (adminId : string)
           (data : AdminController.BulkData) (sub : Subscription.t)
  : Subscription.t :=
  let sub :=
    Subscription.set_reviewedAt (Some now)
      (Subscription.set_reviewedBy (Some adminId)
         (Subscription.set_adminNotes
            (Some (orEmpty (AdminController.comments data)))
            (Subscription.set_status
               (if AdminController.activateNow data then ACTIVE else APPROVED)
               sub))) in
  if AdminController.activateNow data then
    Subscription.set_endDate
      (Some (now + getSubscriptionDuration (Subscription.plan sub) * msPerDay))
      (Subscription.set_startDate (Some now) sub)
  else sub.

(** The entry of the answer for one id of a bulk approval, from the
    stored subscription of that id. *)
Definition approveOutcome {platform : Platform}
           (data : option AdminController.BulkData)
           (read : AdminController.Lookup) (id : string)
  : AdminController.BulkResult :=
  match read with
  | AdminController.Document sub =>
      if Status_eqb (Subscription.status sub) PENDING then
        match data with
        | Some _ => AdminController.mkBulkResult id "approved" None true
        | None =>
            AdminController.mkBulkResult id "failed"
              (Some (AdminController.typeErrorMessage "activateNow")) false
        end
      else AdminController.invalidOrNotFound id
  | AdminController.Missing => AdminController.invalidOrNotFound id
  | AdminController.NotAnId => AdminController.castFailed id
  end.

(** What a bulk approval leaves stored under one id. *)
Definition approveEffect (now : Z) (adminId : string)
           (data : option AdminController.BulkData)
           (found : option Subscription.t) : option Subscription.t :=
  match found, data with
  | Some sub, Some d =>
      if Status_eqb (Subscription.status sub) PENDING
      then Some (schemaPaths (bulkApproved now adminId d sub))
      else Some sub
  | _, _ => found
  end.

(** The document that the [reject] callback saves. *)
Definition bulkRejected (now : Z) (adminId : string)
           (data : AdminController.BulkData) (sub : Subscription.t)
  : Subscription.t :=
  Subscription.set_reviewedAt (Some now)
    (Subscription.set_reviewedBy (Some adminId)
       (Subscription.set_adminNotes
          (Some (trim (orEmpty (AdminController.reason data) ++ ". "
                       ++ orEmpty (AdminController.comments data))))
          (Subscription.set_status CANCELLED sub))).

Definition rejectOutcome {platform : Platform}
           (read : AdminController.Lookup) (id : string)
  : AdminController.BulkResult :=
  match read with
  | AdminController.Document sub =>
      if Status_eqb (Subscription.status sub) PENDING
      then AdminController.mkBulkResult id "rejected" None true
      else AdminController.invalidOrNotFound id
  | AdminController.Missing => AdminController.invalidOrNotFound id
  | AdminController.NotAnId => AdminController.castFailed id
  end.

Definition rejectEffect (now : Z) (adminId : string)
           (data : AdminController.BulkData) (found : option Subscription.t)
  : option Subscription.t :=
  match found with
  | Some sub =>
      if Status_eqb (Subscription.status sub) PENDING
      then Some (schemaPaths (bulkRejected now adminId data sub))
      else Some sub
  | None => None
  end.

(** ** The store after an activation by one-time code *)

(** The store after a successful activation by one-time code. *)
Definition activatedByOtp (now : Z) (subscriptionId deviceId : string)
           (s : State) : State :=
  with_devices
    (map (fun x => if String.eqb (Device._id x) deviceId
                   then Device.set_isOnboarded true x else x) (devices s))
    (with_subscriptions
       (map (fun x =>
               if String.eqb (Subscription._id x) subscriptionId
               then Subscription.set_endDate
                      (Some (SubscriptionController.addDays now 30))
                      (Subscription.set_startDate (Some now)
                         (Subscription.set_status ACTIVE x))
               else x) (subscriptions s))
       s).

(** ** Stores and collaborators of the worked cases *)

(** Two IMEIs. *)
Definition imeiA : string := "123456789012345".
Definition imeiB : string := "490154203237518".

(** A subscription of user [u] for device [i] with plan ["mobile-v4-basic"],
    created at time [c]. *)
Definition subscriptionOf (id u i : string) (pos : option string)
           (st : Status) (c : Z) : Subscription.t :=
  Subscription.mk id u i "mobile-v4-basic" 2999 pos None None st
                  None None None 0 c None None.

(** A generator of transaction ids for the worked cases: it numbers the
    entries. *)
Definition numberedTransactionId (txs : list Transaction.t) : string :=
  "TXN-" ++ toString (Z.of_nat (length txs)).

(** An accepted code, for a code generator that writes the counter. *)
Definition counterCode (secret : string) (counter : Z) : string :=
  secret ++ "-" ++ toString counter.

(** A platform for the worked cases: an ObjectId is a string of 24
    characters, and a string is less than one when it is all digits and
    writes zero. *)
Definition workedPlatform : Platform :=
  mkPlatform
    (fun id => Nat.eqb (String.length id) 24)
    (fun id => "Cast to ObjectId failed for value " ++ id)
    (fun k => "Cannot increment with non-numeric argument: " ++ toString k)
    "Transaction validation failed: amount"
    (fun text => match toNumber (Some text) with
                 | Some n => n <? 1
                 | None => false
                 end).

(** Ten pending subscriptions of one device, at positions 1 to 10. *)
Definition tenPending : list Subscription.t :=
  map (fun k => subscriptionOf ("sub" ++ toString (Z.of_nat k)) "alice" imeiA
                  (Some (toString (Z.of_nat k))) PENDING (Z.of_nat k))
      (seq 1 10).

(** Two pending subscriptions of one device, at positions 1 and 2. *)
Definition twoPending : State :=
  mkState [ subscriptionOf "sub1" "alice" imeiA (Some "1") PENDING 1;
            subscriptionOf "sub2" "bob" imeiA (Some "2") PENDING 2 ]
          [] [].

(** One pending subscription, and a ledger that holds nothing for it. *)
Definition pendingWithoutLedger : State :=
  mkState [ subscriptionOf "sub1" "alice" imeiA (Some "1") PENDING 1 ] [] [].

(** The same subscription with the ledger entry of its creation. *)
Definition pendingWithLedger : State :=
  mkState [ subscriptionOf "sub1" "alice" imeiA (Some "1") PENDING 1 ]
          [ Transaction.mk 1 "alice" "sub1" (Some "dev1") "TXN-0"
              SUBSCRIPTION_CREATED 2999 "mobile-v4-basic" TX_PENDING
              None None None [] "" None None ]
          [].

(** An identity with an ACTIVE subscription on its device, a second,
    QUEUED, subscription for the same device, and the device's record. *)
Definition activeAndQueued : State :=
  mkState [ subscriptionOf "sub1" "alice" imeiA None ACTIVE 1;
            subscriptionOf "sub2" "alice" imeiA (Some "1") QUEUED 2 ]
          []
          [ Device.mk "dev1" "alice" imeiA "JBSWY3DPEHPK3PXP" "Phone" false ].

(** An identity with an ACTIVE subscription and an EXPIRED one. *)
Definition activeAndExpired : State :=
  mkState [ subscriptionOf "sub1" "alice" imeiA None ACTIVE 1;
            subscriptionOf "sub2" "alice" imeiA None EXPIRED 2 ]
          [] [].

(** An ACTIVE full-suite-premium subscription, started at time 0. *)
Definition activePremium : State :=
  mkState [ Subscription.mk "sub1" "alice" imeiA "full-suite-premium" 14999
              None (Some 0) (Some (90 * msPerDay)) ACTIVE
              None None None 0 0 None None ]
          [] [].

(** A QUEUED full-suite-premium subscription (a plan of 90 days) and the
    device of its identity. *)
Definition queuedPremium : State :=
  mkState [ Subscription.mk "sub1" "alice" imeiA "full-suite-premium" 14999
              (Some "1") None None QUEUED None None None 0 0 None None ]
          []
          [ Device.mk "dev1" "alice" imeiA "JBSWY3DPEHPK3PXP" "Phone" false ].

(** Two pending subscriptions of one device that were created without a
    queue position. *)
Definition pendingUnnumbered : State :=
  mkState [ subscriptionOf "sub1" "alice" imeiA None PENDING 1;
            subscriptionOf "sub2" "bob" imeiA None PENDING 2 ]
          [] [].

(** An ACTIVE mobile-v4-basic subscription, started at time 0, and the
    store that holds it with the ledger entry of its creation and the
    device of its identity. *)
Definition basicSubscription : Subscription.t :=
  Subscription.mk "sub1" "alice" imeiA "mobile-v4-basic" 2999
    None (Some 0) (Some (30 * msPerDay)) ACTIVE None None None 0 0 None None.

Definition activeBasic : State :=
  mkState [ basicSubscription ]
          [ Transaction.mk 1 "alice" "sub1" (Some "dev1") "TXN-0"
              SUBSCRIPTION_CREATED 2999 "mobile-v4-basic" TX_PENDING
              None None None [] "" None None ]
          [ Device.mk "dev1" "alice" imeiA "JBSWY3DPEHPK3PXP" "Phone" true ].

(** A ledger update that leaves the ledger as it is. *)
Definition keepLedger (t : Transaction.t) (status : TransactionStatus)
           (completedAt : Z) (txs : list Transaction.t)
  : list Transaction.t := txs.

(** Three subscriptions of three devices; the second is CANCELLED. *)
Definition secondCancelled : State :=
  mkState [ subscriptionOf "id1" "alice" imeiA (Some "1") PENDING 1;
            subscriptionOf "id2" "bob" imeiB None CANCELLED 2;
            subscriptionOf "id3" "carol" "352099001761481" (Some "1") PENDING 3 ]
          [] [].

(** ** The operations on the store *)

(** What the handlers take from the models and libraries that are not
    among the sources. *)
Record Collaborators : Type := mkCollaborators {
  c_generateTransactionId : list Transaction.t -> string;
  c_platform : Platform;
  c_updateStatus : Transaction.t -> TransactionStatus -> Z ->
                   list Transaction.t -> list Transaction.t;
  c_hotp : string -> Z -> string;
  c_toDataURL : string -> string;
  c_freshDeviceId : list Device.t -> string;
  c_imeiUnique : bool
}.

(** A request to one of the exported handlers, or a call of one of the
    statics of the subscription model, with its arguments. The position
    of a queue-position update comes as a number or as a text. *)
Inductive Operation : Type :=
  | AdminApprove (adminId id : string) (comments : option string)
                 (activateNow : bool)
  | AdminReject (adminId id : string) (reason comments : option string)
  | AdminActivate (adminId id : string) (comments : option string)
  | AdminUpdateQueuePosition (adminId id : string) (newPosition : Z)
  | AdminUpdateQueuePositionText (adminId id : string) (newPosition : string)
  | AdminBulk (adminId : string) (subscriptionIds : list string)
              (action : string) (data : option AdminController.BulkData)
  | OtpActivate (userId subscriptionId imei totpCode : string)
  | Upgrade (userId subscriptionId newPlan : string)
  | Downgrade (userId subscriptionId newPlan : string)
  | Cancel (userId subscriptionId : string) (reason : option string)
           (immediate : bool)
  | Renew (userId subscriptionId : string)
  | CheckDevice (userId imei : string)
  | SetupDevice (secret otpauthUrl userId imei deviceName : string)
  | NextQueuePosition (imei : string)
  | ReorderQueue (imei : string)
  | HasActive (imei : string).

(** The operation run at time [now]; the answer is dropped. *)
Definition perform (c : Collaborators) (now : Z) (op : Operation) : M unit :=
  match op with
  | AdminApprove adminId id comments activateNow =>
      AdminController.approveSubscription (c_generateTransactionId c) now
        adminId id comments activateNow ;;; ret tt
  | AdminReject adminId id reason comments =>
      AdminController.rejectSubscription (c_generateTransactionId c) now
        adminId id reason comments ;;; ret tt
  | AdminActivate adminId id comments =>
      AdminController.activateSubscription (c_generateTransactionId c) now
        adminId id comments ;;; ret tt
  | AdminUpdateQueuePosition adminId id newPosition =>
      AdminController.updateQueuePosition (platform := c_platform c)
        (c_generateTransactionId c) now adminId id
        (AdminController.PositionNumber newPosition) ;;; ret tt
  | AdminUpdateQueuePositionText adminId id newPosition =>
      AdminController.updateQueuePosition (platform := c_platform c)
        (c_generateTransactionId c) now adminId id
        (AdminController.PositionString newPosition) ;;; ret tt
  | AdminBulk adminId subscriptionIds action data =>
      AdminController.bulkUpdateSubscriptions (platform := c_platform c)
        (c_generateTransactionId c) now adminId subscriptionIds action data
      ;;; ret tt
  | OtpActivate userId subscriptionId imei totpCode =>
      SubscriptionController.activateSubscription (c_hotp c) now userId
        subscriptionId imei totpCode ;;; ret tt
  | Upgrade userId subscriptionId newPlan =>
      SubscriptionController.upgradeSubscription (platform := c_platform c)
        (c_generateTransactionId c) (c_updateStatus c) now userId
        subscriptionId newPlan ;;; ret tt
  | Downgrade userId subscriptionId newPlan =>
      SelfService.downgradeSubscription (c_generateTransactionId c) now
        userId subscriptionId newPlan ;;; ret tt
  | Cancel userId subscriptionId reason immediate =>
      SubscriptionController.cancelSubscription (c_generateTransactionId c)
        now userId subscriptionId reason immediate ;;; ret tt
  | Renew userId subscriptionId =>
      SubscriptionController.renewSubscription (c_generateTransactionId c)
        (c_updateStatus c) now userId subscriptionId ;;; ret tt
  | CheckDevice userId imei =>
      SelfService.checkDeviceIsOnboarded userId imei ;;; ret tt
  | SetupDevice secret otpauthUrl userId imei deviceName =>
      SelfService.setupDeviceOtp (c_toDataURL c) (c_freshDeviceId c)
        (c_imeiUnique c) secret otpauthUrl userId imei deviceName ;;; ret tt
  | NextQueuePosition imei => getNextQueuePosition imei ;;; ret tt
  | ReorderQueue imei => reorderDeviceQueue imei ;;; ret tt
  | HasActive imei => hasActiveSubscription imei ;;; ret tt
  end.

(** The store after a sequence of operations, each with its time. *)
Definition performAll (c : Collaborators) (ops : list (Z * Operation))
           (s : State) : State :=
  fold_left (fun st op => snd (perform c (fst op) (snd op) st)) ops s.

(** The price of the subscription is the price of its plan. *)
Definition derivedPrice (d : Subscription.t) : Prop :=
  Subscription.price d = getSubscriptionPrice (Subscription.plan d).

(** [y] is the stored document [x] at a later time: same key, same
    identity, same IMEI; it is QUEUED only if it was, and its price is
    still derived from its plan if it was. *)
Definition sameSubscription (x y : Subscription.t) : Prop :=
  Subscription._id y = Subscription._id x
  /\ Subscription.user y = Subscription.user x
  /\ Subscription.imei y = Subscription.imei x
  /\ (Subscription.status y = QUEUED -> Subscription.status x = QUEUED)
  /\ (derivedPrice x -> derivedPrice y).

(** The collection before and after, document by document. *)
Definition Edits (before after : list Subscription.t) : Prop :=
  Forall2 sameSubscription before after.

(** What is asked of the outcome of an operation on the store [s]. *)
Definition Outcome {A : Type} (s : State) (out : Result A * State) : Prop :=
  (uniqueIds (subscriptions s) ->
   Edits (subscriptions s) (subscriptions (snd out)))
  /\ (forall code message,
         fst out = Throw code message -> code <> 500 -> snd out = s).

Definition noneQueued (docs : list Subscription.t) : Prop :=
  Forall (fun d => Subscription.status d <> QUEUED) docs.

(** Key, identity and IMEI of a subscription. *)
Definition subscriptionKey (d : Subscription.t) : string * string * string :=
  (Subscription._id d, Subscription.user d, Subscription.imei d).

(** Collaborators of the worked cases. *)
Definition workedCollaborators : Collaborators :=
  mkCollaborators numberedTransactionId workedPlatform keepLedger counterCode
                  (fun url => "data:image/png;base64," ++ url)
                  (fun docs => "dev" ++ toString (Z.of_nat (S (length docs))))
                  false.

(** A review, an activation, an upgrade and an immediate cancellation of
    "sub1", at four times. *)
Definition workedOperations : list (Z * Operation) :=
  [ (1000, AdminApprove "admin" "sub1" (Some "ok") false);
    (2000, AdminActivate "admin" "sub1" None);
    (3000, Upgrade "alice" "sub1" "mobile-v4-premium");
    (4000, Cancel "alice" "sub1" None true) ].

(** A device with an ACTIVE subscription of one identity and a PENDING
    subscription of another. *)
Definition activeAndPending : State :=
  mkState [ subscriptionOf "sub1" "alice" imeiA None ACTIVE 1;
            subscriptionOf "sub2" "bob" imeiA (Some "1") PENDING 2 ]
          [] [].

(** * Properties *)

Lemma Status_eqb_eq (a b : Status) : Status_eqb a b = true <-> a = b.
Proof. destruct a, b; simpl; split; intro H; try reflexivity; discriminate. Qed.

Ltac run_handler :=
  unfold saveSubscription, findOneSubscription, throwIf,
         bind, ret, throw, gets, modify in *;
  cbn beta iota in *.

(** ** C2: the next queue position *)

(** C2 (defect). The specification asks [getNextQueuePosition(imei)] for the
    greatest queue position of the IMEI's PENDING/QUEUED subscriptions plus
    one. The code takes the document that sorts last by [queuePosition], a
    [String] path, so the order is that of strings: with positions 1 to 10
    in the queue the last one is "9", and the code answers "10", a position
    that is taken, where the greatest position plus one is "11". *)
Theorem getNextQueuePosition_ten_pending :
  densePacked imeiA tenPending
  /\ fst (getNextQueuePosition imeiA (mkState tenPending [] [])) = Ok "10"
  /\ In (Some "10") (queuePositions imeiA tenPending)
  /\ specNextQueuePosition imeiA tenPending = "11".
Proof.
  split; [| split; [| split]].
  - unfold densePacked. apply Permutation_refl.
  - reflexivity.
  - vm_compute. do 9 right. left. reflexivity.
  - reflexivity.
Qed.

(** Below ten the order of strings is the order of numbers: with positions
    1 to 9 the answer is the greatest position plus one. *)
Example getNextQueuePosition_nine_pending :
  let docs := firstn 9 tenPending in
  fst (getNextQueuePosition imeiA (mkState docs [] [])) = Ok "10"
  /\ specNextQueuePosition imeiA docs = "10".
Proof. split; reflexivity. Qed.

(** X5. When no PENDING or QUEUED subscription of the IMEI holds a queue
    position (there is none, or they were created without one),
    [getNextQueuePosition(imei)] answers "1" and leaves the store as it
    is. *)
Lemma getNextQueuePosition_default (imei : string) (s : State) :
  (forall d, In d (subscriptions s) -> inQueue imei d = true ->
             truthy (Subscription.queuePosition d) = false) ->
  getNextQueuePosition imei s = (Ok "1", s).
Proof.
  intros H. unfold getNextQueuePosition. run_handler.
  assert (Hq : forall d, In d (filter (inQueue imei) (subscriptions s)) ->
                         truthy (Subscription.queuePosition d) = false).
  { intros d Hd. apply filter_In in Hd. destruct Hd. now apply H. }
  clear H. revert Hq.
  generalize (filter (inQueue imei) (subscriptions s)) as q.
  intros q Hq.
  assert (Hl : forall b, lastByQueuePosition q = Some b -> In b q).
  { clear Hq. induction q as [| d q IH]; simpl; intros b Hb; [discriminate |].
    destruct (lastByQueuePosition q) as [b' |].
    - destruct (position_ltb _ _); inversion Hb; subst; auto.
    - inversion Hb; subst; auto. }
  destruct (lastByQueuePosition q) as [b |] eqn:E; [| reflexivity].
  rewrite (Hq b (Hl b eq_refl)). reflexivity.
Qed.

(** ** Lists of documents keyed by [_id] *)

Lemma uniqueIds_same (docs : list Subscription.t) (x y : Subscription.t) :
  uniqueIds docs -> In x docs -> In y docs ->
  Subscription._id x = Subscription._id y -> x = y.
Proof.
  unfold uniqueIds. induction docs as [| d docs IH]; simpl; intros Hn Hx Hy E.
  - contradiction.
  - inversion Hn as [| ? ? Hnot Hn']; subst.
    destruct Hx as [-> | Hx], Hy as [-> | Hy]; auto.
    + exfalso. apply Hnot. rewrite E. now apply in_map.
    + exfalso. apply Hnot. rewrite <- E. now apply in_map.
Qed.

Lemma uniqueIds_filter (p : Subscription.t -> bool) (docs : list Subscription.t) :
  uniqueIds docs -> uniqueIds (filter p docs).
Proof.
  unfold uniqueIds. induction docs as [| d docs IH]; simpl; intros Hn; auto.
  inversion Hn as [| ? ? Hnot Hn']; subst.
  destruct (p d); simpl; auto.
  constructor; auto.
  intros Hin. apply Hnot. apply in_map_iff in Hin.
  destruct Hin as [x [Ex Hx]]. apply filter_In in Hx.
  rewrite <- Ex. apply in_map. tauto.
Qed.

Lemma filter_map_preserved {A : Type} (p : A -> bool) (f : A -> A) (l : list A) :
  (forall x, In x l -> p (f x) = p x) ->
  filter p (map f l) = map f (filter p l).
Proof.
  induction l as [| a l IH]; simpl; intros H; auto.
  rewrite (H a (or_introl eq_refl)).
  destruct (p a); simpl; rewrite IH; auto.
Qed.

Lemma with_subscriptions_same (s : State) :
  with_subscriptions (subscriptions s) s = s.
Proof. destruct s; reflexivity. Qed.

(** ** The sort of [reorderDeviceQueue] keeps the documents *)

Lemma insertSorted_perm (d : Subscription.t) (l : list Subscription.t) :
  Permutation (insertSorted d l) (d :: l).
Proof.
  induction l as [| x l IH]; simpl.
  - apply Permutation_refl.
  - destruct (queueOrder d x).
    + apply Permutation_refl.
    + eapply perm_trans; [apply perm_skip, IH | apply perm_swap].
Qed.

Lemma sortQueue_perm (l : list Subscription.t) : Permutation (sortQueue l) l.
Proof.
  induction l as [| d l IH]; simpl.
  - apply perm_nil.
  - eapply perm_trans; [apply insertSorted_perm | now apply perm_skip].
Qed.

(** ** What the loop of [reorderDeviceQueue] writes *)

Lemma indexOf_nth (l : list Subscription.t) (id : string) (k : nat)
      (x : Subscription.t) :
  indexOf id l = Some k ->
  In (nth k l x) l /\ Subscription._id (nth k l x) = id.
Proof.
  revert k. induction l as [| d l IH]; simpl; intros k H; [discriminate |].
  destruct (String.eqb (Subscription._id d) id) eqn:E.
  - inversion H; subst. apply String.eqb_eq in E. auto.
  - destruct (indexOf id l) as [k' |]; simpl in H; [| discriminate].
    inversion H; subst. destruct (IH k' eq_refl). auto.
Qed.

Lemma indexOf_In (l : list Subscription.t) (x : Subscription.t) :
  In x l -> exists k, indexOf (Subscription._id x) l = Some k.
Proof.
  induction l as [| d l IH]; simpl; intros H; [contradiction |].
  destruct (String.eqb (Subscription._id d) (Subscription._id x)) eqn:E.
  - now exists 0%nat.
  - destruct H as [-> | H]; [rewrite String.eqb_refl in E; discriminate |].
    destruct (IH H) as [k Hk]. rewrite Hk. now exists (S k).
Qed.

Lemma indexOf_None (l : list Subscription.t) (id : string) :
  ~ In id (map Subscription._id l) -> indexOf id l = None.
Proof.
  induction l as [| d l IH]; simpl; intros H; auto.
  destruct (String.eqb (Subscription._id d) id) eqn:E.
  - apply String.eqb_eq in E. tauto.
  - rewrite IH; auto.
Qed.

Lemma reorderLoop_spec (l : list Subscription.t) :
  forall (i : nat) (s : State),
    uniqueIds l ->
    reorderLoop i l s =
    (Ok tt, with_subscriptions (map (renumber i l) (subscriptions s)) s).
Proof.
  induction l as [| d l IH]; intros i s Hn.
  - simpl. unfold ret. f_equal.
    rewrite (map_ext (renumber i []) (fun x => x)) by reflexivity.
    rewrite map_id. now rewrite with_subscriptions_same.
  - inversion Hn as [| ? ? Hnot Hn']; subst.
    cbn [reorderLoop]. run_handler. rewrite IH by exact Hn'.
    f_equal. unfold with_subscriptions. cbn [subscriptions transactions devices].
    f_equal. unfold replaceById. rewrite map_map. apply map_ext.
    intros x. unfold renumber at 2. cbn [indexOf].
    cbn [schemaPaths Subscription._id Subscription.set_queuePosition
         Subscription.set_cancelledAt Subscription.set_cancellationReason].
    rewrite (String.eqb_sym (Subscription._id x) (Subscription._id d)).
    destruct (String.eqb (Subscription._id d) (Subscription._id x)) eqn:E.
    + unfold renumber. cbn [Subscription._id].
      rewrite indexOf_None by exact Hnot.
      cbn [nth]. now rewrite Nat.add_0_r.
    + unfold renumber. destruct (indexOf (Subscription._id x) l) as [k |];
        cbn [option_map nth]; [| reflexivity].
      now replace (S i + k + 1)%nat with (i + S k + 1)%nat by lia.
Qed.

Lemma positionWritten_seq (l : list Subscription.t) :
  forall i : nat,
    uniqueIds l ->
    map (positionWritten i l) l =
    map (fun k => Some (toString (Z.of_nat k))) (seq (i + 1) (length l)).
Proof.
  induction l as [| d l IH]; intros i Hn; [reflexivity |].
  inversion Hn as [| ? ? Hnot Hn']; subst.
  cbn [map length seq]. f_equal.
  - unfold positionWritten. cbn [indexOf]. rewrite String.eqb_refl.
    now rewrite Nat.add_0_r.
  - replace (S (i + 1)) with (S i + 1)%nat by lia.
    rewrite <- (IH (S i) Hn'). apply map_ext_in. intros x Hx.
    unfold positionWritten. cbn [indexOf].
    destruct (String.eqb (Subscription._id d) (Subscription._id x)) eqn:E.
    + exfalso. apply Hnot. apply String.eqb_eq in E. rewrite E.
      now apply in_map.
    + destruct (indexOf_In l x Hx) as [k Hk]. rewrite Hk. cbn [option_map].
      now replace (S i + k + 1)%nat with (i + S k + 1)%nat by lia.
Qed.

Lemma inQueue_schemaPaths_position (imei : string) (v : option string)
      (x : Subscription.t) :
  inQueue imei (schemaPaths (Subscription.set_queuePosition v x))
  = inQueue imei x.
Proof. reflexivity. Qed.

Section ReorderDeviceQueue.

Variable imei : string.
Variable docs : list Subscription.t.
Hypothesis Hunique : uniqueIds docs.

Lemma sortedQueue_perm :
  Permutation (sortedQueue imei docs) (filter (inQueue imei) docs).
Proof. apply sortQueue_perm. Qed.

Lemma sorted_in_docs (x : Subscription.t) :
  In x (sortedQueue imei docs) -> In x docs /\ inQueue imei x = true.
Proof.
  intros H. apply (Permutation_in _ sortedQueue_perm) in H.
  now apply filter_In in H.
Qed.

Lemma sorted_unique : uniqueIds (sortedQueue imei docs).
Proof.
  unfold uniqueIds.
  apply (Permutation_NoDup
           (Permutation_map Subscription._id
              (Permutation_sym sortedQueue_perm))).
  now apply uniqueIds_filter.
Qed.

Lemma sorted_nth (x : Subscription.t) (k : nat) :
  In x docs ->
  indexOf (Subscription._id x) (sortedQueue imei docs) = Some k ->
  nth k (sortedQueue imei docs) x = x.
Proof.
  intros Hx Hk. destruct (indexOf_nth _ _ k x Hk) as [Hin Hid].
  apply (uniqueIds_same docs); auto.
  now apply sorted_in_docs.
Qed.

Lemma sorted_outside (x : Subscription.t) :
  In x docs -> inQueue imei x = false ->
  indexOf (Subscription._id x) (sortedQueue imei docs) = None.
Proof.
  intros Hx Hq.
  destruct (indexOf (Subscription._id x) (sortedQueue imei docs))
    as [k |] eqn:Hk; [| reflexivity].
  exfalso. pose proof (sorted_nth x k Hx Hk) as E.
  destruct (indexOf_nth _ _ k x Hk) as [Hin _]. rewrite E in Hin.
  apply sorted_in_docs in Hin. destruct Hin as [_ Hin]. congruence.
Qed.

Lemma renumber_inQueue (x : Subscription.t) :
  In x docs ->
  inQueue imei (renumber 0 (sortedQueue imei docs) x) = inQueue imei x.
Proof.
  intros Hx. unfold renumber.
  destruct (indexOf (Subscription._id x) (sortedQueue imei docs))
    as [k |] eqn:Hk; [| reflexivity].
  rewrite (sorted_nth x k Hx Hk). apply inQueue_schemaPaths_position.
Qed.

Lemma renumber_position (x : Subscription.t) :
  In x docs ->
  Subscription.queuePosition (renumber 0 (sortedQueue imei docs) x)
  = positionWritten 0 (sortedQueue imei docs) x.
Proof.
  intros Hx. unfold renumber, positionWritten.
  destruct (indexOf (Subscription._id x) (sortedQueue imei docs))
    as [k |] eqn:Hk; reflexivity.
Qed.

Lemma renumber_outside (x : Subscription.t) :
  In x docs -> inQueue imei x = false ->
  renumber 0 (sortedQueue imei docs) x = x.
Proof.
  intros Hx Hq. unfold renumber. now rewrite (sorted_outside x Hx Hq).
Qed.

Lemma renumber_queue :
  filter (inQueue imei) (map (renumber 0 (sortedQueue imei docs)) docs)
  = map (renumber 0 (sortedQueue imei docs)) (filter (inQueue imei) docs).
Proof. apply filter_map_preserved. intros x Hx. now apply renumber_inQueue. Qed.

Lemma renumber_dense :
  densePacked imei (map (renumber 0 (sortedQueue imei docs)) docs).
Proof.
  unfold densePacked, queuePositions, positions1.
  rewrite renumber_queue, map_map, length_map.
  rewrite (map_ext_in _ (positionWritten 0 (sortedQueue imei docs))).
  2:{ intros x Hx. apply renumber_position.
      apply filter_In in Hx. tauto. }
  eapply perm_trans.
  - apply Permutation_map. apply Permutation_sym. apply sortedQueue_perm.
  - rewrite (positionWritten_seq _ 0 sorted_unique). cbn [Nat.add].
    rewrite (Permutation_length sortedQueue_perm).
    apply Permutation_refl.
Qed.

End ReorderDeviceQueue.

(** [reorderDeviceQueue(imei)] answers the number of PENDING/QUEUED
    subscriptions of the IMEI and leaves their positions exactly 1..N, each
    once; the subscriptions outside that queue, the ledger and the devices
    are as before. *)
Lemma reorderDeviceQueue_spec (imei : string) (s : State) :
  uniqueIds (subscriptions s) ->
  exists s',
    reorderDeviceQueue imei s
    = (Ok (length (filter (inQueue imei) (subscriptions s))), s')
    /\ densePacked imei (subscriptions s')
    /\ length (filter (inQueue imei) (subscriptions s'))
       = length (filter (inQueue imei) (subscriptions s))
    /\ filter (fun d => negb (inQueue imei d)) (subscriptions s')
       = filter (fun d => negb (inQueue imei d)) (subscriptions s)
    /\ transactions s' = transactions s
    /\ devices s' = devices s.
Proof.
  intros Hu.
  exists (with_subscriptions
            (map (renumber 0 (sortedQueue imei (subscriptions s)))
                 (subscriptions s)) s).
  split; [| split; [| split; [| split; [| split]]]].
  - unfold reorderDeviceQueue. run_handler.
    fold (sortedQueue imei (subscriptions s)).
    rewrite reorderLoop_spec by (apply sorted_unique; exact Hu).
    now rewrite (Permutation_length (sortedQueue_perm imei (subscriptions s))).
  - apply renumber_dense. exact Hu.
  - cbn [with_subscriptions subscriptions].
    rewrite (renumber_queue imei _ Hu). apply length_map.
  - cbn [with_subscriptions subscriptions].
    rewrite filter_map_preserved.
    + rewrite (map_ext_in _ (fun x => x)); [apply map_id |].
      intros x Hx. apply filter_In in Hx. destruct Hx as [Hx Hq].
      apply (renumber_outside imei _ Hu x Hx).
      now apply negb_true_iff in Hq.
    + intros x Hx. now rewrite (renumber_inQueue imei _ Hu x Hx).
  - reflexivity.
  - reflexivity.
Qed.

(** ** Running [reorderDeviceQueue] again changes nothing *)






(** ** The ledger entry written by [logTransactionUpdate] *)

Section Ledger.

Import AdminController.

Variable generateTransactionId : list Transaction.t -> string.

Lemma logTransactionUpdate_spec (now : Z) (subscriptionId : string)
      (type : TransactionType) (status : TransactionStatus)
      (adminId : string) (additionalData : AdditionalData) (s : State) :
  logTransactionUpdate generateTransactionId now subscriptionId type status
                       adminId additionalData s
  = (Ok (option_map
           (loggedEntry generateTransactionId now subscriptionId type status adminId
                        additionalData (transactions s))
           (latestTransaction subscriptionId (transactions s))),
     with_transactions
       (ledgerAfterLog generateTransactionId now subscriptionId type status adminId
                       additionalData (transactions s)) s).
Proof.
  unfold logTransactionUpdate, ledgerAfterLog. run_handler.
  destruct (latestTransaction subscriptionId (transactions s)) as [prior |].
  - reflexivity.
  - cbn [option_map]. destruct s; reflexivity.
Qed.

Lemma ledgerAfterLog_none (now : Z) (subscriptionId : string)
      (type : TransactionType) (status : TransactionStatus)
      (adminId : string) (additionalData : AdditionalData)
      (txs : list Transaction.t) :
  latestTransaction subscriptionId txs = None ->
  ledgerAfterLog generateTransactionId now subscriptionId type status
                 adminId additionalData txs
  = txs.
Proof. unfold ledgerAfterLog. now intros ->. Qed.

End Ledger.

(** ** What a successful admin transition has done *)

Section AdminTransitions.

Import AdminController.

Variable generateTransactionId : list Transaction.t -> string.
Context {platform : Platform}.

Lemma approveSubscription_ok (now : Z) (adminId id : string)
      (comments : option string) (activateNow : bool)
      (s s' : State) (answer : Subscription.t) :
  approveSubscription generateTransactionId now adminId id comments
                      activateNow s = (Ok answer, s') ->
  exists sub,
    findById id (subscriptions s) = Some sub
    /\ Subscription.status sub = PENDING
    /\ find (fun d =>
         String.eqb (Subscription.user d) (Subscription.user sub)
         && Status_eqb (Subscription.status d) ACTIVE
         && negb (String.eqb (Subscription._id d) id)) (subscriptions s)
       = None
    /\ find (fun d =>
         String.eqb (Subscription.imei d) (Subscription.imei sub)
         && Status_eqb (Subscription.status d) ACTIVE
         && negb (String.eqb (Subscription._id d) id)) (subscriptions s)
       = None
    /\ Subscription._id answer = Subscription._id sub
    /\ Subscription.user answer = Subscription.user sub
    /\ Subscription.imei answer = Subscription.imei sub
    /\ Subscription.status answer
       = (if activateNow then ACTIVE else APPROVED)
    /\ s' = with_transactions
              (ledgerAfterLog generateTransactionId now id
                 (if activateNow then SUBSCRIPTION_ACTIVATED
                  else SUBSCRIPTION_APPROVED)
                 (if activateNow then TX_COMPLETED else TX_PENDING)
                 adminId
                 (mkAdditional comments
                    (if activateNow
                     then Some (Subscription.startDate answer,
                                Subscription.endDate answer)
                     else None))
                 (transactions s))
              (with_subscriptions
                 (replaceById (schemaPaths answer) (subscriptions s)) s).
Proof.
  unfold approveSubscription. intros H. run_handler.
  destruct (findById id (subscriptions s)) as [sub |] eqn:Ffind;
    [| discriminate H].
  exists sub.
  destruct (Status_eqb (Subscription.status sub) PENDING) eqn:Gst;
    cbn [negb] in H; [| discriminate H].
  apply Status_eqb_eq in Gst.
  match type of H with
  | context [isSome ?f] =>
      destruct f eqn:Fuser; cbn [isSome] in H; [discriminate H |]
  end.
  match type of H with
  | context [isSome ?f] =>
      destruct f eqn:Fimei; cbn [isSome] in H; [discriminate H |]
  end.
  rewrite logTransactionUpdate_spec in H.
  inversion H; subst; clear H.
  repeat split; auto; destruct activateNow; reflexivity.
Qed.

Lemma rejectSubscription_ok (now : Z) (adminId id : string)
      (reason comments : option string)
      (s s' : State) (answer : Subscription.t) :
  rejectSubscription generateTransactionId now adminId id reason comments s
  = (Ok answer, s') ->
  exists sub,
    findById id (subscriptions s) = Some sub
    /\ Subscription.status sub = PENDING
    /\ truthy reason = true
    /\ Subscription._id answer = Subscription._id sub
    /\ Subscription.imei answer = Subscription.imei sub
    /\ Subscription.status answer = CANCELLED
    /\ s' = with_transactions
              (ledgerAfterLog generateTransactionId now id
                 SUBSCRIPTION_REJECTED TX_FAILED adminId
                 (mkAdditional (Subscription.adminNotes answer) None)
                 (transactions s))
              (with_subscriptions
                 (replaceById (schemaPaths answer) (subscriptions s)) s).
Proof.
  unfold rejectSubscription. intros H. run_handler.
  destruct (truthy reason) eqn:Gr; cbn [negb] in H; [| discriminate H].
  destruct (findById id (subscriptions s)) as [sub |] eqn:Ffind;
    [| discriminate H].
  exists sub.
  destruct (Status_eqb (Subscription.status sub) PENDING) eqn:Gst;
    cbn [negb] in H; [| discriminate H].
  apply Status_eqb_eq in Gst.
  rewrite logTransactionUpdate_spec in H.
  inversion H; subst; clear H.
  repeat split; auto.
Qed.

Lemma activateSubscription_ok (now : Z) (adminId id : string)
      (comments : option string)
      (s s' : State) (answer : Subscription.t) :
  activateSubscription generateTransactionId now adminId id comments s
  = (Ok answer, s') ->
  exists sub,
    findById id (subscriptions s) = Some sub
    /\ Subscription.status sub = APPROVED
    /\ find (fun d =>
         ((String.eqb (Subscription.user d) (Subscription.user sub)
           && Status_eqb (Subscription.status d) ACTIVE)
          || (String.eqb (Subscription.imei d) (Subscription.imei sub)
              && Status_eqb (Subscription.status d) ACTIVE))
         && negb (String.eqb (Subscription._id d) id)) (subscriptions s)
       = None
    /\ Subscription._id answer = Subscription._id sub
    /\ Subscription.user answer = Subscription.user sub
    /\ Subscription.imei answer = Subscription.imei sub
    /\ Subscription.status answer = ACTIVE
    /\ Subscription.startDate answer = Some now
    /\ Subscription.endDate answer
       = Some (now + getSubscriptionDuration (Subscription.plan sub)
                     * msPerDay)
    /\ s' = with_transactions
              (ledgerAfterLog generateTransactionId now id
                 SUBSCRIPTION_ACTIVATED TX_COMPLETED adminId
                 (mkAdditional comments
                    (Some (Subscription.startDate answer,
                           Subscription.endDate answer)))
                 (transactions s))
              (with_subscriptions
                 (replaceById (schemaPaths answer) (subscriptions s)) s).
Proof.
  unfold activateSubscription. intros H. run_handler.
  destruct (findById id (subscriptions s)) as [sub |] eqn:Ffind;
    [| discriminate H].
  exists sub.
  destruct (Status_eqb (Subscription.status sub) APPROVED) eqn:Gst;
    cbn [negb] in H; [| discriminate H].
  apply Status_eqb_eq in Gst.
  match type of H with
  | context [isSome ?f] =>
      destruct f eqn:Factive; cbn [isSome] in H; [discriminate H |]
  end.
  rewrite logTransactionUpdate_spec in H.
  inversion H; subst; clear H.
  repeat split; auto; destruct (truthy comments); reflexivity.
Qed.

(** The outcomes of [updateQueuePosition], in the order of its checks:
    whatever the request, nothing is written. *)
Lemma updateQueuePosition_run (now : Z) (adminId id : string)
      (newPosition : Position) (s : State) :
  updateQueuePosition generateTransactionId now adminId id newPosition s
  = if invalidPosition newPosition
    then (Throw 400 "Valid queue position is required", s)
    else
      match findById id (subscriptions s) with
      | None => (Throw 404 "Subscription not found", s)
      | Some sub =>
          if negb (Status_eqb (Subscription.status sub) PENDING)
          then (Throw 400
                  "Can only update queue position for pending subscriptions",
                s)
          else if samePosition newPosition (Subscription.queuePosition sub)
          then (Ok (sub, Subscription.queuePosition sub, newPosition), s)
          else (Throw 500
                  (incRefusedMessage
                     (if positionLt newPosition
                                    (Subscription.queuePosition sub)
                      then 1 else -1)),
                s)
      end.
Proof.
  unfold updateQueuePosition. run_handler.
  destruct (invalidPosition newPosition); [reflexivity |].
  destruct (findById id (subscriptions s)) as [sub |]; [| reflexivity].
  destruct (negb (Status_eqb (Subscription.status sub) PENDING));
    [reflexivity |].
  destruct (samePosition newPosition (Subscription.queuePosition sub));
    [reflexivity |].
  destruct (positionLt newPosition (Subscription.queuePosition sub));
    reflexivity.
Qed.

End AdminTransitions.

(** ** C1: dense queue positions *)

Lemma filter_replaceById_outside (imei : string) (d : Subscription.t)
      (docs : list Subscription.t) :
  inQueue imei d = false ->
  filter (inQueue imei) (replaceById d docs)
  = filter (fun x => inQueue imei x
                     && negb (String.eqb (Subscription._id x)
                                         (Subscription._id d))) docs.
Proof.
  intros Hd. induction docs as [| x docs IH]; [reflexivity |].
  cbn [replaceById map filter]. fold (replaceById d docs). rewrite IH.
  destruct (String.eqb (Subscription._id x) (Subscription._id d)).
  - rewrite Hd. now rewrite andb_false_r.
  - now rewrite andb_true_r.
Qed.

(** C1, as stated, fails. The queue of the device holds positions 1 and 2;
    the admin approves the subscription at position 1; the handler answers
    with success, and the one subscription left in the queue keeps position
    2: the positions are not [{1}]. *)
Lemma approve_leaves_gap :
  densePacked imeiA (subscriptions twoPending)
  /\ exists answer s',
       AdminController.approveSubscription numberedTransactionId
         1000 "admin" "sub1" None true twoPending = (Ok answer, s')
       /\ queuePositions imeiA (subscriptions s') = [Some "2"]
       /\ ~ densePacked imeiA (subscriptions s').
Proof.
  split.
  - apply Permutation_refl.
  - eexists. eexists. split; [lazy; reflexivity |].
    split; [reflexivity |].
    unfold densePacked. cbn. intros P.
    apply Permutation_length_1_inv in P. discriminate P.
Qed.

(** C1 (amended). [reorderDeviceQueue(imei)] rewrites the queue positions
    of the IMEI's PENDING/QUEUED subscriptions to exactly 1..N, each once,
    and answers N, the number of such subscriptions. The handlers that
    take a subscription out of that set, approve and reject, do not call
    it: they leave the queue position of every other subscription as it
    was. *)
Theorem reorderDeviceQueue_dense (imei : string) (s : State) :
  uniqueIds (subscriptions s) ->
  (exists s',
     reorderDeviceQueue imei s
     = (Ok (length (filter (inQueue imei) (subscriptions s))), s')
     /\ densePacked imei (subscriptions s')
     /\ length (filter (inQueue imei) (subscriptions s'))
        = length (filter (inQueue imei) (subscriptions s)))
  /\ (forall generateTransactionId now adminId id comments activateNow
             answer s',
        AdminController.approveSubscription generateTransactionId now
          adminId id comments activateNow s = (Ok answer, s') ->
        filter (inQueue imei) (subscriptions s')
        = filter (fun x => inQueue imei x
                           && negb (String.eqb (Subscription._id x) id))
                 (subscriptions s))
  /\ (forall generateTransactionId now adminId id reason comments
             answer s',
        AdminController.rejectSubscription generateTransactionId now
          adminId id reason comments s = (Ok answer, s') ->
        filter (inQueue imei) (subscriptions s')
        = filter (fun x => inQueue imei x
                           && negb (String.eqb (Subscription._id x) id))
                 (subscriptions s)).
Proof.
  intros Hu. split; [| split].
  - destruct (reorderDeviceQueue_spec imei s Hu) as [s' [H1 [H2 [H3 _]]]].
    exists s'. auto.
  - intros gen now adminId id comments activateNow answer s' H.
    apply approveSubscription_ok in H.
    destruct H as [sub [Hf [_ [_ [_ [Hid [_ [_ [Hst ->]]]]]]]]].
    cbn [with_transactions with_subscriptions subscriptions].
    apply find_some in Hf. destruct Hf as [_ Hf]. apply String.eqb_eq in Hf.
    rewrite filter_replaceById_outside.
    + cbn [schemaPaths Subscription._id Subscription.set_cancelledAt
           Subscription.set_cancellationReason].
      now rewrite Hid, Hf.
    + unfold inQueue.
      cbn [schemaPaths Subscription.status Subscription.set_cancelledAt
           Subscription.set_cancellationReason].
      rewrite Hst. destruct activateNow; apply andb_false_r.
  - intros gen now adminId id reason comments answer s' H.
    apply rejectSubscription_ok in H.
    destruct H as [sub [Hf [_ [_ [Hid [_ [Hst ->]]]]]]].
    cbn [with_transactions with_subscriptions subscriptions].
    apply find_some in Hf. destruct Hf as [_ Hf]. apply String.eqb_eq in Hf.
    rewrite filter_replaceById_outside.
    + cbn [schemaPaths Subscription._id Subscription.set_cancelledAt
           Subscription.set_cancellationReason].
      now rewrite Hid, Hf.
    + unfold inQueue.
      cbn [schemaPaths Subscription.status Subscription.set_cancelledAt
           Subscription.set_cancellationReason].
      rewrite Hst. apply andb_false_r.
Qed.

Lemma reorderDeviceQueue_dense_witness :
  uniqueIds (subscriptions twoPending)
  /\ exists s',
       reorderDeviceQueue imeiA twoPending = (Ok 2%nat, s')
       /\ densePacked imeiA (subscriptions s').
Proof.
  assert (Hu : uniqueIds (subscriptions twoPending)).
  { unfold uniqueIds. cbn. repeat constructor; cbn; intuition discriminate. }
  split; [exact Hu |].
  destruct (reorderDeviceQueue_dense imeiA twoPending Hu) as [[s' [H1 [H2 _]]] _].
  exists s'. split; [exact H1 | exact H2].
Defined.

(** ** C5: the ledger entry of an admin transition *)



Lemma latestTransaction_in (id : string) (txs : list Transaction.t)
      (prior : Transaction.t) :
  AdminController.latestTransaction id txs = Some prior ->
  In prior txs /\ Transaction.subscription prior = id.
Proof.
  unfold AdminController.latestTransaction. intros H.
  apply find_some in H. destruct H as [Hin E].
  apply in_rev in Hin. apply String.eqb_eq in E. auto.
Qed.

Lemma freshTransactionId_above (txs : list Transaction.t) (t : Transaction.t) :
  In t txs -> (Transaction._id t < AdminController.freshTransactionId txs)%nat.
Proof.
  unfold AdminController.freshTransactionId.
  induction txs as [| x txs IH]; simpl; intros H; [contradiction |].
  destruct H as [-> | H]; [lia |]. specialize (IH H). lia.
Qed.

Lemma saveTransaction_length (t : Transaction.t) (txs : list Transaction.t) :
  length (AdminController.saveTransaction t txs) = length txs.
Proof. apply length_map. Qed.

Lemma saveTransaction_in (t x : Transaction.t) (txs : list Transaction.t) :
  In x txs -> Transaction._id x = Transaction._id t ->
  In t (AdminController.saveTransaction t txs).
Proof.
  intros Hin E. unfold AdminController.saveTransaction.
  apply in_map_iff. exists x. split; [| exact Hin].
  rewrite E. now rewrite Nat.eqb_refl.
Qed.

Lemma saveTransaction_other (t x : Transaction.t) (txs : list Transaction.t) :
  In x txs -> Transaction._id x <> Transaction._id t ->
  In x (AdminController.saveTransaction t txs).
Proof.
  intros Hin E. unfold AdminController.saveTransaction.
  apply in_map_iff. exists x. split; [| exact Hin].
  apply Nat.eqb_neq in E. now rewrite E.
Qed.



(** ** C3: moving a subscription in the queue *)

(** C3 (defect). The specification asks [updateQueuePosition] to shift
    every record between the old and the new position and to leave the
    positions a permutation of 1..N. [queuePosition] is a [String] path,
    and the shift is an [updateMany] with [$inc] on it, which the store
    refuses on every call: for a PENDING subscription and a valid new
    position other than the stored string, the request fails with the
    store's message before the subscription is saved or anything is
    logged. Whatever the request and its answer, the store is left as it
    was: no record is shifted and the record asked for keeps its
    position. The one request that is answered with success asks for the
    very string that is stored. *)
Theorem updateQueuePosition_never_moves {platform : Platform}
        (generateTransactionId : list Transaction.t -> string)
        (now : Z) (adminId id : string)
        (newPosition : AdminController.Position) (s : State) :
  (forall result s',
      AdminController.updateQueuePosition generateTransactionId now adminId
        id newPosition s = (result, s') ->
      s' = s)
  /\ (forall sub,
         findById id (subscriptions s) = Some sub ->
         Subscription.status sub = PENDING ->
         AdminController.invalidPosition newPosition = false ->
         AdminController.samePosition newPosition
           (Subscription.queuePosition sub) = false ->
         AdminController.updateQueuePosition generateTransactionId now
           adminId id newPosition s
         = (Throw 500
              (incRefusedMessage
                 (if AdminController.positionLt newPosition
                       (Subscription.queuePosition sub)
                  then 1 else -1)),
            s))
  /\ (forall answer s',
         AdminController.updateQueuePosition generateTransactionId now
           adminId id newPosition s = (Ok answer, s') ->
         exists sub,
           findById id (subscriptions s) = Some sub
           /\ AdminController.samePosition newPosition
                (Subscription.queuePosition sub) = true
           /\ answer = (sub, Subscription.queuePosition sub, newPosition)).
Proof.
  split; [| split].
  - intros result s' H. rewrite updateQueuePosition_run in H.
    destruct (AdminController.invalidPosition newPosition);
      [now inversion H |].
    destruct (findById id (subscriptions s)) as [sub |]; [| now inversion H].
    destruct (negb (Status_eqb (Subscription.status sub) PENDING));
      [now inversion H |].
    destruct (AdminController.samePosition newPosition
                (Subscription.queuePosition sub)); now inversion H.
  - intros sub Hfind Hstatus Hvalid Hsame.
    rewrite updateQueuePosition_run, Hvalid, Hfind, Hstatus, Hsame.
    reflexivity.
  - intros answer s' H. rewrite updateQueuePosition_run in H.
    destruct (AdminController.invalidPosition newPosition);
      [discriminate H |].
    destruct (findById id (subscriptions s)) as [sub |]; [| discriminate H].
    destruct (negb (Status_eqb (Subscription.status sub) PENDING));
      [discriminate H |].
    destruct (AdminController.samePosition newPosition
                (Subscription.queuePosition sub)) eqn:Hsame;
      [| discriminate H].
    exists sub. inversion H. auto.
Qed.

Lemma updateQueuePosition_never_moves_witness :
  densePacked imeiA (subscriptions twoPending)
  /\ AdminController.updateQueuePosition (platform := workedPlatform)
       numberedTransactionId 1000 "admin" "sub2"
       (AdminController.PositionNumber 1) twoPending
     = (Throw 500 "Cannot increment with non-numeric argument: 1",
        twoPending)
  /\ queuePositions imeiA (subscriptions twoPending)
     = [Some "1"; Some "2"].
Proof.
  split; [apply Permutation_refl |]. split; [| reflexivity].
  exact (proj1 (proj2 (updateQueuePosition_never_moves
                         (platform := workedPlatform)
                         numberedTransactionId 1000 "admin" "sub2"
                         (AdminController.PositionNumber 1) twoPending))
               _ eq_refl eq_refl eq_refl eq_refl).
Defined.

(** ** The window of the one-time code *)

Lemma windowOffsets_in (w : nat) (i : Z) :
  In i (SubscriptionController.windowOffsets w)
  <-> - Z.of_nat w <= i <= Z.of_nat w.
Proof.
  unfold SubscriptionController.windowOffsets. rewrite in_map_iff. split.
  - intros [k [E Hk]]. apply in_seq in Hk. lia.
  - intros H. exists (Z.to_nat (i + Z.of_nat w)). split; [lia |].
    apply in_seq. lia.
Qed.

(** A token is accepted exactly when it is the code of a counter at most
    [window] steps away from the current one. *)
Lemma totpVerify_iff (hotp : string -> Z -> string) (now : Z)
      (secret token : string) (window : nat) :
  SubscriptionController.totpVerify hotp now secret token window = true
  <-> exists i, - Z.of_nat window <= i <= Z.of_nat window
                /\ token = hotp secret (now / 30000 + i).
Proof.
  unfold SubscriptionController.totpVerify. rewrite existsb_exists. split.
  - intros [i [Hi E]]. exists i. apply windowOffsets_in in Hi.
    apply String.eqb_eq in E. auto.
  - intros [i [Hi E]]. exists i. split; [now apply windowOffsets_in |].
    now apply String.eqb_eq.
Qed.

(** ** C4: one ACTIVE subscription per identity and per IMEI *)

Lemma activeAndQueued_unique : atMostOneActive (subscriptions activeAndQueued).
Proof.
  split; intros k; unfold activeFor; cbn -[String.eqb].
  - destruct (String.eqb "alice" k); cbn; lia.
  - destruct (String.eqb imeiA k); cbn; lia.
Qed.

Lemma filter_replaceById_le (p : Subscription.t -> bool) (d : Subscription.t)
      (docs : list Subscription.t) :
  p d = false ->
  (length (filter p (replaceById d docs)) <= length (filter p docs))%nat.
Proof.
  intros Hd. induction docs as [| x docs IH]; [reflexivity |].
  cbn [replaceById map filter]. fold (replaceById d docs).
  destruct (String.eqb (Subscription._id x) (Subscription._id d)).
  - rewrite Hd. destruct (p x); cbn [length]; lia.
  - destruct (p x); cbn [length]; lia.
Qed.

Lemma filter_replaceById_none (p : Subscription.t -> bool)
      (d : Subscription.t) (docs : list Subscription.t) :
  (forall y, In y docs ->
             Subscription._id y <> Subscription._id d /\ p y = false) ->
  filter p (replaceById d docs) = [].
Proof.
  induction docs as [| y docs IH]; intros H; [reflexivity |].
  cbn [replaceById map filter]. fold (replaceById d docs).
  destruct (H y (or_introl eq_refl)) as [Hne Hp].
  apply String.eqb_neq in Hne. rewrite Hne, Hp.
  apply IH. intros z Hz. apply H. now right.
Qed.

Lemma filter_replaceById_one (p : Subscription.t -> bool) (d : Subscription.t)
      (docs : list Subscription.t) :
  uniqueIds docs ->
  (forall x, In x docs ->
             Subscription._id x <> Subscription._id d -> p x = false) ->
  (length (filter p (replaceById d docs)) <= 1)%nat.
Proof.
  unfold uniqueIds. induction docs as [| x docs IH]; intros Hn Hp;
    [cbn; lia |].
  inversion Hn as [| ? ? Hnot Hn']; subst.
  cbn [replaceById map filter]. fold (replaceById d docs).
  destruct (String.eqb (Subscription._id x) (Subscription._id d)) eqn:E.
  - apply String.eqb_eq in E.
    rewrite filter_replaceById_none.
    + destruct (p d); cbn; lia.
    + intros y Hy.
      assert (Hne : Subscription._id y <> Subscription._id d).
      { intros Ey. apply Hnot. rewrite E, <- Ey. now apply in_map. }
      split; [exact Hne |]. apply Hp; [now right | exact Hne].
  - apply String.eqb_neq in E.
    rewrite (Hp x (or_introl eq_refl) E).
    apply IH; [exact Hn' |]. intros y Hy. apply Hp. now right.
Qed.

(** X6. The admin approval, with or without immediate activation, and the
    admin activation keep the uniqueness of ACTIVE subscriptions: they look
    for another ACTIVE subscription of the identity or of the IMEI first. *)
Lemma admin_activation_keeps_uniqueness generateTransactionId
      (now : Z) (adminId id : string) (comments : option string)
      (s s' : State) (answer : Subscription.t) :
  uniqueIds (subscriptions s) ->
  atMostOneActive (subscriptions s) ->
  (exists activateNow,
     AdminController.approveSubscription generateTransactionId now adminId
       id comments activateNow s = (Ok answer, s'))
  \/ AdminController.activateSubscription generateTransactionId now adminId
       id comments s = (Ok answer, s') ->
  atMostOneActive (subscriptions s').
Proof.
  intros Hu [Huser Himei] [[activateNow H] | H].
  - apply approveSubscription_ok in H.
    destruct H as [sub [Hf [_ [Fu [Fi [Hid [Hus [Him [_ ->]]]]]]]]].
    cbn [with_transactions with_subscriptions subscriptions].
    apply find_some in Hf. destruct Hf as [_ Hf]. apply String.eqb_eq in Hf.
    split; intros k; unfold activeFor.
    + destruct (String.eqb (Subscription.user (schemaPaths answer)) k
                && Status_eqb (Subscription.status (schemaPaths answer)) ACTIVE)
        eqn:P.
      * apply filter_replaceById_one; [exact Hu |].
        intros x Hx Hne. apply andb_true_iff in P. destruct P as [P _].
        apply String.eqb_eq in P. cbn in P. rewrite Hus in P. subst k.
        pose proof (find_none _ _ Fu x Hx) as N. cbn beta in N.
        cbn in Hne. rewrite Hid, Hf in Hne.
        apply String.eqb_neq in Hne. rewrite Hne in N. cbn [negb] in N.
        now rewrite andb_true_r in N.
      * eapply Nat.le_trans; [apply filter_replaceById_le; exact P |].
        apply Huser.
    + destruct (String.eqb (Subscription.imei (schemaPaths answer)) k
                && Status_eqb (Subscription.status (schemaPaths answer)) ACTIVE)
        eqn:P.
      * apply filter_replaceById_one; [exact Hu |].
        intros x Hx Hne. apply andb_true_iff in P. destruct P as [P _].
        apply String.eqb_eq in P. cbn in P. rewrite Him in P. subst k.
        pose proof (find_none _ _ Fi x Hx) as N. cbn beta in N.
        cbn in Hne. rewrite Hid, Hf in Hne.
        apply String.eqb_neq in Hne. rewrite Hne in N. cbn [negb] in N.
        now rewrite andb_true_r in N.
      * eapply Nat.le_trans; [apply filter_replaceById_le; exact P |].
        apply Himei.
  - apply activateSubscription_ok in H.
    destruct H as [sub [Hf [_ [Fa [Hid [Hus [Him [_ [_ [_ ->]]]]]]]]]].
    cbn [with_transactions with_subscriptions subscriptions].
    apply find_some in Hf. destruct Hf as [_ Hf]. apply String.eqb_eq in Hf.
    assert (Hnone : forall x, In x (subscriptions s) ->
              Subscription._id x <> id ->
              (String.eqb (Subscription.user x) (Subscription.user sub)
               && Status_eqb (Subscription.status x) ACTIVE = false)
              /\ (String.eqb (Subscription.imei x) (Subscription.imei sub)
                  && Status_eqb (Subscription.status x) ACTIVE = false)).
    { intros x Hx Hne. pose proof (find_none _ _ Fa x Hx) as N.
      cbn beta in N. apply String.eqb_neq in Hne. rewrite Hne in N.
      cbn [negb] in N. rewrite andb_true_r in N.
      now apply orb_false_iff in N. }
    split; intros k; unfold activeFor.
    + destruct (String.eqb (Subscription.user (schemaPaths answer)) k
                && Status_eqb (Subscription.status (schemaPaths answer)) ACTIVE)
        eqn:P.
      * apply filter_replaceById_one; [exact Hu |].
        intros x Hx Hne. apply andb_true_iff in P. destruct P as [P _].
        apply String.eqb_eq in P. cbn in P. rewrite Hus in P. subst k.
        cbn in Hne. rewrite Hid, Hf in Hne.
        now destruct (Hnone x Hx Hne).
      * eapply Nat.le_trans; [apply filter_replaceById_le; exact P |].
        apply Huser.
    + destruct (String.eqb (Subscription.imei (schemaPaths answer)) k
                && Status_eqb (Subscription.status (schemaPaths answer)) ACTIVE)
        eqn:P.
      * apply filter_replaceById_one; [exact Hu |].
        intros x Hx Hne. apply andb_true_iff in P. destruct P as [P _].
        apply String.eqb_eq in P. cbn in P. rewrite Him in P. subst k.
        cbn in Hne. rewrite Hid, Hf in Hne.
        now destruct (Hnone x Hx Hne).
      * eapply Nat.le_trans; [apply filter_replaceById_le; exact P |].
        apply Himei.
Qed.

(** C4 (defect). The admin handlers look for another ACTIVE subscription
    of the identity or of the IMEI before they activate; the self-service
    activation by one-time code does not. An identity that holds an ACTIVE
    subscription and a QUEUED one for the same device presents a valid
    code for the second: the handler answers with success and both
    subscriptions are ACTIVE, two for the identity and two for the IMEI. *)
Theorem otp_activation_breaks_uniqueness
        (hotp : string -> Z -> string) (now : Z) (totpCode : string) :
  totpCode <> "" ->
  totpCode = hotp "JBSWY3DPEHPK3PXP" (now / 30000) ->
  atMostOneActive (subscriptions activeAndQueued)
  /\ exists answer s',
       SubscriptionController.activateSubscription hotp now "alice" "sub2"
         imeiA totpCode activeAndQueued = (Ok answer, s')
       /\ length (activeFor Subscription.user "alice" (subscriptions s'))
          = 2%nat
       /\ length (activeFor Subscription.imei imeiA (subscriptions s'))
          = 2%nat
       /\ ~ atMostOneActive (subscriptions s').
Proof.
  intros Hne Hcode. split; [apply activeAndQueued_unique |].
  assert (V : SubscriptionController.totpVerify hotp now "JBSWY3DPEHPK3PXP"
                totpCode 2 = true).
  { apply totpVerify_iff. exists 0. split; [cbn; lia |].
    now rewrite Z.add_0_r. }
  apply String.eqb_neq in Hne.
  unfold SubscriptionController.activateSubscription. run_handler.
  replace (String.eqb imeiA "" || String.eqb "sub2" "" || String.eqb totpCode "")%bool
    with false by (cbn -[String.eqb]; now rewrite Hne).
  cbn -[SubscriptionController.totpVerify]. rewrite V. cbn.
  eexists. eexists. split; [reflexivity |].
  split; [reflexivity |]. split; [reflexivity |].
  intros [Hu _]. specialize (Hu "alice"). cbn in Hu. lia.
Qed.

Lemma otp_activation_breaks_uniqueness_witness :
  exists answer s',
    SubscriptionController.activateSubscription counterCode 90000 "alice"
      "sub2" imeiA "JBSWY3DPEHPK3PXP-3" activeAndQueued = (Ok answer, s')
    /\ ~ atMostOneActive (subscriptions s').
Proof.
  destruct (otp_activation_breaks_uniqueness counterCode 90000
              "JBSWY3DPEHPK3PXP-3")
    as [_ [answer [s' [H1 [_ [_ H2]]]]]].
  - discriminate.
  - reflexivity.
  - exists answer, s'. split; [exact H1 | exact H2].
Defined.

(** Renewal does not look for another ACTIVE subscription either. *)
Example renewal_breaks_uniqueness generateTransactionId updateStatus :
  exists answer s',
    SubscriptionController.renewSubscription generateTransactionId
      updateStatus 1000 "alice" "sub2" activeAndExpired = (Ok answer, s')
    /\ length (activeFor Subscription.user "alice" (subscriptions s')) = 2%nat
    /\ length (activeFor Subscription.imei imeiA (subscriptions s')) = 2%nat.
Proof.
  eexists. eexists. split; [lazy; reflexivity |]. split; reflexivity.
Qed.

(** ** The self-service handlers *)

Lemma findOwned_find (subscriptionId userId : string) (st : Status) (s : State) :
  SubscriptionController.findOwned subscriptionId userId st s
  = (Ok (find (ownedBy subscriptionId userId st) (subscriptions s)), s).
Proof. reflexivity. Qed.

Lemma ownedBy_id (subscriptionId userId : string) (st : Status)
      (d : Subscription.t) :
  ownedBy subscriptionId userId st d = true ->
  Subscription._id d = subscriptionId
  /\ Subscription.user d = userId
  /\ Subscription.status d = st.
Proof.
  unfold ownedBy. intros H.
  apply andb_true_iff in H. destruct H as [H Hst].
  apply andb_true_iff in H. destruct H as [Hid Hu].
  apply String.eqb_eq in Hid, Hu. apply Status_eqb_eq in Hst. auto.
Qed.

Lemma findById_replaceById_same (d : Subscription.t)
      (docs : list Subscription.t) :
  (exists x, In x docs /\ Subscription._id x = Subscription._id d) ->
  findById (Subscription._id d) (replaceById d docs) = Some d.
Proof.
  unfold findById, replaceById.
  induction docs as [| y docs IH]; intros [x [Hin E]]; [contradiction |].
  cbn [map find].
  destruct (String.eqb (Subscription._id y) (Subscription._id d)) eqn:Ey.
  - now rewrite String.eqb_refl.
  - rewrite Ey. apply IH. destruct Hin as [-> | Hin].
    + rewrite E, String.eqb_refl in Ey. discriminate.
    + now exists x.
Qed.

(** ** C6: upgrades *)

(** The state that a successful upgrade leaves: the ledger entry, saved
    and then completed, and the subscription with its new plan, price and
    end date. *)
Lemma upgradeSubscription_run {platform : Platform} generateTransactionId
      updateStatus (now : Z) (userId subscriptionId newPlan : string)
      (s : State) (subscription : Subscription.t) :
  find (ownedBy subscriptionId userId ACTIVE) (subscriptions s)
  = Some subscription ->
  SubscriptionController.upgradeSubscription generateTransactionId
    updateStatus now userId subscriptionId newPlan s
  = if lessOrEqual (getSubscriptionPrice newPlan)
         (Number (Subscription.price subscription))
    then (Throw 400 "New plan must be higher tier", s)
    else
      match getSubscriptionPrice newPlan with
      | Inherited _ => (Throw 500 notANumberMessage, s)
      | Number newPrice =>
          let amount := newPrice - Subscription.price subscription in
          let transaction :=
            SubscriptionController.newTransaction generateTransactionId
              (transactions s) userId subscriptionId SUBSCRIPTION_UPGRADED
              amount newPlan TX_PENDING None in
          let ledger := (transactions s ++ [transaction])%list in
          match Subscription.startDate subscription with
          | None =>
              (Throw 500
                 "Cannot read properties of undefined (reading 'getTime')",
               with_transactions ledger s)
          | Some startDate =>
              let answer :=
                Subscription.set_endDate
                  (Some (startDate
                         + getSubscriptionDuration newPlan * msPerDay))
                  (Subscription.set_price newPrice
                     (Subscription.set_plan newPlan subscription)) in
              (Ok (answer, transaction, amount),
               with_transactions
                 (updateStatus transaction TX_COMPLETED now ledger)
                 (with_subscriptions
                    (replaceById (schemaPaths answer) (subscriptions s))
                    (with_transactions ledger s)))
          end
      end.
Proof.
  intros Hfind. unfold SubscriptionController.upgradeSubscription.
  unfold bind at 1. rewrite findOwned_find, Hfind. run_handler.
  destruct (lessOrEqual (getSubscriptionPrice newPlan)
              (Number (Subscription.price subscription))); [reflexivity |].
  cbn beta iota.
  destruct (getSubscriptionPrice newPlan) as [newPrice | name];
    [| reflexivity].
  cbn beta iota.
  destruct (Subscription.startDate
              (Subscription.set_price newPrice
                 (Subscription.set_plan newPlan subscription))) eqn:D;
    cbn in D; rewrite D; reflexivity.
Qed.

(** C6. For a caller who owns the ACTIVE subscription, [upgrade(newPlan)]
    fails with the 400 error "New plan must be higher tier", and writes
    nothing, exactly when the price of the new plan is a number that is
    at most the subscription's price, which is the price of its current
    plan whenever the subscription's price was derived from its plan;
    upgrading from full-suite-premium to mobile-v4-basic fails; and the
    upgrade succeeds exactly with the amount charged being the price of
    the new plan minus the subscription's price, which is also the amount
    of the ledger entry, appended and completed, and with the
    subscription stored under its new plan, that plan's price and the end
    date of that plan's duration. *)
Theorem upgrade_conflict_iff {platform : Platform} generateTransactionId
        updateStatus (now : Z) (userId subscriptionId newPlan : string)
        (s : State) (subscription : Subscription.t) :
  find (ownedBy subscriptionId userId ACTIVE) (subscriptions s)
  = Some subscription ->
  let upgrade plan :=
    SubscriptionController.upgradeSubscription generateTransactionId
      updateStatus now userId subscriptionId plan s in
  let conflict : Result (Subscription.t * Transaction.t * Z) * State :=
    (Throw 400 "New plan must be higher tier", s) in
  (upgrade newPlan = conflict
   <-> exists newPrice,
         getSubscriptionPrice newPlan = Number newPrice
         /\ newPrice <= Subscription.price subscription)
  /\ (getSubscriptionPrice (Subscription.plan subscription)
      = Number (Subscription.price subscription) ->
      (upgrade newPlan = conflict
       <-> lessOrEqual (getSubscriptionPrice newPlan)
             (getSubscriptionPrice (Subscription.plan subscription))
           = true))
  /\ (Subscription.plan subscription = "full-suite-premium" ->
      getSubscriptionPrice (Subscription.plan subscription)
      = Number (Subscription.price subscription) ->
      upgrade "mobile-v4-basic" = conflict)
  /\ (forall answer transaction amount s',
        upgrade newPlan = (Ok (answer, transaction, amount), s')
        <-> exists newPrice startDate,
              getSubscriptionPrice newPlan = Number newPrice
              /\ Subscription.price subscription < newPrice
              /\ Subscription.startDate subscription = Some startDate
              /\ amount = newPrice - Subscription.price subscription
              /\ transaction
                 = SubscriptionController.newTransaction
                     generateTransactionId (transactions s) userId
                     subscriptionId SUBSCRIPTION_UPGRADED amount newPlan
                     TX_PENDING None
              /\ answer
                 = Subscription.set_endDate
                     (Some (startDate
                            + getSubscriptionDuration newPlan * msPerDay))
                     (Subscription.set_price newPrice
                        (Subscription.set_plan newPlan subscription))
              /\ s'
                 = with_transactions
                     (updateStatus transaction TX_COMPLETED now
                        (transactions s ++ [transaction])%list)
                     (with_subscriptions
                        (replaceById (schemaPaths answer) (subscriptions s))
                        s)).
Proof.
  intros Hfind upgrade conflict.
  assert (Hleb : forall plan,
             upgrade plan = conflict
             <-> lessOrEqual (getSubscriptionPrice plan)
                   (Number (Subscription.price subscription)) = true).
  { intros plan. unfold upgrade, conflict.
    rewrite (upgradeSubscription_run _ _ _ _ _ _ _ _ Hfind).
    destruct (lessOrEqual (getSubscriptionPrice plan)
                (Number (Subscription.price subscription)));
      [tauto |].
    split; [| discriminate].
    destruct (getSubscriptionPrice plan) as [newPrice | name];
      [| discriminate].
    cbn zeta.
    destruct (Subscription.startDate subscription); discriminate. }
  split; [| split; [| split]].
  - rewrite Hleb. unfold lessOrEqual.
    destruct (getSubscriptionPrice newPlan) as [newPrice | name]; split.
    + intros H. apply Z.leb_le in H. now exists newPrice.
    + intros [n [E H]]. injection E as <-. now apply Z.leb_le.
    + discriminate.
    + intros [n [E _]]. discriminate E.
  - intros ->. apply Hleb.
  - intros Hplan Hprice. apply Hleb. rewrite Hplan in Hprice.
    change (Number 14999 = Number (Subscription.price subscription))
      in Hprice.
    injection Hprice as <-. reflexivity.
  - intros answer transaction amount s'. unfold upgrade.
    rewrite (upgradeSubscription_run _ _ _ _ _ _ _ _ Hfind).
    unfold lessOrEqual.
    destruct (getSubscriptionPrice newPlan) as [newPrice | name].
    + destruct (newPrice <=? Subscription.price subscription) eqn:G.
      * apply Z.leb_le in G. split; [discriminate |].
        intros [n [d [E [Hlt _]]]]. injection E as <-. lia.
      * apply Z.leb_gt in G. cbn zeta.
        destruct (Subscription.startDate subscription) as [startDate |].
        -- split.
           ++ intros H. inversion H; subst; clear H.
              exists newPrice, startDate. repeat split; try reflexivity.
              exact G.
           ++ intros [n [d [E [_ [D [-> [-> [-> ->]]]]]]]].
              injection E as <-. injection D as <-. reflexivity.
        -- split; [discriminate |].
           intros [n [d [_ [_ [D _]]]]]. discriminate D.
    + split; [discriminate |]. intros [n [d [E _]]]. discriminate E.
Qed.

Lemma upgrade_conflict_iff_witness :
  SubscriptionController.upgradeSubscription (platform := workedPlatform)
    numberedTransactionId (fun _ _ _ txs => txs) 1000 "alice" "sub1"
    "mobile-v4-basic" activePremium
  = (Throw 400 "New plan must be higher tier", activePremium).
Proof.
  destruct (upgrade_conflict_iff (platform := workedPlatform)
              numberedTransactionId (fun _ _ _ txs => txs)
              1000 "alice" "sub1" "mobile-v4-basic" activePremium
              _ eq_refl)
    as [_ [_ [H _]]].
  apply H; reflexivity.
Defined.

(** A plan name inherited from [Object.prototype] raises no conflict,
    whatever the subscription's price: the upgrade ends in the error of
    the ledger entry's save and nothing is written. *)
Example upgrade_to_inherited_name :
  SubscriptionController.upgradeSubscription (platform := workedPlatform)
    numberedTransactionId (fun _ _ _ txs => txs) 1000 "alice" "sub1"
    "constructor" activePremium
  = (Throw 500 "Transaction validation failed: amount", activePremium).
Proof. reflexivity. Qed.

(** ** C7: renewal *)

(** C7. [renew()] goes by the subscription of the caller with status
    EXPIRED. When there is one, the handler answers with it: its status is
    ACTIVE, its [startDate] the current time, its [endDate] the current
    time plus the duration of its plan in days, its [cancelledAt] and
    [cancellationReason] are null, and this is the document stored. When
    there is none, in particular when the subscription has any other
    status, the handler fails with 404 and the store is as before. *)
Theorem renew_expired generateTransactionId updateStatus
        (now : Z) (userId subscriptionId : string) (s : State) :
  let renew :=
    SubscriptionController.renewSubscription generateTransactionId
      updateStatus now userId subscriptionId s in
  match find (ownedBy subscriptionId userId EXPIRED) (subscriptions s) with
  | Some subscription =>
      exists answer transaction s',
        renew = (Ok (answer, transaction), s')
        /\ Subscription.status answer = ACTIVE
        /\ Subscription.startDate answer = Some now
        /\ Subscription.endDate answer
           = Some (now + getSubscriptionDuration (Subscription.plan subscription)
                         * msPerDay)
        /\ Subscription.cancelledAt answer = None
        /\ Subscription.cancellationReason answer = None
        /\ findById subscriptionId (subscriptions s') = Some answer
  | None =>
      renew = (Throw 404 "Expired subscription not found", s)
  end
  /\ ((forall d, In d (subscriptions s) ->
                 Subscription._id d = subscriptionId ->
                 Subscription.status d <> EXPIRED) ->
      renew = (Throw 404 "Expired subscription not found", s)).
Proof.
  intros renew.
  assert (Hnone : find (ownedBy subscriptionId userId EXPIRED) (subscriptions s)
                  = None ->
                  renew = (Throw 404 "Expired subscription not found", s)).
  { intros Hf. unfold renew, SubscriptionController.renewSubscription.
    unfold bind at 1. now rewrite findOwned_find, Hf. }
  split.
  - destruct (find (ownedBy subscriptionId userId EXPIRED) (subscriptions s))
      as [subscription |] eqn:Hf; [| now apply Hnone].
    unfold renew, SubscriptionController.renewSubscription.
    unfold bind at 1. rewrite findOwned_find, Hf. run_handler.
    eexists. eexists. eexists. split; [reflexivity |].
    repeat split.
    cbn [subscriptions with_subscriptions with_transactions].
    apply find_some in Hf. destruct Hf as [Hin Hown].
    apply ownedBy_id in Hown. destruct Hown as [Hid _].
    rewrite <- Hid.
    match goal with
    | |- findById _ (replaceById ?d _) = _ =>
        change (Subscription._id subscription) with (Subscription._id d)
    end.
    apply findById_replaceById_same. exists subscription. auto.
  - intros Hother. apply Hnone.
    destruct (find (ownedBy subscriptionId userId EXPIRED) (subscriptions s))
      as [d |] eqn:Hf; [| reflexivity].
    apply find_some in Hf. destruct Hf as [Hin Hown].
    apply ownedBy_id in Hown. destruct Hown as [Hid [_ Hst]].
    exfalso. exact (Hother d Hin Hid Hst).
Qed.

Lemma renew_expired_witness :
  SubscriptionController.renewSubscription numberedTransactionId
    (fun _ _ _ txs => txs) 1000 "alice" "sub1" activeAndExpired
  = (Throw 404 "Expired subscription not found", activeAndExpired).
Proof.
  destruct (renew_expired numberedTransactionId (fun _ _ _ txs => txs)
              1000 "alice" "sub1" activeAndExpired) as [_ H].
  apply H. intros d Hin Hid.
  cbn in Hin. destruct Hin as [<- | [<- | []]].
  - discriminate.
  - cbn in Hid. discriminate Hid.
Defined.

(** ** C9 and C10: activation by one-time code *)

Lemma find_map_preserving {A : Type} (p : A -> bool) (f : A -> A) (l : list A) :
  (forall x, p (f x) = p x) ->
  find p (map f l) = option_map f (find p l).
Proof.
  intros H. induction l as [| a l IH]; [reflexivity |].
  cbn [map find]. rewrite H. destruct (p a); [reflexivity | exact IH].
Qed.

(** The checks of the handler, in their order. *)
Lemma otp_activation_run (hotp : string -> Z -> string) (now : Z)
      (userId subscriptionId imei totpCode : string) (s : State) :
  SubscriptionController.activateSubscription hotp now userId subscriptionId
    imei totpCode s
  = if (String.eqb imei "" || String.eqb subscriptionId ""
        || String.eqb totpCode "")%bool
    then (Throw 400 "Please provide all required fields", s)
    else
      match findById subscriptionId (subscriptions s) with
      | None => (Throw 404 "Subscription not found", s)
      | Some subscription =>
          if negb (String.eqb (Subscription.user subscription) userId)
          then (Throw 403 "Unauthorized access to subscription", s)
          else if negb (Status_eqb (Subscription.status subscription) QUEUED)
          then (Throw 400 "Subscription not queued", s)
          else if negb (String.eqb (Subscription.imei subscription) imei)
          then (Throw 400 "Invalid IMEI", s)
          else
            match SubscriptionController.findDevice userId imei (devices s) with
            | None => (Throw 404 "Device not found", s)
            | Some device =>
                if SubscriptionController.totpVerify hotp now
                     (Device.totpSecret device) totpCode 2
                then (Ok (SubscriptionController.mkActivation 30 None),
                      activatedByOtp now subscriptionId (Device._id device) s)
                else (Throw 400 "Invalid OTP", s)
            end
      end.
Proof.
  unfold SubscriptionController.activateSubscription. run_handler.
  destruct (String.eqb imei "" || String.eqb subscriptionId ""
            || String.eqb totpCode "")%bool; [reflexivity |].
  destruct (findById subscriptionId (subscriptions s)) as [sub |];
    [| reflexivity].
  destruct (String.eqb (Subscription.user sub) userId); [| reflexivity].
  destruct (Status_eqb (Subscription.status sub) QUEUED); [| reflexivity].
  destruct (String.eqb (Subscription.imei sub) imei); [| reflexivity].
  cbn [negb].
  destruct (SubscriptionController.findDevice userId imei (devices s))
    as [device |]; [| reflexivity].
  destruct (SubscriptionController.totpVerify hotp now
              (Device.totpSecret device) totpCode 2); reflexivity.
Qed.

Lemma activatedByOtp_subscription (now : Z) (subscriptionId deviceId : string)
      (s : State) :
  findById subscriptionId (subscriptions (activatedByOtp now subscriptionId deviceId s))
  = option_map
      (fun x => Subscription.set_endDate
                  (Some (SubscriptionController.addDays now 30))
                  (Subscription.set_startDate (Some now)
                     (Subscription.set_status ACTIVE x)))
      (findById subscriptionId (subscriptions s)).
Proof.
  unfold activatedByOtp, findById.
  cbn [subscriptions with_devices with_subscriptions].
  rewrite find_map_preserving.
  - destruct (find _ (subscriptions s)) as [x |] eqn:F; [| reflexivity].
    apply find_some in F. destruct F as [_ F]. cbn [option_map].
    now rewrite F.
  - intros x.
    destruct (String.eqb (Subscription._id x) subscriptionId) eqn:E;
      [exact E | exact E].
Qed.

Lemma activatedByOtp_device (now : Z) (subscriptionId userId imei : string)
      (s : State) (device : Device.t) :
  SubscriptionController.findDevice userId imei (devices s) = Some device ->
  SubscriptionController.findDevice userId imei
    (devices (activatedByOtp now subscriptionId (Device._id device) s))
  = Some (Device.set_isOnboarded true device).
Proof.
  intros F. unfold activatedByOtp, SubscriptionController.findDevice in *.
  cbn [devices with_devices with_subscriptions].
  rewrite find_map_preserving.
  - rewrite F. cbn [option_map]. now rewrite String.eqb_refl.
  - intros x. destruct (String.eqb (Device._id x) (Device._id device));
      reflexivity.
Qed.

(** C9. Activation by one-time code is legal from QUEUED only: for a
    subscription with any other status the handler fails and leaves the
    store, with the subscription and the device, as it was. For a QUEUED
    subscription of the caller, asked for with its IMEI, whose device
    bound to (identity, imei) exists: a code that is the one-time code of a
    counter within two steps of the current one makes the subscription
    ACTIVE and the device onboarded; a code that is the code of none of
    these five counters fails with the 400 error "Invalid OTP" and changes
    nothing. *)
Theorem otp_activation_from_queued (hotp : string -> Z -> string) (now : Z)
        (userId subscriptionId imei totpCode : string) (s : State) :
  let activate :=
    SubscriptionController.activateSubscription hotp now userId
      subscriptionId imei totpCode s in
  (forall subscription,
     findById subscriptionId (subscriptions s) = Some subscription ->
     Subscription.status subscription <> QUEUED ->
     exists code message, activate = (Throw code message, s))
  /\ (forall subscription device,
        imei <> "" -> subscriptionId <> "" -> totpCode <> "" ->
        findById subscriptionId (subscriptions s) = Some subscription ->
        Subscription.user subscription = userId ->
        Subscription.status subscription = QUEUED ->
        Subscription.imei subscription = imei ->
        SubscriptionController.findDevice userId imei (devices s)
        = Some device ->
        ((exists i, -2 <= i <= 2
                    /\ totpCode
                       = hotp (Device.totpSecret device) (now / 30000 + i)) ->
         exists answer s',
           activate = (Ok answer, s')
           /\ option_map Subscription.status
                (findById subscriptionId (subscriptions s')) = Some ACTIVE
           /\ option_map Device.isOnboarded
                (SubscriptionController.findDevice userId imei (devices s'))
              = Some true)
        /\ ((forall i, -2 <= i <= 2 ->
                       totpCode
                       <> hotp (Device.totpSecret device) (now / 30000 + i)) ->
            activate = (Throw 400 "Invalid OTP", s))).
Proof.
  intros activate. unfold activate. rewrite otp_activation_run. split.
  - intros sub Hf Hst. rewrite Hf.
    destruct (String.eqb imei "" || String.eqb subscriptionId ""
              || String.eqb totpCode "")%bool; [eauto |].
    destruct (negb (String.eqb (Subscription.user sub) userId)); [eauto |].
    destruct (Status_eqb (Subscription.status sub) QUEUED) eqn:E.
    + apply Status_eqb_eq in E. contradiction.
    + cbn [negb]. eauto.
  - intros sub device Hi Hs Hc Hf Hu Hst Him Hd.
    apply String.eqb_neq in Hi, Hs, Hc. rewrite Hi, Hs, Hc. cbn [orb].
    rewrite Hf, Hu, Hst, Him, !String.eqb_refl, Hd. cbn [negb Status_eqb].
    split.
    + intros Hw.
      assert (V : SubscriptionController.totpVerify hotp now
                    (Device.totpSecret device) totpCode 2 = true)
        by (apply totpVerify_iff; exact Hw).
      rewrite V. eexists. eexists. split; [reflexivity |]. split.
      * rewrite activatedByOtp_subscription, Hf. reflexivity.
      * rewrite (activatedByOtp_device now subscriptionId userId imei s device Hd).
        reflexivity.
    + intros Hw.
      destruct (SubscriptionController.totpVerify hotp now
                  (Device.totpSecret device) totpCode 2) eqn:V;
        [| reflexivity].
      apply totpVerify_iff in V. destruct V as [i [Hr E]].
      exfalso. exact (Hw i Hr E).
Qed.

Lemma otp_activation_from_queued_witness :
  (exists answer s',
     SubscriptionController.activateSubscription counterCode 90000 "alice"
       "sub1" imeiA "JBSWY3DPEHPK3PXP-5" queuedPremium = (Ok answer, s')
     /\ option_map Subscription.status (findById "sub1" (subscriptions s'))
        = Some ACTIVE
     /\ option_map Device.isOnboarded
          (SubscriptionController.findDevice "alice" imeiA (devices s'))
        = Some true)
  /\ SubscriptionController.activateSubscription counterCode 90000 "alice"
       "sub1" imeiA "JBSWY3DPEHPK3PXP-6" queuedPremium
     = (Throw 400 "Invalid OTP", queuedPremium).
Proof.
  split.
  - destruct (otp_activation_from_queued counterCode 90000 "alice" "sub1"
                imeiA "JBSWY3DPEHPK3PXP-5" queuedPremium) as [_ H].
    destruct (H _ _ ltac:(discriminate) ltac:(discriminate)
                ltac:(discriminate) eq_refl eq_refl eq_refl eq_refl eq_refl)
      as [Hok _].
    apply Hok. exists 2. split; [lia | reflexivity].
  - destruct (otp_activation_from_queued counterCode 90000 "alice" "sub1"
                imeiA "JBSWY3DPEHPK3PXP-6" queuedPremium) as [_ H].
    destruct (H _ _ ltac:(discriminate) ltac:(discriminate)
                ltac:(discriminate) eq_refl eq_refl eq_refl eq_refl eq_refl)
      as [_ Hbad].
    apply Hbad. intros i Hr.
    assert (Hi : i = -2 \/ i = -1 \/ i = 0 \/ i = 1 \/ i = 2) by lia.
    destruct Hi as [-> | [-> | [-> | [-> | ->]]]]; vm_compute; discriminate.
Defined.

(** C10. Whatever the plan of the subscription, an activation by one-time
    code that succeeds answers a duration of 30 days and stores
    [startDate = now] and [endDate = now + 30 days]: the duration is looked
    up with the document's [subscriptionType], a path the schema does not
    have, so the lookup finds nothing and the default of 30 applies, also
    for a plan of 60 or 90 days. *)
Theorem otp_activation_thirty_days (hotp : string -> Z -> string) (now : Z)
        (userId subscriptionId imei totpCode : string) (s s' : State)
        (subscription : Subscription.t)
        (answer : SubscriptionController.Activation) :
  findById subscriptionId (subscriptions s) = Some subscription ->
  SubscriptionController.activateSubscription hotp now userId subscriptionId
    imei totpCode s = (Ok answer, s') ->
  SubscriptionController.act_duration answer = 30
  /\ SubscriptionController.act_subscriptionType answer = None
  /\ exists stored,
       findById subscriptionId (subscriptions s') = Some stored
       /\ Subscription.plan stored = Subscription.plan subscription
       /\ Subscription.status stored = ACTIVE
       /\ Subscription.startDate stored = Some now
       /\ Subscription.endDate stored = Some (now + 30 * msPerDay).
Proof.
  intros Hf. rewrite otp_activation_run, Hf.
  destruct (String.eqb imei "" || String.eqb subscriptionId ""
            || String.eqb totpCode "")%bool; [discriminate |].
  destruct (negb (String.eqb (Subscription.user subscription) userId));
    [discriminate |].
  destruct (negb (Status_eqb (Subscription.status subscription) QUEUED));
    [discriminate |].
  destruct (negb (String.eqb (Subscription.imei subscription) imei));
    [discriminate |].
  destruct (SubscriptionController.findDevice userId imei (devices s))
    as [device |]; [| discriminate].
  destruct (SubscriptionController.totpVerify hotp now
              (Device.totpSecret device) totpCode 2); [| discriminate].
  intros H. inversion H; subst; clear H.
  split; [reflexivity |]. split; [reflexivity |].
  rewrite activatedByOtp_subscription, Hf. cbn [option_map].
  eexists. split; [reflexivity |]. repeat split.
Qed.

Lemma otp_activation_thirty_days_witness :
  getSubscriptionDuration "full-suite-premium" = 90
  /\ exists answer s' stored,
       SubscriptionController.activateSubscription counterCode 90000 "alice"
         "sub1" imeiA "JBSWY3DPEHPK3PXP-3" queuedPremium = (Ok answer, s')
       /\ findById "sub1" (subscriptions s') = Some stored
       /\ Subscription.plan stored = "full-suite-premium"
       /\ Subscription.endDate stored = Some (90000 + 30 * msPerDay).
Proof.
  split; [reflexivity |].
  destruct (SubscriptionController.activateSubscription counterCode 90000
              "alice" "sub1" imeiA "JBSWY3DPEHPK3PXP-3" queuedPremium)
    as [[answer | code msg] s'] eqn:E; [| vm_compute in E; discriminate E].
  destruct (otp_activation_thirty_days counterCode 90000 "alice" "sub1" imeiA
              "JBSWY3DPEHPK3PXP-3" queuedPremium s' _ answer eq_refl E)
    as [_ [_ [stored [H1 [H2 [_ [_ H3]]]]]]].
  exists answer, s', stored. auto.
Defined.

(** ** C8: bulk operations *)

Lemma findById_replaceById_other (id : string) (d : Subscription.t)
      (docs : list Subscription.t) :
  Subscription._id d <> id ->
  findById id (replaceById d docs) = findById id docs.
Proof.
  intros Hne. unfold findById, replaceById.
  induction docs as [| x docs IH]; [reflexivity |].
  cbn [map find].
  destruct (String.eqb (Subscription._id x) (Subscription._id d)) eqn:E.
  - apply String.eqb_eq in E.
    assert (E1 : String.eqb (Subscription._id d) id = false)
      by now apply String.eqb_neq.
    assert (E2 : String.eqb (Subscription._id x) id = false)
      by (rewrite E; exact E1).
    now rewrite E1, E2.
  - now rewrite IH.
Qed.

Lemma replaceById_ids (d : Subscription.t) (docs : list Subscription.t) :
  map Subscription._id (replaceById d docs) = map Subscription._id docs.
Proof.
  unfold replaceById. rewrite map_map. apply map_ext. intros x.
  destruct (String.eqb (Subscription._id x) (Subscription._id d)) eqn:E;
    [| reflexivity].
  apply String.eqb_eq in E. now symmetry.
Qed.

Lemma findById_ids (id : string) (docs docs' : list Subscription.t)
      (sub : Subscription.t) :
  findById id docs = Some sub ->
  map Subscription._id docs' = map Subscription._id docs ->
  exists x, In x docs' /\ Subscription._id x = id.
Proof.
  intros F E. apply find_some in F. destruct F as [Hin Hid].
  apply String.eqb_eq in Hid.
  assert (H : In id (map Subscription._id docs')).
  { rewrite E, <- Hid. now apply in_map. }
  apply in_map_iff in H. destruct H as [x [Hx Hin']]. now exists x.
Qed.

Section ReadsFirst.

(** The callbacks of a bulk request, run one after the other on what each
    read in the store [s0] of the request: the answer of a callback is
    decided by its read, and so is the document that it leaves under its
    id, also when an earlier callback of the same id has written. *)
Context {platform : Platform}.
Variable s0 : State.
Variable callback : string * AdminController.Lookup
                    -> M AdminController.BulkResult.
Variable outcome :
  AdminController.Lookup -> string -> AdminController.BulkResult.
Variable effect : option Subscription.t -> option Subscription.t.

Hypothesis callback_local : forall id t,
  map Subscription._id (subscriptions t)
  = map Subscription._id (subscriptions s0) ->
  (findById id (subscriptions t) = findById id (subscriptions s0)
   \/ findById id (subscriptions t)
      = effect (findById id (subscriptions s0))) ->
  exists t',
    callback (id, AdminController.readById id (subscriptions s0)) t
    = (Ok (outcome (AdminController.readById id (subscriptions s0)) id), t')
    /\ map Subscription._id (subscriptions t')
       = map Subscription._id (subscriptions s0)
    /\ findById id (subscriptions t')
       = effect (findById id (subscriptions s0))
    /\ (forall id', id' <> id ->
          findById id' (subscriptions t') = findById id' (subscriptions t))
    /\ devices t' = devices t.

Lemma mapM_reads (ids : list string) :
  forall (done : list string) (t : State),
  map Subscription._id (subscriptions t)
  = map Subscription._id (subscriptions s0) ->
  (forall id, In id done ->
     findById id (subscriptions t)
     = effect (findById id (subscriptions s0))) ->
  (forall id, ~ In id done ->
     findById id (subscriptions t) = findById id (subscriptions s0)) ->
  exists t',
    AdminController.mapM callback
      (map (fun id => (id, AdminController.readById id (subscriptions s0)))
           ids) t
    = (Ok (map (fun id =>
                  outcome (AdminController.readById id (subscriptions s0)) id)
               ids), t')
    /\ (forall id, In id done \/ In id ids ->
          findById id (subscriptions t')
          = effect (findById id (subscriptions s0)))
    /\ (forall id, ~ In id done -> ~ In id ids ->
          findById id (subscriptions t') = findById id (subscriptions s0))
    /\ devices t' = devices t.
Proof.
  induction ids as [| a ids IH]; intros done t Hids Hdone Hrest.
  - exists t. cbn. repeat split; auto.
    + intros id [H | []]. now apply Hdone.
  - assert (Hpre : findById a (subscriptions t)
                   = findById a (subscriptions s0)
                   \/ findById a (subscriptions t)
                      = effect (findById a (subscriptions s0))).
    { destruct (in_dec string_dec a done) as [Hin | Hout];
        [right; now apply Hdone | left; now apply Hrest]. }
    destruct (callback_local a t Hids Hpre)
      as [t1 [Hrun [Hids1 [Hself [Hother Hdev]]]]].
    destruct (IH (a :: done) t1 Hids1) as [t2 [Hmap [Hin [Hout Hdev2]]]].
    + intros id [<- | Hid]; [exact Hself |].
      destruct (string_dec id a) as [-> | Hne]; [exact Hself |].
      rewrite (Hother id Hne). now apply Hdone.
    + intros id Hid. rewrite Hother by (intros ->; apply Hid; now left).
      apply Hrest. intros H. apply Hid. now right.
    + exists t2. cbn [map AdminController.mapM]. run_handler.
      rewrite Hrun, Hmap. split; [reflexivity |]. split; [| split].
      * intros id H. apply Hin. cbn [In] in *. tauto.
      * intros id H1 H2. apply Hout; cbn [In] in *; tauto.
      * congruence.
Qed.

End ReadsFirst.

Section BulkCallbacks.

Import AdminController.

Context {platform : Platform}.
Variable generateTransactionId : list Transaction.t -> string.
Variable now : Z.
Variable adminId : string.

Lemma readAll_run (ids : list string) (s : State) :
  readAll ids s
  = (Ok (map (fun id => (id, readById id (subscriptions s))) ids), s).
Proof. reflexivity. Qed.

Lemma bulkApproveOne_local (data : option BulkData) (s0 : State)
      (id : string) (t : State) :
  map Subscription._id (subscriptions t)
  = map Subscription._id (subscriptions s0) ->
  (findById id (subscriptions t) = findById id (subscriptions s0)
   \/ findById id (subscriptions t)
      = approveEffect now adminId data (findById id (subscriptions s0))) ->
  exists t',
    bulkApproveOne generateTransactionId now adminId data
      (id, readById id (subscriptions s0)) t
    = (Ok (approveOutcome data (readById id (subscriptions s0)) id), t')
    /\ map Subscription._id (subscriptions t')
       = map Subscription._id (subscriptions s0)
    /\ findById id (subscriptions t')
       = approveEffect now adminId data (findById id (subscriptions s0))
    /\ (forall id', id' <> id ->
          findById id' (subscriptions t') = findById id' (subscriptions t))
    /\ devices t' = devices t.
Proof.
  intros Hids Hpre.
  unfold bulkApproveOne, approveOutcome, approveEffect, readById in *.
  cbn [fst snd].
  destruct (findById id (subscriptions s0)) as [sub |] eqn:F.
  2:{ exists t. destruct (isObjectId id); repeat split; auto; tauto. }
  destruct (Status_eqb (Subscription.status sub) PENDING) eqn:G.
  2:{ exists t. destruct data; repeat split; auto; tauto. }
  destruct data as [d |].
  2:{ exists t. repeat split; auto; tauto. }
  run_handler. rewrite logTransactionUpdate_spec.
  eexists. split; [reflexivity |].
  cbn [subscriptions devices with_transactions with_subscriptions].
  destruct (findById_ids _ _ _ _ F Hids) as [x [Hx Hxid]].
  pose proof (find_some _ _ F) as [_ Hid]. apply String.eqb_eq in Hid.
  assert (Hsame : Subscription._id
                    (schemaPaths (bulkApproved now adminId d sub)) = id)
    by (unfold bulkApproved; destruct (activateNow d); exact Hid).
  split; [| split; [| split; [| reflexivity]]].
  - unfold bulkApproved; destruct (activateNow d);
      rewrite replaceById_ids; exact Hids.
  - rewrite <- Hsame at 1.
    unfold bulkApproved; destruct (activateNow d);
      apply findById_replaceById_same; exists x; split; auto;
      rewrite Hxid; symmetry; exact Hid.
  - intros id' Hne. unfold bulkApproved in Hsame.
    destruct (activateNow d); apply findById_replaceById_other; congruence.
Qed.

Lemma bulkRejectOne_local (data : BulkData) (s0 : State) (id : string)
      (t : State) :
  map Subscription._id (subscriptions t)
  = map Subscription._id (subscriptions s0) ->
  (findById id (subscriptions t) = findById id (subscriptions s0)
   \/ findById id (subscriptions t)
      = rejectEffect now adminId data (findById id (subscriptions s0))) ->
  exists t',
    bulkRejectOne generateTransactionId now adminId data
      (id, readById id (subscriptions s0)) t
    = (Ok (rejectOutcome (readById id (subscriptions s0)) id), t')
    /\ map Subscription._id (subscriptions t')
       = map Subscription._id (subscriptions s0)
    /\ findById id (subscriptions t')
       = rejectEffect now adminId data (findById id (subscriptions s0))
    /\ (forall id', id' <> id ->
          findById id' (subscriptions t') = findById id' (subscriptions t))
    /\ devices t' = devices t.
Proof.
  intros Hids Hpre.
  unfold bulkRejectOne, rejectOutcome, rejectEffect, readById in *.
  cbn [fst snd].
  destruct (findById id (subscriptions s0)) as [sub |] eqn:F.
  2:{ exists t. destruct (isObjectId id); repeat split; auto; tauto. }
  destruct (Status_eqb (Subscription.status sub) PENDING) eqn:G.
  2:{ exists t. repeat split; auto; tauto. }
  run_handler. rewrite logTransactionUpdate_spec.
  eexists. split; [reflexivity |].
  cbn [subscriptions devices with_transactions with_subscriptions].
  destruct (findById_ids _ _ _ _ F Hids) as [x [Hx Hxid]].
  pose proof (find_some _ _ F) as [_ Hid]. apply String.eqb_eq in Hid.
  split; [| split; [| split; [| reflexivity]]].
  - rewrite replaceById_ids. exact Hids.
  - rewrite <- Hid at 1.
    change (Subscription._id sub)
      with (Subscription._id
              (schemaPaths (bulkRejected now adminId data sub))).
    apply findById_replaceById_same. exists x. split; [exact Hx |].
    cbn. congruence.
  - intros id' Hne. apply findById_replaceById_other.
    cbn. congruence.
Qed.

(** The answer and the store of a bulk request: one entry per listed id,
    in the order of the list, decided by what the request read under
    that id; under a listed id the document that the callback of that
    read saves; under any other id the document as it was. Ids may be
    repeated in the list. *)
Lemma bulkUpdateSubscriptions_per_id (ids : list string)
      (data : option BulkData) (s : State) :
  ids <> [] ->
  let bulk action :=
    bulkUpdateSubscriptions generateTransactionId now adminId ids action
      data s in
  (exists response s',
     bulk "approve" = (Ok response, s')
     /\ results response
        = map (fun id => approveOutcome data (readById id (subscriptions s)) id)
              ids
     /\ processed response = length ids
     /\ (forall id, In id ids ->
           findById id (subscriptions s')
           = approveEffect now adminId data (findById id (subscriptions s)))
     /\ (forall id, ~ In id ids ->
           findById id (subscriptions s') = findById id (subscriptions s)))
  /\ (forall d, data = Some d -> truthy (reason d) = true ->
      exists response s',
        bulk "reject" = (Ok response, s')
        /\ results response
           = map (fun id => rejectOutcome (readById id (subscriptions s)) id)
                 ids
        /\ processed response = length ids
        /\ (forall id, In id ids ->
              findById id (subscriptions s')
              = rejectEffect now adminId d (findById id (subscriptions s)))
        /\ (forall id, ~ In id ids ->
              findById id (subscriptions s') = findById id (subscriptions s)))
  /\ (forall action,
        action <> "" -> action <> "approve" -> action <> "reject" ->
        bulk action = (Throw 400 "Invalid action specified", s)).
Proof.
  intros Hne bulk.
  assert (Hlen : Nat.eqb (length ids) 0 = false)
    by (destruct ids; [contradiction | reflexivity]).
  split; [| split].
  - destruct (mapM_reads s
                (bulkApproveOne generateTransactionId now adminId data)
                (approveOutcome data) (approveEffect now adminId data)
                (bulkApproveOne_local data s)
                ids [] s eq_refl) as [s' [Hrun [Hin [Hout _]]]].
    { intros id []. }
    { reflexivity. }
    unfold bulk, bulkUpdateSubscriptions. run_handler.
    rewrite Hlen. cbn -[mapM readAll]. rewrite readAll_run, Hrun.
    eexists. exists s'. split; [reflexivity |].
    cbn [results processed]. split; [reflexivity |]. split; [reflexivity |].
    split; intros id H; [apply Hin; now right | apply Hout; auto].
  - intros d -> Hreason.
    destruct (mapM_reads s
                (bulkRejectOne generateTransactionId now adminId d)
                rejectOutcome (rejectEffect now adminId d)
                (bulkRejectOne_local d s)
                ids [] s eq_refl) as [s' [Hrun [Hin [Hout _]]]].
    { intros id []. }
    { reflexivity. }
    unfold bulk, bulkUpdateSubscriptions. run_handler.
    rewrite Hlen, Hreason. cbn -[mapM readAll]. rewrite readAll_run, Hrun.
    eexists. exists s'. split; [reflexivity |].
    cbn [results processed]. split; [reflexivity |]. split; [reflexivity |].
    split; intros id H; [apply Hin; now right | apply Hout; auto].
  - intros action H0 H1 H2.
    apply String.eqb_neq in H0, H1, H2.
    unfold bulk, bulkUpdateSubscriptions. run_handler.
    now rewrite Hlen, H0, H1, H2.
Qed.

(** The single-record approval of a PENDING subscription is refused when
    another subscription of its identity or of its IMEI is ACTIVE. *)
Lemma approveSubscription_conflict (id : string) (comments : option string)
      (activateNow : bool) (s : State) (sub other : Subscription.t) :
  findById id (subscriptions s) = Some sub ->
  Subscription.status sub = PENDING ->
  In other (subscriptions s) ->
  Subscription._id other <> id ->
  Subscription.status other = ACTIVE ->
  Subscription.user other = Subscription.user sub
  \/ Subscription.imei other = Subscription.imei sub ->
  exists message,
    approveSubscription generateTransactionId now adminId id comments
      activateNow s = (Throw 400 message, s)
    /\ (message = "User already has an active subscription"
        \/ message = "Device already has an active subscription").
Proof.
  intros Hfind Hp Hin Hne Hact Hsame.
  unfold approveSubscription. run_handler. rewrite Hfind, Hp.
  cbn [Status_eqb negb].
  match goal with
  | |- context [isSome ?f] => destruct f eqn:Fu; cbn [isSome]; [eauto |]
  end.
  match goal with
  | |- context [isSome ?f] => destruct f eqn:Fi; cbn [isSome]; [eauto |]
  end.
  exfalso.
  pose proof (find_none _ _ Fu other Hin) as Nu.
  pose proof (find_none _ _ Fi other Hin) as Ni.
  cbn beta in Nu, Ni. rewrite Hact in Nu, Ni.
  apply String.eqb_neq in Hne. rewrite Hne in Nu, Ni.
  cbn [Status_eqb negb] in Nu, Ni. rewrite !andb_true_r in Nu, Ni.
  apply String.eqb_neq in Nu, Ni. tauto.
Qed.

End BulkCallbacks.

(** The bulk handler knows the actions [approve] and [reject]; asked for
    [under_review] or [update_priority] on a pending subscription it
    fails as a whole with the 400 error "Invalid action specified", with
    no per-id result and no change. *)
Example bulk_under_review_is_invalid :
  let data := Some (AdminController.mkBulkData false (Some "checking") None) in
  AdminController.bulkUpdateSubscriptions (platform := workedPlatform)
    numberedTransactionId 1000 "admin" ["sub1"] "under_review" data
    pendingWithoutLedger
  = (Throw 400 "Invalid action specified", pendingWithoutLedger)
  /\ AdminController.bulkUpdateSubscriptions (platform := workedPlatform)
       numberedTransactionId 1000 "admin" ["sub1"] "update_priority" data
       pendingWithoutLedger
     = (Throw 400 "Invalid action specified", pendingWithoutLedger).
Proof. split; reflexivity. Qed.

(** Bulk approval of [id1, id2, id3] where id2 is CANCELLED: success for
    id1 and id3, a failure with its reason for id2. *)
Example bulk_second_cancelled :
  exists response s',
    AdminController.bulkUpdateSubscriptions (platform := workedPlatform)
      numberedTransactionId 1000 "admin" ["id1"; "id2"; "id3"] "approve"
      (Some (AdminController.mkBulkData false None None)) secondCancelled
    = (Ok response, s')
    /\ AdminController.results response
       = [ AdminController.mkBulkResult "id1" "approved" None true;
           AdminController.mkBulkResult "id2" "failed"
             (Some "Invalid status or not found") false;
           AdminController.mkBulkResult "id3" "approved" None true ].
Proof. eexists. eexists. split; [lazy; reflexivity | reflexivity]. Qed.

(** C8 (defect). The specification asks the bulk operations to apply the
    single-record transition to each listed id. The bulk approval does
    not: where the single-record approval of a PENDING subscription is
    refused with 400, because another subscription of its identity or of
    its IMEI is ACTIVE, the bulk approval of the same id, with the same
    comments and the same choice of immediate activation, answers success
    for that id and stores the subscription as reviewed, APPROVED or
    ACTIVE, with an entry in the ledger when the subscription has one.
    And of the four actions of the specification the handler knows two:
    [under_review] and [update_priority] are refused as a whole with the
    400 error "Invalid action specified", and nothing is written. *)
Theorem bulk_approve_is_not_the_single_approval {platform : Platform}
        generateTransactionId (now : Z) (adminId id : string)
        (data : AdminController.BulkData) (s : State)
        (sub other : Subscription.t) :
  findById id (subscriptions s) = Some sub ->
  Subscription.status sub = PENDING ->
  In other (subscriptions s) ->
  Subscription._id other <> id ->
  Subscription.status other = ACTIVE ->
  Subscription.user other = Subscription.user sub
  \/ Subscription.imei other = Subscription.imei sub ->
  let bulk action :=
    AdminController.bulkUpdateSubscriptions generateTransactionId now adminId
      [id] action (Some data) s in
  (exists message,
     AdminController.approveSubscription generateTransactionId now adminId
       id (AdminController.comments data) (AdminController.activateNow data)
       s
     = (Throw 400 message, s))
  /\ bulk "approve"
     = (Ok (AdminController.mkBulkResponse
              [AdminController.mkBulkResult id "approved" None true] 1 1 0),
        with_transactions
          (ledgerAfterLog generateTransactionId now id
             (if AdminController.activateNow data
              then SUBSCRIPTION_ACTIVATED else SUBSCRIPTION_APPROVED)
             (if AdminController.activateNow data
              then TX_COMPLETED else TX_PENDING)
             adminId
             (AdminController.mkAdditional
                (Some ("Bulk operation: "
                       ++ orEmpty (AdminController.comments data)))
                None)
             (transactions s))
          (with_subscriptions
             (replaceById (schemaPaths (bulkApproved now adminId data sub))
                (subscriptions s))
             s))
  /\ option_map Subscription.status
       (findById id (subscriptions (snd (bulk "approve"))))
     = Some (if AdminController.activateNow data then ACTIVE else APPROVED)
  /\ bulk "under_review" = (Throw 400 "Invalid action specified", s)
  /\ bulk "update_priority" = (Throw 400 "Invalid action specified", s).
Proof.
  intros Hfind Hp Hin Hne Hact Hsame bulk.
  assert (Hbulk : bulk "approve"
     = (Ok (AdminController.mkBulkResponse
              [AdminController.mkBulkResult id "approved" None true] 1 1 0),
        with_transactions
          (ledgerAfterLog generateTransactionId now id
             (if AdminController.activateNow data
              then SUBSCRIPTION_ACTIVATED else SUBSCRIPTION_APPROVED)
             (if AdminController.activateNow data
              then TX_COMPLETED else TX_PENDING)
             adminId
             (AdminController.mkAdditional
                (Some ("Bulk operation: "
                       ++ orEmpty (AdminController.comments data)))
                None)
             (transactions s))
          (with_subscriptions
             (replaceById (schemaPaths (bulkApproved now adminId data sub))
                (subscriptions s))
             s))).
  { unfold bulk, AdminController.bulkUpdateSubscriptions. run_handler.
    cbn -[AdminController.mapM AdminController.readAll].
    rewrite readAll_run. cbn [map AdminController.mapM].
    unfold AdminController.bulkApproveOne, AdminController.readById.
    cbn [fst snd]. rewrite Hfind, Hp. cbn [Status_eqb].
    run_handler. rewrite logTransactionUpdate_spec.
    unfold bulkApproved.
    destruct (AdminController.activateNow data); reflexivity. }
  split; [| split; [exact Hbulk | split; [| split; reflexivity]]].
  - destruct (approveSubscription_conflict generateTransactionId now adminId
                id (AdminController.comments data)
                (AdminController.activateNow data) s sub other
                Hfind Hp Hin Hne Hact Hsame) as [message [H _]].
    now exists message.
  - rewrite Hbulk. cbn [snd subscriptions with_transactions
                          with_subscriptions].
    pose proof (find_some _ _ Hfind) as [Hsub Hid].
    apply String.eqb_eq in Hid.
    assert (Hkey : Subscription._id
                     (schemaPaths (bulkApproved now adminId data sub)) = id)
      by (unfold bulkApproved;
          destruct (AdminController.activateNow data); exact Hid).
    rewrite <- Hkey at 1.
    rewrite findById_replaceById_same
      by (exists sub; split; [exact Hsub | congruence]).
    unfold bulkApproved.
    destruct (AdminController.activateNow data); reflexivity.
Qed.

Lemma bulk_approve_is_not_the_single_approval_witness :
  (exists message,
     AdminController.approveSubscription numberedTransactionId 1000 "admin"
       "sub2" None true activeAndPending
     = (Throw 400 message, activeAndPending))
  /\ fst (AdminController.bulkUpdateSubscriptions
            (platform := workedPlatform) numberedTransactionId 1000 "admin"
            ["sub2"] "approve"
            (Some (AdminController.mkBulkData true None None))
            activeAndPending)
     = Ok (AdminController.mkBulkResponse
             [AdminController.mkBulkResult "sub2" "approved" None true]
             1 1 0)
  /\ ~ atMostOneActive
         (subscriptions
            (snd (AdminController.bulkUpdateSubscriptions
                    (platform := workedPlatform) numberedTransactionId 1000
                    "admin" ["sub2"] "approve"
                    (Some (AdminController.mkBulkData true None None))
                    activeAndPending))).
Proof.
  destruct (bulk_approve_is_not_the_single_approval
              (platform := workedPlatform) numberedTransactionId 1000
              "admin" "sub2" (AdminController.mkBulkData true None None)
              activeAndPending
              (subscriptionOf "sub2" "bob" imeiA (Some "1") PENDING 2)
              (subscriptionOf "sub1" "alice" imeiA None ACTIVE 1))
    as [H1 [H2 _]];
    try reflexivity; try discriminate.
  - now left.
  - now right.
  - split; [exact H1 |]. rewrite H2. split; [reflexivity |].
    cbn [snd]. intros [_ Himei]. specialize (Himei imeiA).
    vm_compute in Himei. lia.
Defined.

(** * Further properties of the code *)

(** ** Prices and durations of plan names *)

Lemma lookup_outside (key : string) (table : list (string * Z)) :
  ~ In key (map fst table) -> lookup key table = None.
Proof.
  induction table as [| [k v] table IH]; cbn [lookup map fst In];
    intros H; [reflexivity |].
  destruct (String.eqb key k) eqn:E.
  - apply String.eqb_eq in E. subst. tauto.
  - apply IH. tauto.
Qed.

(** A plan name is a name of the tables, with its price and duration, or
    a name inherited from [Object.prototype], or neither, and then it is
    priced and timed by the fallbacks. *)
Lemma plan_cases (plan : string) :
  (inheritedName plan = true
   /\ lookup plan SUBSCRIPTION_PRICES = None
   /\ getSubscriptionPrice plan = Inherited plan
   /\ getSubscriptionDuration plan = Inherited plan)
  \/ (inheritedName plan = false
      /\ exists price duration,
           getSubscriptionPrice plan = Number price
           /\ getSubscriptionDuration plan = Number duration
           /\ In (price, duration)
                 [ (2999, 30); (4999, 60); (9999, 90); (3999, 30);
                   (5999, 60); (7999, 60); (14999, 90) ]
           /\ (lookup plan SUBSCRIPTION_PRICES = None ->
               price = 2999 /\ duration = 30)).
Proof.
  destruct (in_dec string_dec plan (map fst SUBSCRIPTION_PRICES))
    as [Hin | Hout].
  - right. cbn in Hin.
    repeat (destruct Hin as [<- | Hin]);
      try contradiction;
      (split; [reflexivity |]);
      eexists; eexists;
      (split; [reflexivity |]); (split; [reflexivity |]);
      (split; [cbn [In]; tauto | intros H; discriminate H]).
  - pose proof (lookup_outside plan SUBSCRIPTION_PRICES Hout) as Hp.
    pose proof (lookup_outside plan SUBSCRIPTION_TYPES Hout) as Hd.
    unfold getSubscriptionPrice, getSubscriptionDuration, lookupOr.
    rewrite Hp, Hd.
    destruct (inheritedName plan); [left; auto |].
    right. split; [reflexivity |]. exists 2999, 30.
    repeat split; cbn [In]; tauto.
Qed.

(** X1. A plan name that [Object.prototype] does not hold has a price
    and a duration: the price lies between the cheapest (2999) and the
    dearest (14999) of the table, the duration is 30, 60 or 90 days, and
    a name that the table does not hold either is priced and timed like
    "mobile-v4-basic". For one of the twelve names that [Object.prototype]
    holds, "constructor" and "toString" among them, neither lookup gives
    a number: both give what the name inherits. *)
Theorem plan_price_and_duration_bounds (plan : string) :
  (In plan objectPrototypeNames <-> inheritedName plan = true)
  /\ match getSubscriptionPrice plan, getSubscriptionDuration plan with
     | Number price, Number duration =>
         inheritedName plan = false
         /\ 2999 <= price <= 14999
         /\ In duration [30; 60; 90]
         /\ (lookup plan SUBSCRIPTION_PRICES = None ->
             getSubscriptionPrice plan = getSubscriptionPrice "mobile-v4-basic"
             /\ getSubscriptionDuration plan
                = getSubscriptionDuration "mobile-v4-basic")
     | Inherited name, Inherited name' =>
         inheritedName plan = true /\ name = plan /\ name' = plan
     | _, _ => False
     end.
Proof.
  split.
  - unfold inheritedName. rewrite existsb_exists. split.
    + intros H. exists plan. split; [exact H | apply String.eqb_refl].
    + intros [k [Hk E]]. apply String.eqb_eq in E. now subst.
  - destruct (plan_cases plan)
      as [[Hi [_ [Hp Hd]]] | [Hi [price [duration [Hp [Hd [Hin Hnone]]]]]]];
      rewrite Hp, Hd; [auto |].
    split; [exact Hi |].
    split; [| split].
    + cbn [In] in Hin.
      repeat (destruct Hin as [E | Hin]; [injection E as <- <-; lia |]).
      contradiction.
    + cbn [In] in Hin |- *.
      repeat (destruct Hin as [E | Hin]; [injection E as <- <-; tauto |]).
      contradiction.
    + intros H. destruct (Hnone H) as [-> ->]. split; reflexivity.
Qed.

(** ** The order of the store on queue positions *)

Lemma compare_as_OT (a b : string) :
  String.compare a b = OrdersEx.String_as_OT.compare a b.
Proof.
  revert b. induction a as [| x a IH]; destruct b as [| y b]; cbn; auto.
Qed.

Lemma ltb_trans (a b c : string) :
  String.ltb a b = true -> String.ltb b c = true -> String.ltb a c = true.
Proof.
  unfold String.ltb.
  rewrite (compare_as_OT a b), (compare_as_OT b c), (compare_as_OT a c).
  destruct (OrdersEx.String_as_OT.compare a b) eqn:Eab; try discriminate.
  destruct (OrdersEx.String_as_OT.compare b c) eqn:Ebc;
    cbn; intros _ H; try discriminate H. clear H.
  assert (H : OrdersEx.String_as_OT.lt a c).
  { transitivity b; [exact Eab | exact Ebc]. }
  unfold OrdersEx.String_as_OT.lt in H. now rewrite H.
Qed.

Lemma ltb_total (a b : string) :
  String.ltb a b = false -> String.ltb b a = false -> a = b.
Proof.
  unfold String.ltb. rewrite (String.compare_antisym a b).
  destruct (String.compare b a) eqn:E; cbn; try discriminate.
  intros _ _. symmetry. now apply String.compare_eq_iff.
Qed.

Lemma ltb_asym (a b : string) :
  String.ltb a b = true -> String.ltb b a = false.
Proof.
  unfold String.ltb. rewrite (String.compare_antisym a b).
  destruct (String.compare b a); cbn; auto.
Qed.

Lemma ltb_irrefl (a : string) : String.ltb a a = false.
Proof.
  destruct (String.ltb a a) eqn:E; [| reflexivity].
  now rewrite (ltb_asym a a E) in E.
Qed.

(** No position comes after the one of the document that
    [lastByQueuePosition] picks. *)
Lemma lastByQueuePosition_max (docs : list Subscription.t) (b : Subscription.t) :
  lastByQueuePosition docs = Some b ->
  In b docs
  /\ forall x, In x docs ->
       position_ltb (Subscription.queuePosition b)
                    (Subscription.queuePosition x) = false.
Proof.
  revert b. induction docs as [| d docs IH]; cbn [lastByQueuePosition];
    intros b H; [discriminate |].
  destruct (lastByQueuePosition docs) as [b' |] eqn:E.
  - destruct (IH b' eq_refl) as [Hin Hmax].
    destruct (position_ltb (Subscription.queuePosition d)
                           (Subscription.queuePosition b')) eqn:L;
      inversion H; subst; clear H.
    + split; [now right |]. intros x [<- | Hx]; [| now apply Hmax].
      revert L. unfold position_ltb.
      destruct (Subscription.queuePosition d) as [pd |],
               (Subscription.queuePosition b) as [pb |]; try discriminate; auto.
      apply ltb_asym.
    + split; [now left |]. intros x [<- | Hx].
      * unfold position_ltb.
        destruct (Subscription.queuePosition b) as [pb |]; auto.
        apply ltb_irrefl.
      * specialize (Hmax x Hx). revert L Hmax. unfold position_ltb.
        destruct (Subscription.queuePosition b) as [pb |],
                 (Subscription.queuePosition b') as [pb' |],
                 (Subscription.queuePosition x) as [px |];
          try discriminate; auto.
        intros L Hmax.
        destruct (String.ltb pb px) eqn:Lx; [| reflexivity].
        destruct (String.ltb pb' pb) eqn:Lb.
        -- now rewrite (ltb_trans pb' pb px Lb Lx) in Hmax.
        -- rewrite (ltb_total pb pb' L Lb) in Lx. congruence.
  - inversion H; subst; clear H.
    destruct docs as [| d' docs]; [| cbn [lastByQueuePosition] in E;
      destruct (lastByQueuePosition docs);
      [destruct (position_ltb _ _) |]; discriminate E].
    split; [now left |]. intros x [<- | []].
    unfold position_ltb.
    destruct (Subscription.queuePosition b) as [pb |]; auto.
    apply ltb_irrefl.
Qed.

Lemma lastByQueuePosition_none (docs : list Subscription.t) :
  lastByQueuePosition docs = None -> docs = [].
Proof.
  destruct docs as [| d docs]; [reflexivity |].
  cbn [lastByQueuePosition].
  destruct (lastByQueuePosition docs);
    [destruct (position_ltb _ _) |]; discriminate.
Qed.

Lemma fold_max_perm (l l' : list Z) :
  Permutation l l' -> fold_right Z.max 0 l = fold_right Z.max 0 l'.
Proof. induction 1; cbn [fold_right]; lia. Qed.

(** On the writings of 1 to 9 the order of strings is the order of
    numbers. *)
Lemma single_digit_order (k n : nat) :
  (1 <= k <= 9)%nat -> (1 <= n <= 9)%nat ->
  String.ltb (toString (Z.of_nat k)) (toString (Z.of_nat n)) = false ->
  (n <= k)%nat.
Proof.
  intros Hk Hn.
  assert (Ik : In k (seq 1 9)) by (apply in_seq; lia).
  assert (In' : In n (seq 1 9)) by (apply in_seq; lia).
  clear Hk Hn. cbn [seq In] in Ik, In'.
  repeat (destruct Ik as [<- | Ik]; [| try contradiction]);
    repeat (destruct In' as [<- | In']; [| try contradiction]);
    intros H; vm_compute in H; first [discriminate H | lia].
Qed.

(** ** The next queue position of a queue of at most nine *)

(** X2. When the queue positions of an IMEI are exactly 1..N and N is at
    most 9, [getNextQueuePosition(imei)] answers N+1: a position that no
    subscription of the queue holds, and the one that the greatest
    position plus one gives. The store is not changed. *)
Theorem getNextQueuePosition_dense_below_ten (imei : string) (s : State) :
  densePacked imei (subscriptions s) ->
  (length (filter (inQueue imei) (subscriptions s)) <= 9)%nat ->
  let next :=
    toString (Z.of_nat (length (filter (inQueue imei) (subscriptions s))) + 1)
  in
  getNextQueuePosition imei s = (Ok next, s)
  /\ ~ In (Some next) (queuePositions imei (subscriptions s))
  /\ next = specNextQueuePosition imei (subscriptions s).
Proof.
  unfold densePacked, specNextQueuePosition, queuePositions,
         getNextQueuePosition.
  set (q := filter (inQueue imei) (subscriptions s)).
  remember (length q) as N eqn:EN.
  intros P HN. cbv zeta. split; [| split].
  - run_handler. fold q.
    destruct (lastByQueuePosition q) as [b |] eqn:E.
    + destruct (lastByQueuePosition_max q b E) as [Hb Hmax].
      assert (Hpos : In (Subscription.queuePosition b) (positions1 N)).
      { apply (Permutation_in _ P). now apply in_map. }
      apply in_map_iff in Hpos. destruct Hpos as [k [Ek Hk]].
      apply in_seq in Hk.
      assert (HN1 : (1 <= N)%nat) by lia.
      assert (Hlast : In (Some (toString (Z.of_nat N)))
                         (map Subscription.queuePosition q)).
      { apply (Permutation_in _ (Permutation_sym P)).
        apply in_map_iff. exists N. split; [reflexivity |].
        apply in_seq. lia. }
      apply in_map_iff in Hlast. destruct Hlast as [x [Ex Hx]].
      specialize (Hmax x Hx). rewrite <- Ek, Ex in Hmax.
      cbn [position_ltb] in Hmax.
      apply single_digit_order in Hmax; [| lia | lia].
      assert (k = N) by lia. subst k. rewrite <- Ek.
      clear - HN HN1.
      do 10 (destruct N as [| N]; [try lia; reflexivity |]). lia.
    + apply lastByQueuePosition_none in E. rewrite E in EN.
      cbn [length] in EN. subst N. reflexivity.
  - intros Hin. apply (Permutation_in _ P) in Hin.
    clear - Hin HN.
    do 10 (destruct N as [| N];
           [vm_compute in Hin; intuition discriminate |]).
    lia.
  - rewrite (fold_max_perm _ _ (Permutation_map _ P)).
    clear - HN.
    do 10 (destruct N as [| N]; [vm_compute; reflexivity |]). lia.
Qed.

Lemma getNextQueuePosition_dense_below_ten_witness :
  getNextQueuePosition imeiA twoPending = (Ok "3", twoPending)
  /\ ~ In (Some "3") (queuePositions imeiA (subscriptions twoPending))
  /\ "3" = specNextQueuePosition imeiA (subscriptions twoPending).
Proof.
  apply (getNextQueuePosition_dense_below_ten imeiA twoPending).
  - vm_compute. apply Permutation_refl.
  - vm_compute. lia.
Defined.

(** ** The order that [reorderDeviceQueue] gives to a queue *)

Lemma queueOrder_total (a b : Subscription.t) :
  queueOrder a b = false -> queueOrder b a = true.
Proof.
  unfold queueOrder. intros H.
  apply orb_false_iff in H. destruct H as [H1 H2].
  apply Z.ltb_ge in H1. apply andb_false_iff in H2.
  apply orb_true_iff.
  destruct (Z.eq_dec (Subscription.priority a) (Subscription.priority b))
    as [E | E].
  - destruct H2 as [H2 | H2]; [apply Z.eqb_neq in H2; contradiction |].
    apply Z.leb_gt in H2. right. apply andb_true_iff. split.
    + apply Z.eqb_eq. congruence.
    + apply Z.leb_le. lia.
  - left. apply Z.ltb_lt. lia.
Qed.

Lemma queueOrder_spec (a b : Subscription.t) :
  queueOrder a b = true <->
  Subscription.priority b < Subscription.priority a
  \/ (Subscription.priority a = Subscription.priority b
      /\ Subscription.createdAt a <= Subscription.createdAt b).
Proof.
  unfold queueOrder.
  rewrite orb_true_iff, andb_true_iff, Z.ltb_lt, Z.eqb_eq, Z.leb_le.
  reflexivity.
Qed.

Lemma queueOrder_trans (a b c : Subscription.t) :
  queueOrder a b = true -> queueOrder b c = true -> queueOrder a c = true.
Proof. rewrite !queueOrder_spec. lia. Qed.

Lemma insertSorted_in (d x : Subscription.t) (l : list Subscription.t) :
  In x (insertSorted d l) -> x = d \/ In x l.
Proof.
  intros H.
  apply (Permutation_in _ (insertSorted_perm d l)) in H.
  destruct H as [<- | H]; auto.
Qed.

Lemma insertSorted_sorted (d : Subscription.t) (l : list Subscription.t) :
  ForallOrdPairs (fun a b => queueOrder a b = true) l ->
  ForallOrdPairs (fun a b => queueOrder a b = true) (insertSorted d l).
Proof.
  induction 1 as [| x l Hx Hl IH]; cbn [insertSorted].
  - constructor; constructor.
  - destruct (queueOrder d x) eqn:E.
    + constructor; [| now constructor].
      constructor; [exact E |].
      apply Forall_forall. intros y Hy.
      apply (queueOrder_trans d x y E).
      now apply (proj1 (Forall_forall _ _) Hx).
    + constructor; [| exact IH].
      apply Forall_forall. intros y Hy.
      apply insertSorted_in in Hy. destruct Hy as [-> | Hy].
      * now apply queueOrder_total.
      * now apply (proj1 (Forall_forall _ _) Hx).
Qed.

Lemma sortQueue_sorted (l : list Subscription.t) :
  ForallOrdPairs (fun a b => queueOrder a b = true) (sortQueue l).
Proof.
  induction l as [| d l IH]; cbn [sortQueue].
  - constructor.
  - now apply insertSorted_sorted.
Qed.

Lemma indexOf_length (id : string) (l : list Subscription.t) (k : nat) :
  indexOf id l = Some k -> (k < length l)%nat.
Proof.
  revert k. induction l as [| d l IH]; cbn [indexOf length]; intros k H;
    [discriminate |].
  destruct (String.eqb (Subscription._id d) id).
  - inversion H; lia.
  - destruct (indexOf id l) as [k' |]; cbn [option_map] in H;
      [| discriminate].
    inversion H; subst. specialize (IH k' eq_refl). lia.
Qed.

Lemma indexOf_ordered (R : Subscription.t -> Subscription.t -> Prop)
      (l : list Subscription.t) (idx idy : string) (i j : nat)
      (x y : Subscription.t) :
  ForallOrdPairs R l ->
  indexOf idx l = Some i -> indexOf idy l = Some j -> (j < i)%nat ->
  R (nth j l y) (nth i l x).
Proof.
  intros Hs. revert i j. induction Hs as [| d l Hd Hl IH];
    cbn [indexOf]; intros i j Hi Hj Hlt; [discriminate |].
  destruct (String.eqb (Subscription._id d) idx).
  - inversion Hi; subst. lia.
  - destruct (indexOf idx l) as [i' |] eqn:Ei; cbn [option_map] in Hi;
      [| discriminate].
    inversion Hi; subst; clear Hi.
    destruct (String.eqb (Subscription._id d) idy).
    + inversion Hj; subst. cbn [nth].
      apply (proj1 (Forall_forall _ _) Hd).
      apply nth_In. now apply (indexOf_length idx).
    + destruct (indexOf idy l) as [j' |] eqn:Ej; cbn [option_map] in Hj;
        [| discriminate].
      inversion Hj; subst; clear Hj. cbn [nth].
      apply IH; auto. lia.
Qed.

(** A document of the queue after the loop: the stored document it comes
    from, and its index in the sorted array. *)
Lemma renumbered_from (imei : string) (docs : list Subscription.t)
      (x : Subscription.t) :
  uniqueIds docs ->
  In x (map (renumber 0 (sortedQueue imei docs)) docs) ->
  inQueue imei x = true ->
  exists x0 k,
    In x0 docs
    /\ indexOf (Subscription._id x0) (sortedQueue imei docs) = Some k
    /\ nth k (sortedQueue imei docs) x0 = x0
    /\ Subscription.queuePosition x = Some (toString (Z.of_nat (k + 1)))
    /\ Subscription.priority x = Subscription.priority x0
    /\ Subscription.createdAt x = Subscription.createdAt x0.
Proof.
  intros Hu Hx Hq. apply in_map_iff in Hx. destruct Hx as [x0 [Ex Hx0]].
  subst x. rewrite (renumber_inQueue imei docs Hu x0 Hx0) in Hq.
  assert (Hin : In x0 (sortedQueue imei docs)).
  { apply (Permutation_in _ (Permutation_sym (sortedQueue_perm imei docs))).
    apply filter_In. auto. }
  destruct (indexOf_In _ _ Hin) as [k Hk].
  exists x0, k.
  pose proof (sorted_nth imei docs Hu x0 k Hx0 Hk) as Hnth.
  unfold renumber. rewrite Hk, Hnth. cbn [Nat.add].
  repeat split; auto.
Qed.

(** X3. After [reorderDeviceQueue(imei)], of two subscriptions of the
    queue the one with the higher priority, or with the same priority and
    the earlier creation, holds the smaller position; both positions lie
    between 1 and the number that the static answers. *)
Theorem reorderDeviceQueue_by_priority (imei : string) (s s' : State)
        (n : nat) (x y : Subscription.t) :
  uniqueIds (subscriptions s) ->
  reorderDeviceQueue imei s = (Ok n, s') ->
  In x (subscriptions s') -> In y (subscriptions s') ->
  inQueue imei x = true -> inQueue imei y = true ->
  Subscription.priority y < Subscription.priority x
  \/ (Subscription.priority x = Subscription.priority y
      /\ Subscription.createdAt x < Subscription.createdAt y) ->
  exists i j : nat,
    Subscription.queuePosition x = Some (toString (Z.of_nat i))
    /\ Subscription.queuePosition y = Some (toString (Z.of_nat j))
    /\ (1 <= i)%nat /\ (i < j)%nat /\ (j <= n)%nat.
Proof.
  intros Hu H Hx Hy Qx Qy Hord.
  unfold reorderDeviceQueue in H. run_handler.
  fold (sortedQueue imei (subscriptions s)) in H.
  rewrite reorderLoop_spec in H by (apply sorted_unique; exact Hu).
  inversion H; subst; clear H.
  cbn [with_subscriptions subscriptions] in Hx, Hy.
  destruct (renumbered_from imei _ x Hu Hx Qx)
    as [x0 [i [Hx0 [Hi [Nx [Px [Rx Cx]]]]]]].
  destruct (renumbered_from imei _ y Hu Hy Qy)
    as [y0 [j [Hy0 [Hj [Ny [Py [Ry Cy]]]]]]].
  exists (i + 1)%nat, (j + 1)%nat.
  pose proof (indexOf_length _ _ _ Hj) as Lj.
  assert (Hij : (i < j)%nat).
  { destruct (Nat.lt_trichotomy i j) as [Hlt | [Heq | Hgt]]; [exact Hlt | |].
    - exfalso. subst j.
      destruct (indexOf_nth _ _ i x0 Hi) as [_ Ix].
      destruct (indexOf_nth _ _ i y0 Hj) as [Iy0 Iy].
      rewrite Nx in Ix.
      assert (E : nth i (sortedQueue imei (subscriptions s)) y0
                  = nth i (sortedQueue imei (subscriptions s)) x0).
      { apply nth_indep. now apply (indexOf_length (Subscription._id x0)). }
      rewrite Ny, Nx in E. subst y0. lia.
    - exfalso.
      pose proof (indexOf_ordered (fun a b => queueOrder a b = true)
                    _ _ _ _ _ x0 y0
                    (sortQueue_sorted _) Hi Hj Hgt) as Hq.
      fold (sortedQueue imei (subscriptions s)) in Hq.
      rewrite Nx, Ny in Hq. apply queueOrder_spec in Hq. lia. }
  repeat split; auto; lia.
Qed.

Lemma reorderDeviceQueue_by_priority_witness :
  exists s' x y i j,
    In x (subscriptions s') /\ In y (subscriptions s')
    /\ Subscription._id x = "sub1" /\ Subscription._id y = "sub2"
    /\ Subscription.queuePosition x = Some (toString (Z.of_nat i))
    /\ Subscription.queuePosition y = Some (toString (Z.of_nat j))
    /\ (1 <= i)%nat /\ (i < j)%nat /\ (j <= 2)%nat.
Proof.
  pose (s' := snd (reorderDeviceQueue imeiA twoPending)).
  pose (x := nth 0 (subscriptions s') (subscriptionOf "" "" "" None PENDING 0)).
  pose (y := nth 1 (subscriptions s') (subscriptionOf "" "" "" None PENDING 0)).
  assert (Hu : uniqueIds (subscriptions twoPending)).
  { unfold uniqueIds. cbn. repeat constructor; cbn; intuition discriminate. }
  assert (Hrun : reorderDeviceQueue imeiA twoPending = (Ok 2%nat, s'))
    by (vm_compute; reflexivity).
  assert (Hx : In x (subscriptions s')) by (vm_compute; auto).
  assert (Hy : In y (subscriptions s')) by (vm_compute; auto).
  destruct (reorderDeviceQueue_by_priority imeiA twoPending s' 2 x y
              Hu Hrun Hx Hy eq_refl eq_refl)
    as [i [j [Pi [Pj Hb]]]].
  - right. vm_compute. split; [reflexivity | reflexivity].
  - exists s', x, y, i, j. repeat split; auto; tauto.
Defined.

(** ** Worked cases of the queue statics and of the admin activation *)


Lemma getNextQueuePosition_default_witness :
  getNextQueuePosition imeiA pendingUnnumbered = (Ok "1", pendingUnnumbered).
Proof.
  apply (getNextQueuePosition_default imeiA pendingUnnumbered).
  intros d [<- | [<- | []]] _; reflexivity.
Defined.

Lemma admin_activation_keeps_uniqueness_witness :
  atMostOneActive
    (subscriptions
       (snd (AdminController.approveSubscription numberedTransactionId 0
               "admin" "sub1" None true pendingWithLedger))).
Proof.
  eapply (admin_activation_keeps_uniqueness numberedTransactionId 0 "admin"
            "sub1" None pendingWithLedger).
  - unfold uniqueIds. cbn. repeat constructor; cbn; intuition discriminate.
  - split; intros k; unfold activeFor;
      cbn [subscriptions pendingWithLedger subscriptionOf filter
           Subscription.status Status_eqb];
      rewrite andb_false_r; cbn [length]; lia.
  - left. exists true. lazy. reflexivity.
Defined.

(** ** Self-service: upgrades, ownership, cancellation, downgrade *)

Lemma find_all_false {A : Type} (p : A -> bool) (l : list A) :
  (forall x, In x l -> p x = false) -> find p l = None.
Proof.
  induction l as [| a l IH]; cbn [find]; intros H; [reflexivity |].
  rewrite (H a (or_introl eq_refl)). apply IH. intros x Hx. apply H. now right.
Qed.

(** In the tables a dearer plan never lasts shorter. *)
Lemma price_duration_monotone (p q : string) :
  getSubscriptionPrice p < getSubscriptionPrice q ->
  getSubscriptionDuration p <= getSubscriptionDuration q.
Proof.
  destruct (plan_cases p)
    as [[_ [_ [Pp Dp]]] | [_ [pp [dp [Pp [Dp [Hp _]]]]]]];
    destruct (plan_cases q)
      as [[_ [_ [Pq Dq]]] | [_ [pq [dq [Pq [Dq [Hq _]]]]]]];
    rewrite Pp, Dp, Pq, Dq; cbn [numberOf]; cbn [In] in *.
  - lia.
  - intros _.
    repeat (destruct Hq as [E | Hq]; [injection E as <- <-; lia |]).
    contradiction.
  - repeat (destruct Hp as [E | Hp]; [injection E as <- <-; lia |]).
    contradiction.
  - repeat (destruct Hp as [E | Hp];
            [injection E as <- <-;
             repeat (destruct Hq as [E | Hq]; [injection E as <- <-; lia |]);
             contradiction |]).
    contradiction.
Qed.

Section UpgradeKeeps.

Context {platform : Platform}.

(** X7. A successful upgrade keeps the subscription ACTIVE and keeps its
    start date; the end date is counted anew from that start date with
    the duration of the new plan, and, for a subscription whose price is
    the price of its plan, that duration is never shorter than the
    duration of the old plan. What is stored is the answer. *)
Theorem upgrade_never_shortens generateTransactionId updateStatus
        (now : Z) (userId subscriptionId newPlan : string) (s s' : State)
        (subscription answer : Subscription.t) (transaction : Transaction.t)
        (amount : Z) :
  find (ownedBy subscriptionId userId ACTIVE) (subscriptions s)
  = Some subscription ->
  Subscription.price subscription
  = getSubscriptionPrice (Subscription.plan subscription) ->
  SubscriptionController.upgradeSubscription generateTransactionId
    updateStatus now userId subscriptionId newPlan s
  = (Ok (answer, transaction, amount), s') ->
  exists startDate,
    Subscription.startDate subscription = Some startDate
    /\ Subscription.startDate answer = Some startDate
    /\ Subscription.status answer = ACTIVE
    /\ Subscription.endDate answer
       = Some (startDate + getSubscriptionDuration newPlan * msPerDay)
    /\ getSubscriptionDuration (Subscription.plan subscription)
       <= getSubscriptionDuration newPlan
    /\ subscriptions s' = replaceById (schemaPaths answer) (subscriptions s).
Proof.
  intros Hfind Hprice.
  rewrite (upgradeSubscription_run _ _ _ _ _ _ _ _ Hfind).
  destruct (lessOrEqual (getSubscriptionPrice newPlan)
              (Number (Subscription.price subscription))) eqn:G;
    [discriminate |].
  destruct (getSubscriptionPrice newPlan) as [newPrice | name] eqn:P;
    [| discriminate].
  cbn [lessOrEqual] in G. apply Z.leb_gt in G. cbn zeta.
  destruct (ownedBy_id _ _ _ _ (proj2 (find_some _ _ Hfind))) as [_ [_ Hst]].
  destruct (Subscription.startDate subscription) as [start |] eqn:D;
    [| discriminate].
  intros H. inversion H; subst; clear H.
  exists start.
  split; [reflexivity |]. split; [exact D |]. split; [exact Hst |].
  split; [reflexivity |]. split; [| reflexivity].
  apply price_duration_monotone. rewrite P. cbn [numberOf]. lia.
Qed.

End UpgradeKeeps.

Section UpgradeKeepsWorked.

#[local] Existing Instance workedPlatform.


Lemma upgrade_never_shortens_witness :
  match SubscriptionController.upgradeSubscription numberedTransactionId
          keepLedger 1000 "alice" "sub1" "mobile-v4-enterprise" activeBasic
  with
  | (Ok (answer, _, _), s') =>
      Subscription.startDate answer = Some 0
      /\ Subscription.endDate answer = Some (0 + 90 * msPerDay)
      /\ subscriptions s'
         = replaceById (schemaPaths answer) (subscriptions activeBasic)
  | (Throw _ _, _) => False
  end.
Proof.
  destruct (SubscriptionController.upgradeSubscription numberedTransactionId
              keepLedger 1000 "alice" "sub1" "mobile-v4-enterprise"
              activeBasic)
    as [[[[answer transaction] amount] | code msg] s'] eqn:E.
  - destruct (upgrade_never_shortens numberedTransactionId keepLedger 1000
                "alice" "sub1" "mobile-v4-enterprise" activeBasic s'
                basicSubscription answer transaction amount
                eq_refl eq_refl E)
      as [start [S1 [S2 [_ [S4 [_ S6]]]]]].
    cbn [basicSubscription Subscription.startDate] in S1.
    inversion S1; subst start. auto.
  - vm_compute in E. discriminate E.
Defined.

End UpgradeKeepsWorked.

Lemma ownedBy_other_user (subscriptionId userId : string) (st : Status)
      (docs : list Subscription.t) :
  (forall d, In d docs -> Subscription._id d = subscriptionId ->
             Subscription.user d <> userId) ->
  find (ownedBy subscriptionId userId st) docs = None.
Proof.
  intros H. apply find_all_false. intros d Hd. unfold ownedBy.
  destruct (String.eqb (Subscription._id d) subscriptionId) eqn:E;
    [| reflexivity].
  apply String.eqb_eq in E. specialize (H d Hd E).
  apply String.eqb_neq in H. now rewrite H.
Qed.

Section OwnerOnly.

Context {platform : Platform}.

(** X8. Upgrade, downgrade, cancellation and renewal of a subscription
    that the caller does not own answer 404, whatever the subscription's
    status, and leave subscriptions, ledger and devices as they are. *)
Theorem self_service_requires_owner generateTransactionId updateStatus
        (now : Z) (userId subscriptionId : string) (s : State) :
  (forall d, In d (subscriptions s) ->
             Subscription._id d = subscriptionId ->
             Subscription.user d <> userId) ->
  (forall newPlan,
      SubscriptionController.upgradeSubscription generateTransactionId
        updateStatus now userId subscriptionId newPlan s
      = (Throw 404 "Active subscription not found", s))
  /\ (forall newPlan,
         SelfService.downgradeSubscription generateTransactionId now userId
           subscriptionId newPlan s
         = (Throw 404 "Active subscription not found", s))
  /\ (forall reason immediate,
         SubscriptionController.cancelSubscription generateTransactionId now
           userId subscriptionId reason immediate s
         = (Throw 404 "Active subscription not found", s))
  /\ SubscriptionController.renewSubscription generateTransactionId
       updateStatus now userId subscriptionId s
     = (Throw 404 "Expired subscription not found", s).
Proof.
  intros H.
  pose proof (ownedBy_other_user subscriptionId userId ACTIVE _ H) as Ha.
  pose proof (ownedBy_other_user subscriptionId userId EXPIRED _ H) as He.
  repeat split; intros;
    unfold SubscriptionController.upgradeSubscription,
           SelfService.downgradeSubscription,
           SubscriptionController.cancelSubscription,
           SubscriptionController.renewSubscription;
    unfold bind at 1; rewrite findOwned_find; rewrite ?Ha, ?He; reflexivity.
Qed.

End OwnerOnly.

Lemma self_service_requires_owner_witness :
  SubscriptionController.cancelSubscription numberedTransactionId 1000
    "bob" "sub1" (Some "mine now") true activeBasic
  = (Throw 404 "Active subscription not found", activeBasic).
Proof.
  apply (self_service_requires_owner (platform := workedPlatform)
           numberedTransactionId keepLedger 1000 "bob" "sub1" activeBasic).
  intros d [<- | []] _. discriminate.
Defined.

Lemma replaceById_in (a d : Subscription.t) (docs : list Subscription.t) :
  In d (replaceById a docs) ->
  Subscription._id d = Subscription._id a -> d = a.
Proof.
  unfold replaceById. intros Hd E. apply in_map_iff in Hd.
  destruct Hd as [x [Ex Hx]].
  destruct (String.eqb (Subscription._id x) (Subscription._id a)) eqn:G.
  - congruence.
  - subst d. apply String.eqb_neq in G. contradiction.
Qed.

Lemma replaceById_same (sub : Subscription.t) (docs : list Subscription.t) :
  uniqueIds docs -> In sub docs -> replaceById sub docs = docs.
Proof.
  intros Hu Hin. unfold replaceById.
  rewrite (map_ext_in _ (fun x => x)); [apply map_id |].
  intros x Hx.
  destruct (String.eqb (Subscription._id x) (Subscription._id sub)) eqn:E;
    [| reflexivity].
  apply String.eqb_eq in E. symmetry. now apply (uniqueIds_same docs).
Qed.

(** What a successful [cancelSubscription] has read and written. *)
Lemma cancelSubscription_ok generateTransactionId (now : Z)
      (userId subscriptionId : string) (reason : option string)
      (immediate : bool) (s s' : State) (answer : Subscription.t)
      (transaction : Transaction.t) :
  SubscriptionController.cancelSubscription generateTransactionId now userId
    subscriptionId reason immediate s = (Ok (answer, transaction), s') ->
  exists sub,
    find (ownedBy subscriptionId userId ACTIVE) (subscriptions s) = Some sub
    /\ answer = (if immediate then
                   Subscription.set_endDate (Some now)
                     (Subscription.set_status CANCELLED sub)
                 else
                   Subscription.set_cancellationReason reason
                     (Subscription.set_cancelledAt (Some now) sub))
    /\ transaction
       = SubscriptionController.newTransaction generateTransactionId
           (transactions s) userId subscriptionId SUBSCRIPTION_CANCELLED 0
           (Subscription.plan sub) TX_COMPLETED (Some now)
    /\ s' = with_subscriptions
              (replaceById (schemaPaths answer) (subscriptions s))
              (with_transactions (transactions s ++ [transaction]) s).
Proof.
  unfold SubscriptionController.cancelSubscription.
  unfold bind at 1. rewrite findOwned_find.
  destruct (find (ownedBy subscriptionId userId ACTIVE) (subscriptions s))
    as [sub |] eqn:Hfind; [| discriminate].
  run_handler. intros H. inversion H; subst; clear H.
  exists sub. repeat split; reflexivity.
Qed.

Section CancelIsFinal.

Context {platform : Platform}.

(** X9. An immediate cancellation stores the subscription as CANCELLED
    with the end date at the time of the request and appends one
    COMPLETED entry of amount 0 to the ledger; from then on every
    upgrade, downgrade, cancellation and renewal of that subscription, by
    whoever asks, answers 404. *)
Theorem immediate_cancel_is_final generateTransactionId updateStatus
        (now : Z) (userId subscriptionId : string) (reason : option string)
        (s s' : State) (answer : Subscription.t)
        (transaction : Transaction.t) :
  SubscriptionController.cancelSubscription generateTransactionId now userId
    subscriptionId reason true s = (Ok (answer, transaction), s') ->
  findById subscriptionId (subscriptions s') = Some (schemaPaths answer)
  /\ Subscription.status answer = CANCELLED
  /\ Subscription.endDate answer = Some now
  /\ transactions s' = (transactions s ++ [transaction])%list
  /\ Transaction.type transaction = SUBSCRIPTION_CANCELLED
  /\ Transaction.status transaction = TX_COMPLETED
  /\ Transaction.amount transaction = 0
  /\ forall (later : Z) (anyone newPlan : string) (why : option string)
            (immediate : bool),
       fst (SubscriptionController.upgradeSubscription generateTransactionId
              updateStatus later anyone subscriptionId newPlan s')
       = Throw 404 "Active subscription not found"
       /\ fst (SelfService.downgradeSubscription generateTransactionId later
                 anyone subscriptionId newPlan s')
          = Throw 404 "Active subscription not found"
       /\ fst (SubscriptionController.cancelSubscription
                 generateTransactionId later anyone subscriptionId why
                 immediate s')
          = Throw 404 "Active subscription not found"
       /\ fst (SubscriptionController.renewSubscription generateTransactionId
                 updateStatus later anyone subscriptionId s')
          = Throw 404 "Expired subscription not found".
Proof.
  intros H. apply cancelSubscription_ok in H.
  destruct H as [sub [Hfind [Ea [Et Es]]]].
  destruct (find_some _ _ Hfind) as [Hin Hown].
  destruct (ownedBy_id _ _ _ _ Hown) as [Hid [Hu Hst]].
  assert (Eid : Subscription._id (schemaPaths answer) = subscriptionId).
  { subst answer. exact Hid. }
  assert (Est : Subscription.status (schemaPaths answer) = CANCELLED).
  { subst answer. reflexivity. }
  assert (Hnone : forall u st, st <> CANCELLED ->
            find (ownedBy subscriptionId u st) (subscriptions s') = None).
  { intros u st Hne. apply find_all_false. intros d Hd.
    rewrite Es in Hd. cbn [with_subscriptions subscriptions] in Hd.
    unfold ownedBy.
    destruct (String.eqb (Subscription._id d) subscriptionId) eqn:E;
      [| reflexivity].
    apply String.eqb_eq in E.
    rewrite (replaceById_in _ d _ Hd) by congruence.
    rewrite Est. destruct st; try reflexivity;
      try (now rewrite andb_false_r). contradiction. }
  split; [| split; [| split; [| split; [| split; [| split; [| split]]]]]].
  - rewrite Es. cbn [with_subscriptions subscriptions].
    rewrite <- Eid at 1. apply findById_replaceById_same.
    exists sub. split; [exact Hin | congruence].
  - subst answer. reflexivity.
  - subst answer. reflexivity.
  - now rewrite Es.
  - now rewrite Et.
  - now rewrite Et.
  - now rewrite Et.
  - intros later anyone newPlan why immediate.
    unfold SubscriptionController.upgradeSubscription,
           SelfService.downgradeSubscription,
           SubscriptionController.cancelSubscription,
           SubscriptionController.renewSubscription.
    repeat split; unfold bind at 1; rewrite findOwned_find;
      rewrite Hnone by discriminate; reflexivity.
Qed.

End CancelIsFinal.

Lemma immediate_cancel_is_final_witness :
  match SubscriptionController.cancelSubscription numberedTransactionId 1000
          "alice" "sub1" (Some "moved") true activeBasic
  with
  | (Ok (answer, _), s') =>
      findById "sub1" (subscriptions s') = Some (schemaPaths answer)
      /\ Subscription.status answer = CANCELLED
      /\ fst (SubscriptionController.renewSubscription numberedTransactionId
                keepLedger 2000 "alice" "sub1" s')
         = Throw 404 "Expired subscription not found"
  | (Throw _ _, _) => False
  end.
Proof.
  destruct (SubscriptionController.cancelSubscription numberedTransactionId
              1000 "alice" "sub1" (Some "moved") true activeBasic)
    as [[[answer transaction] | code msg] s'] eqn:E.
  - destruct (immediate_cancel_is_final (platform := workedPlatform)
                numberedTransactionId keepLedger
                1000 "alice" "sub1" (Some "moved") activeBasic s' answer
                transaction E)
      as [A [B [_ [_ [_ [_ [_ F]]]]]]].
    destruct (F 2000 "alice" "" None false) as [_ [_ [_ R]]]. auto.
  - vm_compute in E. discriminate E.
Defined.

Lemma schemaPaths_cancel (reason : option string) (at_ : option Z)
      (d : Subscription.t) :
  schemaPaths
    (Subscription.set_cancellationReason reason
       (Subscription.set_cancelledAt at_ d))
  = schemaPaths d.
Proof. destruct d; reflexivity. Qed.

(** X10. A cancellation that is not immediate persists nothing on the
    subscription: on a store with unique ids that holds the schema's
    paths only, the stored subscriptions are the same before and after,
    and the ledger gains a COMPLETED cancellation entry. The handler
    assigns [cancelledAt] and the reason to the document that it holds,
    and these are not paths of the schema: the answer as it is sent,
    which is the stored subscription, carries neither. The subscription
    stays ACTIVE and can be cancelled again. *)
Theorem deferred_cancel_persists_nothing generateTransactionId (now : Z)
        (userId subscriptionId : string) (reason : option string)
        (s s' : State) (answer : Subscription.t)
        (transaction : Transaction.t) :
  uniqueIds (subscriptions s) ->
  Forall (fun d => schemaPaths d = d) (subscriptions s) ->
  SubscriptionController.cancelSubscription generateTransactionId now userId
    subscriptionId reason false s = (Ok (answer, transaction), s') ->
  subscriptions s' = subscriptions s
  /\ devices s' = devices s
  /\ transactions s' = (transactions s ++ [transaction])%list
  /\ Transaction.type transaction = SUBSCRIPTION_CANCELLED
  /\ Transaction.status transaction = TX_COMPLETED
  /\ Transaction.amount transaction = 0
  /\ find (ownedBy subscriptionId userId ACTIVE) (subscriptions s)
     = Some (schemaPaths answer)
  /\ findById subscriptionId (subscriptions s') = Some (schemaPaths answer)
  /\ Subscription.status (schemaPaths answer) = ACTIVE
  /\ Subscription.cancelledAt (schemaPaths answer) = None
  /\ Subscription.cancellationReason (schemaPaths answer) = None
  /\ answer
     = Subscription.set_cancellationReason reason
         (Subscription.set_cancelledAt (Some now) (schemaPaths answer))
  /\ forall (later : Z) (why : option string) (immediate : bool),
       exists again,
         fst (SubscriptionController.cancelSubscription
                generateTransactionId later userId subscriptionId why
                immediate s')
         = Ok again.
Proof.
  intros Hu Hschema H. apply cancelSubscription_ok in H.
  destruct H as [sub [Hfind [Ea [Et Es]]]].
  destruct (find_some _ _ Hfind) as [Hin Hown].
  destruct (ownedBy_id _ _ _ _ Hown) as [Hid [Husr Hst]].
  assert (Esent : schemaPaths answer = sub).
  { rewrite Ea, schemaPaths_cancel.
    exact (proj1 (Forall_forall _ _) Hschema sub Hin). }
  assert (Esub : subscriptions s' = subscriptions s).
  { rewrite Es. cbn [with_subscriptions subscriptions with_transactions].
    rewrite Esent. now apply replaceById_same. }
  split; [exact Esub |].
  split; [now rewrite Es |]. split; [now rewrite Es |].
  split; [now rewrite Et |]. split; [now rewrite Et |].
  split; [now rewrite Et |].
  split; [now rewrite Esent |].
  split.
  { rewrite Es. cbn [with_subscriptions subscriptions].
    assert (Eid : Subscription._id (schemaPaths answer) = subscriptionId)
      by (rewrite Esent; exact Hid).
    rewrite <- Eid at 1. apply findById_replaceById_same.
    exists sub. split; [exact Hin | congruence]. }
  split; [now rewrite Esent |].
  split; [reflexivity |]. split; [reflexivity |].
  split; [now rewrite Esent |].
  intros later why immediate.
  unfold SubscriptionController.cancelSubscription.
  unfold bind at 1. rewrite findOwned_find, Esub, Hfind.
  run_handler. eexists. reflexivity.
Qed.

Lemma deferred_cancel_persists_nothing_witness :
  match SubscriptionController.cancelSubscription numberedTransactionId 1000
          "alice" "sub1" (Some "too dear") false activeBasic
  with
  | (Ok (answer, _), s') =>
      subscriptions s' = subscriptions activeBasic
      /\ schemaPaths answer = basicSubscription
      /\ Subscription.cancelledAt (schemaPaths answer) = None
  | (Throw _ _, _) => False
  end.
Proof.
  destruct (SubscriptionController.cancelSubscription numberedTransactionId
              1000 "alice" "sub1" (Some "too dear") false activeBasic)
    as [[[answer transaction] | code msg] s'] eqn:E.
  - assert (Hu : uniqueIds (subscriptions activeBasic)).
    { unfold uniqueIds. cbn. repeat constructor. intros []. }
    assert (Hs : Forall (fun d => schemaPaths d = d)
                        (subscriptions activeBasic)).
    { repeat constructor. }
    destruct (deferred_cancel_persists_nothing numberedTransactionId 1000
                "alice" "sub1" (Some "too dear") activeBasic s' answer
                transaction Hu Hs E)
      as [A [_ [_ [_ [_ [_ [B [_ [_ [C _]]]]]]]]]].
    split; [exact A |]. split; [| exact C].
    change (Some basicSubscription = Some (schemaPaths answer)) in B.
    congruence.
  - vm_compute in E. discriminate E.
Defined.

(** X11. A downgrade to any plan name, dearer plans and unknown names
    included, succeeds for the owner of an ACTIVE subscription and changes
    nothing that is stored about the subscription: on a store with unique
    ids that holds the schema's paths only, the store afterwards differs
    by one ledger entry, COMPLETED, of amount 0, for the new plan. The
    answer names the new plan's price and the current end date as the
    date of effect. *)
Theorem downgrade_changes_no_subscription generateTransactionId (now : Z)
        (userId subscriptionId newPlan : string) (s : State)
        (subscription : Subscription.t) :
  uniqueIds (subscriptions s) ->
  Forall (fun d => schemaPaths d = d) (subscriptions s) ->
  find (ownedBy subscriptionId userId ACTIVE) (subscriptions s)
  = Some subscription ->
  exists transaction,
    SelfService.downgradeSubscription generateTransactionId now userId
      subscriptionId newPlan s
    = (Ok (subscription,
           SelfService.mkPendingPlanChange newPlan
             (getSubscriptionPrice newPlan)
             (Subscription.endDate subscription),
           transaction),
       with_transactions (transactions s ++ [transaction]) s)
    /\ Transaction.type transaction = SUBSCRIPTION_DOWNGRADED
    /\ Transaction.status transaction = TX_COMPLETED
    /\ Transaction.amount transaction = 0
    /\ Transaction.plan transaction = newPlan
    /\ Transaction.subscription transaction = subscriptionId.
Proof.
  intros Hu Hschema Hfind.
  destruct (find_some _ _ Hfind) as [Hin _].
  eexists. split.
  - unfold SelfService.downgradeSubscription.
    unfold bind at 1. rewrite findOwned_find, Hfind. run_handler.
    cbn [with_transactions subscriptions].
    rewrite (proj1 (Forall_forall _ _) Hschema subscription Hin).
    rewrite (replaceById_same _ _ Hu Hin).
    reflexivity.
  - repeat split; reflexivity.
Qed.

Lemma downgrade_changes_no_subscription_witness :
  exists transaction,
    SelfService.downgradeSubscription numberedTransactionId 1000 "alice"
      "sub1" "full-suite-premium" activeBasic
    = (Ok (basicSubscription,
           SelfService.mkPendingPlanChange "full-suite-premium" 14999
             (Some (30 * msPerDay)),
           transaction),
       with_transactions (transactions activeBasic ++ [transaction])
                         activeBasic).
Proof.
  destruct (downgrade_changes_no_subscription numberedTransactionId 1000
              "alice" "sub1" "full-suite-premium" activeBasic
              basicSubscription)
    as [transaction [H _]].
  - unfold uniqueIds. cbn. repeat constructor. intros [].
  - repeat constructor.
  - reflexivity.
  - exists transaction. exact H.
Defined.

(** ** What every operation keeps *)

Lemma sameSubscription_refl (x : Subscription.t) : sameSubscription x x.
Proof. unfold sameSubscription. tauto. Qed.

Lemma sameSubscription_trans (x y z : Subscription.t) :
  sameSubscription x y -> sameSubscription y z -> sameSubscription x z.
Proof.
  unfold sameSubscription.
  intros [A1 [A2 [A3 [A4 A5]]]] [B1 [B2 [B3 [B4 B5]]]].
  repeat split; try congruence; auto.
Qed.

Lemma sameSubscription_schemaPaths (x y : Subscription.t) :
  sameSubscription x y -> sameSubscription x (schemaPaths y).
Proof. destruct y. exact (fun H => H). Qed.

Lemma Edits_map (f : Subscription.t -> Subscription.t)
      (docs : list Subscription.t) :
  (forall x, In x docs -> sameSubscription x (f x)) ->
  Edits docs (map f docs).
Proof.
  unfold Edits. induction docs as [| d docs IH]; intros H; cbn [map].
  - constructor.
  - constructor; [apply H; now left |]. apply IH. intros x Hx. apply H.
    now right.
Qed.

Lemma Edits_refl (docs : list Subscription.t) : Edits docs docs.
Proof.
  unfold Edits. induction docs; constructor; auto.
  apply sameSubscription_refl.
Qed.

Lemma Edits_trans (a b c : list Subscription.t) :
  Edits a b -> Edits b c -> Edits a c.
Proof.
  unfold Edits. intros H. revert c.
  induction H as [| x y a b Hxy Hab IH]; intros c Hc; inversion Hc; subst.
  - constructor.
  - constructor; [eapply sameSubscription_trans; eauto | now apply IH].
Qed.

Lemma Edits_keys (before after : list Subscription.t) :
  Edits before after ->
  map subscriptionKey after = map subscriptionKey before.
Proof.
  unfold Edits. induction 1 as [| x y a b [H1 [H2 [H3 _]]] Hab IH];
    cbn [map]; [reflexivity |].
  unfold subscriptionKey at 1 3. now rewrite H1, H2, H3, IH.
Qed.

Lemma Edits_unique (before after : list Subscription.t) :
  Edits before after -> uniqueIds before -> uniqueIds after.
Proof.
  unfold uniqueIds. intros H.
  replace (map Subscription._id after) with (map Subscription._id before);
    [auto |].
  induction H as [| x y a b [H1 _] Hab IH]; cbn [map]; [reflexivity |].
  now rewrite H1, IH.
Qed.

Lemma Edits_replace (d sub : Subscription.t) (docs : list Subscription.t) :
  uniqueIds docs -> In sub docs -> sameSubscription sub d ->
  Edits docs (replaceById d docs).
Proof.
  intros Hu Hin Hs. unfold replaceById. apply Edits_map. intros x Hx.
  destruct (String.eqb (Subscription._id x) (Subscription._id d)) eqn:E.
  - apply String.eqb_eq in E.
    assert (x = sub).
    { apply (uniqueIds_same docs); auto.
      destruct Hs as [Hid _]. congruence. }
    now subst x.
  - apply sameSubscription_refl.
Qed.

Lemma sameSubscription_position (v : option string) (x : Subscription.t) :
  sameSubscription x (Subscription.set_queuePosition v x).
Proof. destruct x. unfold sameSubscription. cbn. tauto. Qed.

Lemma Outcome_unchanged {A : Type} (s : State) (r : Result A) :
  Outcome s (r, s).
Proof. unfold Outcome. cbn [fst snd]. split; auto using Edits_refl. Qed.

Lemma Outcome_ok {A : Type} (s s' : State) (a : A) :
  (uniqueIds (subscriptions s) ->
   Edits (subscriptions s) (subscriptions s')) ->
  Outcome s (Ok a, s').
Proof.
  unfold Outcome. cbn [fst snd]. intros H. split; [exact H |].
  intros code message E. discriminate E.
Qed.

Lemma Outcome_drop {A : Type} (m : M A) (s : State) :
  Outcome s (m s) -> Outcome s ((m ;;; ret tt) s).
Proof.
  unfold Outcome, bind, ret.
  destruct (m s) as [[a | code msg] s']; cbn [fst snd]; intros [H1 H2];
    (split; [exact H1 |]); intros c' m' E; [discriminate E |].
  inversion E; subst. eapply H2; eauto.
Qed.

Ltac same_document :=
  match goal with
  | |- sameSubscription ?x _ =>
      destruct x; unfold sameSubscription, derivedPrice, schemaPaths;
      repeat match goal with
             | |- context [if ?c then _ else _] => destruct c
             end;
      cbn; repeat split; auto; try discriminate
  end.

Ltac saved_outcome Hfind :=
  apply Outcome_ok; intros Hu;
  cbn [snd with_transactions with_subscriptions subscriptions];
  eapply Edits_replace;
  [exact Hu | exact (proj1 (find_some _ _ Hfind)) | same_document].

Section OutcomeOfAdmin.

Import AdminController.

Variable generateTransactionId : list Transaction.t -> string.

Lemma approveSubscription_outcome (now : Z) (adminId id : string)
      (comments : option string) (activateNow : bool) (s : State) :
  Outcome s (approveSubscription generateTransactionId now adminId id
               comments activateNow s).
Proof.
  unfold approveSubscription. run_handler.
  destruct (findById id (subscriptions s)) as [sub |] eqn:Hfind;
    [| apply Outcome_unchanged].
  destruct (Status_eqb (Subscription.status sub) PENDING) eqn:Hst;
    cbn [negb]; [| apply Outcome_unchanged].
  apply Status_eqb_eq in Hst.
  repeat match goal with
         | |- context [isSome ?f] =>
             destruct f; cbn [isSome]; [apply Outcome_unchanged |]
         end.
  rewrite logTransactionUpdate_spec.
  unfold findById in Hfind. saved_outcome Hfind.
Qed.

Lemma rejectSubscription_outcome (now : Z) (adminId id : string)
      (reason comments : option string) (s : State) :
  Outcome s (rejectSubscription generateTransactionId now adminId id
               reason comments s).
Proof.
  unfold rejectSubscription. run_handler.
  destruct (truthy reason); cbn [negb]; [| apply Outcome_unchanged].
  destruct (findById id (subscriptions s)) as [sub |] eqn:Hfind;
    [| apply Outcome_unchanged].
  destruct (Status_eqb (Subscription.status sub) PENDING) eqn:Hst;
    cbn [negb]; [| apply Outcome_unchanged].
  apply Status_eqb_eq in Hst.
  rewrite logTransactionUpdate_spec.
  unfold findById in Hfind. saved_outcome Hfind.
Qed.

Lemma activateSubscription_outcome (now : Z) (adminId id : string)
      (comments : option string) (s : State) :
  Outcome s (activateSubscription generateTransactionId now adminId id
               comments s).
Proof.
  unfold activateSubscription. run_handler.
  destruct (findById id (subscriptions s)) as [sub |] eqn:Hfind;
    [| apply Outcome_unchanged].
  destruct (Status_eqb (Subscription.status sub) APPROVED) eqn:Hst;
    cbn [negb]; [| apply Outcome_unchanged].
  apply Status_eqb_eq in Hst.
  repeat match goal with
         | |- context [isSome ?f] =>
             destruct f; cbn [isSome]; [apply Outcome_unchanged |]
         end.
  rewrite logTransactionUpdate_spec.
  unfold findById in Hfind. saved_outcome Hfind.
Qed.

End OutcomeOfAdmin.

Lemma Edits_then_replace (d sub : Subscription.t)
      (docs0 docs : list Subscription.t) :
  uniqueIds docs0 -> Edits docs0 docs -> In sub docs0 ->
  sameSubscription sub d ->
  Edits docs0 (replaceById d docs).
Proof.
  intros Hu He Hin Hs.
  assert (Hsame : forall x, In x docs0 ->
                    Subscription._id x = Subscription._id sub -> x = sub).
  { intros x Hx E. now apply (uniqueIds_same docs0). }
  clear Hu Hin. unfold Edits, replaceById in *.
  induction He as [| x y a b Hxy Hab IH]; cbn [map]; constructor.
  - destruct (String.eqb (Subscription._id y) (Subscription._id d)) eqn:E;
      [| exact Hxy].
    apply String.eqb_eq in E.
    rewrite (Hsame x (or_introl eq_refl)); [exact Hs |].
    destruct Hxy as [Hid _]. destruct Hs as [Hid' _]. congruence.
  - apply IH. intros z Hz. apply Hsame. now right.
Qed.

Section OutcomeOfQueuePosition.

Import AdminController.

Context {platform : Platform}.
Variable generateTransactionId : list Transaction.t -> string.

Lemma updateQueuePosition_outcome (now : Z) (adminId id : string)
      (newPosition : Position) (s : State) :
  Outcome s (updateQueuePosition generateTransactionId now adminId id
               newPosition s).
Proof.
  rewrite updateQueuePosition_run.
  destruct (invalidPosition newPosition); [apply Outcome_unchanged |].
  destruct (findById id (subscriptions s)) as [sub |];
    [| apply Outcome_unchanged].
  destruct (negb (Status_eqb (Subscription.status sub) PENDING));
    [apply Outcome_unchanged |].
  destruct (samePosition newPosition (Subscription.queuePosition sub));
    apply Outcome_unchanged.
Qed.

End OutcomeOfQueuePosition.

Lemma Outcome_edits {A : Type} (s : State) (out : Result A * State) :
  Outcome s out -> uniqueIds (subscriptions s) ->
  Edits (subscriptions s) (subscriptions (snd out))
  /\ uniqueIds (subscriptions (snd out)).
Proof.
  intros [H _] Hu. split; [auto |]. eapply Edits_unique; eauto.
Qed.

Section OutcomeOfBulk.

Import AdminController.

Context {platform : Platform}.
Variable generateTransactionId : list Transaction.t -> string.

(** A [map] of callbacks that always answer, each on what it read in the
    store [s0] of the request. *)
Lemma mapM_outcome (f : string * Lookup -> M BulkResult) (s0 : State) :
  (forall id t, exists b t',
      f (id, readById id (subscriptions s0)) t = (Ok b, t')
      /\ (uniqueIds (subscriptions s0) ->
          Edits (subscriptions s0) (subscriptions t) ->
          Edits (subscriptions s0) (subscriptions t'))) ->
  forall ids t, exists bs t',
    mapM f (map (fun id => (id, readById id (subscriptions s0))) ids) t
    = (Ok bs, t')
    /\ (uniqueIds (subscriptions s0) ->
        Edits (subscriptions s0) (subscriptions t) ->
        Edits (subscriptions s0) (subscriptions t')).
Proof.
  intros Hf. induction ids as [| a ids IH]; intros t; cbn [map mapM].
  - exists [], t. split; [reflexivity | auto].
  - destruct (Hf a t) as [b [t1 [Ef Ha]]].
    destruct (IH t1) as [bs [t2 [El Hl]]].
    exists (b :: bs), t2. unfold bind, ret. rewrite Ef, El.
    split; [reflexivity | auto].
Qed.

Lemma bulkApproveOne_outcome (now : Z) (adminId : string)
      (data : option BulkData) (s0 : State) (id : string) (t : State) :
  exists b t',
    bulkApproveOne generateTransactionId now adminId data
      (id, readById id (subscriptions s0)) t = (Ok b, t')
    /\ (uniqueIds (subscriptions s0) ->
        Edits (subscriptions s0) (subscriptions t) ->
        Edits (subscriptions s0) (subscriptions t')).
Proof.
  unfold bulkApproveOne, readById. cbn [fst snd].
  destruct (findById id (subscriptions s0)) as [sub |] eqn:Hfind;
    [| destruct (isObjectId id); eexists; exists t; split;
       [reflexivity | auto | reflexivity | auto]].
  destruct (Status_eqb (Subscription.status sub) PENDING);
    [| eexists; exists t; split; [reflexivity | auto]].
  destruct data as [data |];
    [| eexists; exists t; split; [reflexivity | auto]].
  run_handler. rewrite logTransactionUpdate_spec.
  eexists. eexists. split; [reflexivity |].
  intros Hu He.
  cbn [with_transactions with_subscriptions subscriptions].
  unfold findById in Hfind.
  apply (Edits_then_replace _ sub);
    [exact Hu | exact He | exact (proj1 (find_some _ _ Hfind)) |].
  same_document.
Qed.

Lemma bulkRejectOne_outcome (now : Z) (adminId : string)
      (data : BulkData) (s0 : State) (id : string) (t : State) :
  exists b t',
    bulkRejectOne generateTransactionId now adminId data
      (id, readById id (subscriptions s0)) t = (Ok b, t')
    /\ (uniqueIds (subscriptions s0) ->
        Edits (subscriptions s0) (subscriptions t) ->
        Edits (subscriptions s0) (subscriptions t')).
Proof.
  unfold bulkRejectOne, readById. cbn [fst snd].
  destruct (findById id (subscriptions s0)) as [sub |] eqn:Hfind;
    [| destruct (isObjectId id); eexists; exists t; split;
       [reflexivity | auto | reflexivity | auto]].
  destruct (Status_eqb (Subscription.status sub) PENDING);
    [| eexists; exists t; split; [reflexivity | auto]].
  run_handler. rewrite logTransactionUpdate_spec.
  eexists. eexists. split; [reflexivity |].
  intros Hu He.
  cbn [with_transactions with_subscriptions subscriptions].
  unfold findById in Hfind.
  apply (Edits_then_replace _ sub);
    [exact Hu | exact He | exact (proj1 (find_some _ _ Hfind)) |].
  same_document.
Qed.

Lemma bulkUpdateSubscriptions_outcome (now : Z) (adminId : string)
      (subscriptionIds : list string) (action : string)
      (data : option BulkData) (s : State) :
  Outcome s (bulkUpdateSubscriptions generateTransactionId now adminId
               subscriptionIds action data s).
Proof.
  unfold bulkUpdateSubscriptions. run_handler.
  destruct (Nat.eqb (length subscriptionIds) 0);
    [apply Outcome_unchanged |].
  destruct (String.eqb action ""); [apply Outcome_unchanged |].
  destruct (String.eqb action "approve").
  - cbn -[mapM].
    destruct (mapM_outcome _ s (bulkApproveOne_outcome now adminId data s)
                subscriptionIds s) as [bs [s1 [E Ho]]].
    rewrite E. apply Outcome_ok. intros Hu. cbn [snd].
    apply Ho; [exact Hu | apply Edits_refl].
  - destruct (String.eqb action "reject"); [| apply Outcome_unchanged].
    destruct data as [d |].
    + run_handler.
      destruct (truthy (reason d)); cbn [negb]; [| apply Outcome_unchanged].
      cbn -[mapM].
      destruct (mapM_outcome _ s (bulkRejectOne_outcome now adminId d s)
                  subscriptionIds s) as [bs [s1 [E Ho]]].
      rewrite E. apply Outcome_ok. intros Hu. cbn [snd].
      apply Ho; [exact Hu | apply Edits_refl].
    + (* a TypeError: the answer is a 500, and nothing was written *)
      apply Outcome_unchanged.
Qed.

End OutcomeOfBulk.

Section OutcomeOfSelfService.

Context {platform : Platform}.
Variable generateTransactionId : list Transaction.t -> string.
Variable updateStatus :
  Transaction.t -> TransactionStatus -> Z ->
  list Transaction.t -> list Transaction.t.
Variable hotp : string -> Z -> string.
Variable toDataURL : string -> string.
Variable freshDeviceId : list Device.t -> string.
Variable imeiUnique : bool.

Lemma otp_activation_outcome (now : Z)
      (userId subscriptionId imei totpCode : string) (s : State) :
  Outcome s (SubscriptionController.activateSubscription hotp now userId
               subscriptionId imei totpCode s).
Proof.
  rewrite otp_activation_run.
  destruct (String.eqb imei "" || String.eqb subscriptionId ""
            || String.eqb totpCode "")%bool; [apply Outcome_unchanged |].
  destruct (findById subscriptionId (subscriptions s)) as [sub |];
    [| apply Outcome_unchanged].
  destruct (negb (String.eqb (Subscription.user sub) userId));
    [apply Outcome_unchanged |].
  destruct (negb (Status_eqb (Subscription.status sub) QUEUED));
    [apply Outcome_unchanged |].
  destruct (negb (String.eqb (Subscription.imei sub) imei));
    [apply Outcome_unchanged |].
  destruct (SubscriptionController.findDevice userId imei (devices s))
    as [device |]; [| apply Outcome_unchanged].
  destruct (SubscriptionController.totpVerify hotp now
              (Device.totpSecret device) totpCode 2);
    [| apply Outcome_unchanged].
  apply Outcome_ok. intros _. unfold activatedByOtp.
  cbn [subscriptions with_devices with_subscriptions].
  apply Edits_map. intros x _.
  destruct (String.eqb (Subscription._id x) subscriptionId);
    [same_document | apply sameSubscription_refl].
Qed.

Lemma upgradeSubscription_outcome (now : Z)
      (userId subscriptionId newPlan : string) (s : State) :
  Outcome s (SubscriptionController.upgradeSubscription
               generateTransactionId updateStatus now userId subscriptionId
               newPlan s).
Proof.
  destruct (find (ownedBy subscriptionId userId ACTIVE) (subscriptions s))
    as [sub |] eqn:Hfind.
  2:{ unfold SubscriptionController.upgradeSubscription.
      unfold bind at 1. rewrite findOwned_find, Hfind.
      apply Outcome_unchanged. }
  rewrite (upgradeSubscription_run _ _ _ _ _ _ _ _ Hfind).
  destruct (lessOrEqual (getSubscriptionPrice newPlan)
              (Number (Subscription.price sub)));
    [apply Outcome_unchanged |].
  destruct (getSubscriptionPrice newPlan) as [newPrice | name] eqn:P;
    [| apply Outcome_unchanged].
  cbn zeta.
  destruct (Subscription.startDate sub) as [startDate |].
  - apply Outcome_ok. intros Hu.
    cbn [snd with_transactions with_subscriptions subscriptions].
    eapply Edits_replace;
      [exact Hu | exact (proj1 (find_some _ _ Hfind)) |].
    destruct sub. unfold sameSubscription, derivedPrice, schemaPaths.
    cbn. repeat split; auto. intros _. now rewrite P.
  - split; [intros _; apply Edits_refl |].
    cbn [fst]. intros code message E Hcode. inversion E; subst.
    contradiction.
Qed.

Lemma downgradeSubscription_outcome (now : Z)
      (userId subscriptionId newPlan : string) (s : State) :
  Outcome s (SelfService.downgradeSubscription generateTransactionId now
               userId subscriptionId newPlan s).
Proof.
  unfold SelfService.downgradeSubscription.
  unfold bind at 1. rewrite findOwned_find.
  destruct (find (ownedBy subscriptionId userId ACTIVE) (subscriptions s))
    as [sub |] eqn:Hfind; [| apply Outcome_unchanged].
  run_handler. saved_outcome Hfind.
Qed.

Lemma cancelSubscription_outcome (now : Z) (userId subscriptionId : string)
      (reason : option string) (immediate : bool) (s : State) :
  Outcome s (SubscriptionController.cancelSubscription
               generateTransactionId now userId subscriptionId reason
               immediate s).
Proof.
  unfold SubscriptionController.cancelSubscription.
  unfold bind at 1. rewrite findOwned_find.
  destruct (find (ownedBy subscriptionId userId ACTIVE) (subscriptions s))
    as [sub |] eqn:Hfind; [| apply Outcome_unchanged].
  run_handler. saved_outcome Hfind.
Qed.

Lemma renewSubscription_outcome (now : Z) (userId subscriptionId : string)
      (s : State) :
  Outcome s (SubscriptionController.renewSubscription generateTransactionId
               updateStatus now userId subscriptionId s).
Proof.
  unfold SubscriptionController.renewSubscription.
  unfold bind at 1. rewrite findOwned_find.
  destruct (find (ownedBy subscriptionId userId EXPIRED) (subscriptions s))
    as [sub |] eqn:Hfind; [| apply Outcome_unchanged].
  run_handler. saved_outcome Hfind.
Qed.

Lemma checkDeviceIsOnboarded_outcome (userId imei : string) (s : State) :
  Outcome s (SelfService.checkDeviceIsOnboarded userId imei s).
Proof.
  unfold SelfService.checkDeviceIsOnboarded. run_handler.
  destruct (String.eqb imei ""); apply Outcome_unchanged.
Qed.

Lemma setupDeviceOtp_outcome (secret otpauthUrl userId imei deviceName : string)
      (s : State) :
  Outcome s (SelfService.setupDeviceOtp toDataURL freshDeviceId imeiUnique
               secret otpauthUrl userId imei deviceName s).
Proof.
  unfold SelfService.setupDeviceOtp. run_handler.
  destruct (String.eqb imei "" || String.eqb deviceName "")%bool;
    [apply Outcome_unchanged |].
  destruct (SubscriptionController.findDevice userId imei (devices s)).
  - run_handler. apply Outcome_ok. intros _. apply Edits_refl.
  - run_handler.
    destruct (imeiUnique && existsb _ (devices s))%bool;
      [apply Outcome_unchanged |].
    apply Outcome_ok. intros _. apply Edits_refl.
Qed.

End OutcomeOfSelfService.

Lemma reorderLoop_answers (l : list Subscription.t) :
  forall (i : nat) (s : State), fst (reorderLoop i l s) = Ok tt.
Proof.
  induction l as [| d l IH]; intros i s; cbn [reorderLoop]; [reflexivity |].
  run_handler. apply IH.
Qed.

Lemma reorderDeviceQueue_outcome (imei : string) (s : State) :
  Outcome s (reorderDeviceQueue imei s).
Proof.
  unfold reorderDeviceQueue. run_handler.
  fold (sortedQueue imei (subscriptions s)). split.
  - intros Hu.
    rewrite reorderLoop_spec by (apply sorted_unique; exact Hu).
    cbn [snd with_subscriptions subscriptions].
    apply Edits_map. intros x Hx. unfold renumber.
    destruct (indexOf (Subscription._id x)
                      (sortedQueue imei (subscriptions s))) as [k |] eqn:Hk;
      [| apply sameSubscription_refl].
    rewrite (sorted_nth imei _ Hu x k Hx Hk).
    apply sameSubscription_schemaPaths, sameSubscription_position.
  - pose proof (reorderLoop_answers (sortedQueue imei (subscriptions s)) 0 s)
      as Ha.
    destruct (reorderLoop 0 (sortedQueue imei (subscriptions s)) s)
      as [r s1].
    cbn [fst] in Ha. subst r. cbn [fst]. intros code message E.
    discriminate E.
Qed.

Lemma getNextQueuePosition_outcome (imei : string) (s : State) :
  Outcome s (getNextQueuePosition imei s).
Proof.
  unfold getNextQueuePosition. run_handler.
  destruct (lastByQueuePosition _) as [d |]; [| apply Outcome_unchanged].
  destruct (negb (truthy (Subscription.queuePosition d)));
    apply Outcome_unchanged.
Qed.

(** Every operation: document by document the collection keeps keys,
    identities and IMEIs, queues nothing and keeps derived prices; and an
    answer with a code other than 500 has written nothing. *)
Lemma perform_outcome (c : Collaborators) (now : Z) (op : Operation)
      (s : State) :
  Outcome s (perform c now op s).
Proof.
  destruct op; cbn [perform]; apply Outcome_drop.
  - apply approveSubscription_outcome.
  - apply rejectSubscription_outcome.
  - apply activateSubscription_outcome.
  - apply updateQueuePosition_outcome.
  - apply updateQueuePosition_outcome.
  - apply bulkUpdateSubscriptions_outcome.
  - apply otp_activation_outcome.
  - apply upgradeSubscription_outcome.
  - apply downgradeSubscription_outcome.
  - apply cancelSubscription_outcome.
  - apply renewSubscription_outcome.
  - apply checkDeviceIsOnboarded_outcome.
  - apply setupDeviceOtp_outcome.
  - apply getNextQueuePosition_outcome.
  - apply reorderDeviceQueue_outcome.
  - apply Outcome_unchanged.
Qed.

Lemma performAll_edits (c : Collaborators) (ops : list (Z * Operation)) :
  forall s, uniqueIds (subscriptions s) ->
            Edits (subscriptions s) (subscriptions (performAll c ops s)).
Proof.
  unfold performAll. induction ops as [| [now op] ops IH]; intros s Hu;
    cbn [fold_left fst snd]; [apply Edits_refl |].
  destruct (Outcome_edits _ _ (perform_outcome c now op s) Hu) as [E U].
  eapply Edits_trans; [exact E |]. now apply IH.
Qed.

Lemma Edits_forall (P : Subscription.t -> Prop)
      (before after : list Subscription.t) :
  (forall x y, sameSubscription x y -> P x -> P y) ->
  Edits before after -> Forall P before -> Forall P after.
Proof.
  intros HP. unfold Edits. induction 1 as [| x y a b Hxy Hab IH];
    intros HF; [constructor |].
  inversion HF; subst. constructor; eauto.
Qed.

(** X12. An operation that answers with a code other than 500 (400, 403
    or 404) has written nothing: subscriptions, ledger and devices are as
    they were before the request. *)
Theorem client_errors_write_nothing (c : Collaborators) (now : Z)
        (op : Operation) (s s' : State) (code : Z) (message : string) :
  perform c now op s = (Throw code message, s') ->
  code <> 500 ->
  s' = s.
Proof.
  intros E Hcode. destruct (perform_outcome c now op s) as [_ H].
  rewrite E in H. cbn [fst snd] in H. eapply H; eauto.
Qed.

Lemma client_errors_write_nothing_witness :
  snd (perform workedCollaborators 1000
         (AdminReject "admin" "sub1" None (Some "no reason given"))
         pendingWithLedger)
  = pendingWithLedger.
Proof.
  apply (client_errors_write_nothing workedCollaborators 1000
           (AdminReject "admin" "sub1" None (Some "no reason given"))
           pendingWithLedger _ 400 "Rejection reason is required").
  - reflexivity.
  - discriminate.
Defined.

(** X13. No operation creates, deletes, reorders or re-assigns a
    subscription: after any sequence of operations on a store with unique
    ids, the collection holds the same keys with the same identities and
    IMEIs, in the same order, and the ids are still unique. *)
Theorem operations_keep_subscription_keys (c : Collaborators)
        (ops : list (Z * Operation)) (s : State) :
  uniqueIds (subscriptions s) ->
  map subscriptionKey (subscriptions (performAll c ops s))
  = map subscriptionKey (subscriptions s)
  /\ uniqueIds (subscriptions (performAll c ops s)).
Proof.
  intros Hu. pose proof (performAll_edits c ops s Hu) as E. split.
  - now apply Edits_keys.
  - eapply Edits_unique; eauto.
Qed.

(** X14. No operation puts a subscription in the status QUEUED: on a
    store with unique ids where no subscription is QUEUED, none is after
    any sequence of operations, and every activation by one-time code
    fails there and writes nothing, whatever the code. *)
Theorem no_operation_queues (c : Collaborators) (ops : list (Z * Operation))
        (s : State) :
  uniqueIds (subscriptions s) ->
  noneQueued (subscriptions s) ->
  noneQueued (subscriptions (performAll c ops s))
  /\ forall hotp now userId subscriptionId imei totpCode,
       exists code message,
         SubscriptionController.activateSubscription hotp now userId
           subscriptionId imei totpCode (performAll c ops s)
         = (Throw code message, performAll c ops s).
Proof.
  intros Hu Hq.
  assert (Hafter : noneQueued (subscriptions (performAll c ops s))).
  { unfold noneQueued in *.
    apply (Edits_forall _ (subscriptions s)); auto.
    - intros x y [_ [_ [_ [H _]]]] Hx Hy. auto.
    - now apply performAll_edits. }
  split; [exact Hafter |].
  intros hotp now userId subscriptionId imei totpCode.
  rewrite otp_activation_run.
  destruct (String.eqb imei "" || String.eqb subscriptionId ""
            || String.eqb totpCode "")%bool; [eauto |].
  destruct (findById subscriptionId (subscriptions (performAll c ops s)))
    as [sub |] eqn:Hfind; [| eauto].
  destruct (negb (String.eqb (Subscription.user sub) userId)); [eauto |].
  apply find_some in Hfind. destruct Hfind as [Hin _].
  pose proof (proj1 (Forall_forall _ _) Hafter sub Hin) as Hst.
  destruct (Status_eqb (Subscription.status sub) QUEUED) eqn:E.
  - apply Status_eqb_eq in E. contradiction.
  - cbn [negb]. eauto.
Qed.

(** X15. The price of a subscription stays the price of its plan: on a
    store with unique ids where every subscription's price is the price
    of its plan, this is still so after any sequence of operations. *)
Theorem operations_keep_price_derived (c : Collaborators)
        (ops : list (Z * Operation)) (s : State) :
  uniqueIds (subscriptions s) ->
  Forall derivedPrice (subscriptions s) ->
  Forall derivedPrice (subscriptions (performAll c ops s)).
Proof.
  intros Hu Hd.
  apply (Edits_forall _ (subscriptions s)); auto.
  - intros x y [_ [_ [_ [_ H]]]]. exact H.
  - now apply performAll_edits.
Qed.

Lemma pendingWithLedger_unique : uniqueIds (subscriptions pendingWithLedger).
Proof. unfold uniqueIds. cbn. repeat constructor. intros []. Qed.

Lemma operations_keep_subscription_keys_witness :
  map subscriptionKey
      (subscriptions
         (performAll workedCollaborators workedOperations pendingWithLedger))
  = [("sub1", "alice", imeiA)]
  /\ uniqueIds
       (subscriptions
          (performAll workedCollaborators workedOperations pendingWithLedger)).
Proof.
  apply (operations_keep_subscription_keys workedCollaborators
           workedOperations pendingWithLedger).
  exact pendingWithLedger_unique.
Defined.

Lemma no_operation_queues_witness :
  noneQueued
    (subscriptions
       (performAll workedCollaborators workedOperations pendingWithLedger))
  /\ exists code message,
       SubscriptionController.activateSubscription counterCode 5000 "alice"
         "sub1" imeiA "123456"
         (performAll workedCollaborators workedOperations pendingWithLedger)
       = (Throw code message,
          performAll workedCollaborators workedOperations pendingWithLedger).
Proof.
  destruct (no_operation_queues workedCollaborators workedOperations
              pendingWithLedger pendingWithLedger_unique) as [H1 H2].
  - repeat constructor. discriminate.
  - split; [exact H1 |].
    exact (H2 counterCode 5000 "alice" "sub1" imeiA "123456").
Defined.

Lemma operations_keep_price_derived_witness :
  Forall derivedPrice
    (subscriptions
       (performAll workedCollaborators workedOperations pendingWithLedger)).
Proof.
  apply (operations_keep_price_derived workedCollaborators workedOperations
           pendingWithLedger pendingWithLedger_unique).
  repeat constructor.
Defined.

(** ** The admin transitions, one after the other *)

Lemma perform_ok_inv {A : Type} (m : M A) (s s' : State) :
  (m ;;; ret tt) s = (Ok tt, s') -> exists a, m s = (Ok a, s').
Proof.
  unfold bind, ret. destruct (m s) as [[a | code msg] s1]; intros H;
    inversion H; subst. now exists a.
Qed.

(** X16. A review is final: once an approval or a rejection of a
    subscription has succeeded, every further approval, rejection and
    change of queue position of that subscription answers 400 and writes
    nothing. *)
Theorem review_is_final (c : Collaborators) (now : Z) (id : string)
        (first : Operation) (s s' : State) :
  (exists adminId comments activateNow,
      first = AdminApprove adminId id comments activateNow)
  \/ (exists adminId reason comments,
         first = AdminReject adminId id reason comments) ->
  perform c now first s = (Ok tt, s') ->
  forall (later : Z) (adminId : string) (reason comments : option string)
         (activateNow : bool) (newPosition : Z),
    perform c later (AdminApprove adminId id comments activateNow) s'
    = (Throw 400 "Only pending subscriptions can be approved", s')
    /\ (exists message,
           perform c later (AdminReject adminId id reason comments) s'
           = (Throw 400 message, s'))
    /\ (exists message,
           perform c later (AdminUpdateQueuePosition adminId id newPosition) s'
           = (Throw 400 message, s')).
Proof.
  intros Hfirst Hrun.
  assert (Hstored : exists d,
             findById id (subscriptions s') = Some d
             /\ Subscription.status d <> PENDING).
  { destruct Hfirst as [[a [cm [an ->]]] | [a [r [cm ->]]]];
      cbn [perform] in Hrun; apply perform_ok_inv in Hrun;
      destruct Hrun as [answer Hrun].
    - apply approveSubscription_ok in Hrun.
      destruct Hrun as [sub [Hf [_ [_ [_ [Hid [_ [_ [Hst ->]]]]]]]]].
      exists (schemaPaths answer).
      cbn [with_transactions with_subscriptions subscriptions].
      apply find_some in Hf. destruct Hf as [Hin Hf].
      apply String.eqb_eq in Hf. split.
      + replace id with (Subscription._id (schemaPaths answer))
          by (cbn; congruence).
        apply findById_replaceById_same. exists sub. split; [exact Hin |].
        cbn. congruence.
      + cbn. rewrite Hst. destruct an; discriminate.
    - apply rejectSubscription_ok in Hrun.
      destruct Hrun as [sub [Hf [_ [_ [Hid [_ [Hst ->]]]]]]].
      exists (schemaPaths answer).
      cbn [with_transactions with_subscriptions subscriptions].
      apply find_some in Hf. destruct Hf as [Hin Hf].
      apply String.eqb_eq in Hf. split.
      + replace id with (Subscription._id (schemaPaths answer))
          by (cbn; congruence).
        apply findById_replaceById_same. exists sub. split; [exact Hin |].
        cbn. congruence.
      + cbn. rewrite Hst. discriminate. }
  destruct Hstored as [d [Hfind Hst]].
  assert (Hnot : Status_eqb (Subscription.status d) PENDING = false).
  { destruct (Status_eqb (Subscription.status d) PENDING) eqn:E;
      [apply Status_eqb_eq in E; contradiction | reflexivity]. }
  intros later adminId reason comments activateNow newPosition.
  cbn [perform]. split; [| split].
  - unfold AdminController.approveSubscription. run_handler.
    rewrite Hfind, Hnot. reflexivity.
  - unfold AdminController.rejectSubscription. run_handler.
    destruct (truthy reason); cbn [negb]; [| eauto].
    cbn beta iota. rewrite Hfind, Hnot. cbn [negb]. eauto.
  - unfold bind. rewrite updateQueuePosition_run.
    destruct (AdminController.invalidPosition
                (AdminController.PositionNumber newPosition)); [eauto |].
    rewrite Hfind, Hnot. cbn [negb]. eauto.
Qed.

Lemma review_is_final_witness :
  perform workedCollaborators 2000
    (AdminApprove "root" "sub1" None true)
    (snd (perform workedCollaborators 1000
            (AdminReject "admin" "sub1" (Some "unreadable card") None)
            pendingWithLedger))
  = (Throw 400 "Only pending subscriptions can be approved",
     snd (perform workedCollaborators 1000
            (AdminReject "admin" "sub1" (Some "unreadable card") None)
            pendingWithLedger)).
Proof.
  apply (review_is_final workedCollaborators 1000 "sub1"
           (AdminReject "admin" "sub1" (Some "unreadable card") None)
           pendingWithLedger _
           (or_intror (ex_intro _ "admin"
              (ex_intro _ (Some "unreadable card")
                 (ex_intro _ None eq_refl))))
           eq_refl 2000 "root" None None true 1).
Defined.

(** X17. An approval without activation is always followed by a
    successful activation: right after [approveSubscription] has
    succeeded with [activateNow] false, [activateSubscription] of the
    same subscription succeeds, at whatever time and by whichever admin,
    and makes it ACTIVE from that time for the duration of its plan. *)
Theorem approve_then_activate generateTransactionId (now later : Z)
        (adminId activator id : string) (comments comments' : option string)
        (s s1 : State) (approved : Subscription.t) :
  AdminController.approveSubscription generateTransactionId now adminId id
    comments false s = (Ok approved, s1) ->
  exists activated s2,
    AdminController.activateSubscription generateTransactionId later
      activator id comments' s1 = (Ok activated, s2)
    /\ Subscription.status activated = ACTIVE
    /\ Subscription.startDate activated = Some later
    /\ Subscription.endDate activated
       = Some (later
               + getSubscriptionDuration (Subscription.plan approved)
                 * msPerDay)
    /\ findById id (subscriptions s2) = Some (schemaPaths activated).
Proof.
  intros H. apply approveSubscription_ok in H.
  destruct H as [sub [Hf [_ [Fu [Fi [Hid [Hus [Him [Hst Es]]]]]]]]].
  apply find_some in Hf. destruct Hf as [Hin Hf]. apply String.eqb_eq in Hf.
  assert (Eid : Subscription._id (schemaPaths approved) = id)
    by (cbn; congruence).
  assert (Hfind : findById id (subscriptions s1)
                  = Some (schemaPaths approved)).
  { rewrite Es. cbn [with_transactions with_subscriptions subscriptions].
    rewrite <- Eid at 1. apply findById_replaceById_same.
    exists sub. split; [exact Hin | congruence]. }
  assert (Hnone : find (fun d =>
            ((String.eqb (Subscription.user d)
                         (Subscription.user (schemaPaths approved))
              && Status_eqb (Subscription.status d) ACTIVE)
             || (String.eqb (Subscription.imei d)
                            (Subscription.imei (schemaPaths approved))
                 && Status_eqb (Subscription.status d) ACTIVE))
            && negb (String.eqb (Subscription._id d) id))
            (subscriptions s1) = None).
  { apply find_all_false. intros d Hd. rewrite Es in Hd.
    cbn [with_transactions with_subscriptions subscriptions] in Hd.
    unfold replaceById in Hd. apply in_map_iff in Hd.
    destruct Hd as [x [Ex Hx]].
    destruct (String.eqb (Subscription._id x)
                         (Subscription._id (schemaPaths approved))) eqn:E.
    - subst d. rewrite Eid, (String.eqb_refl id). cbn [negb].
      apply andb_false_r.
    - subst d. pose proof (find_none _ _ Fu x Hx) as Pu.
      pose proof (find_none _ _ Fi x Hx) as Pi.
      cbn beta in Pu, Pi.
      replace (Subscription.user (schemaPaths approved))
        with (Subscription.user sub) by (cbn; congruence).
      replace (Subscription.imei (schemaPaths approved))
        with (Subscription.imei sub) by (cbn; congruence).
      destruct (negb (String.eqb (Subscription._id x) id));
        [| apply andb_false_r].
      rewrite andb_true_r in *. now rewrite Pu, Pi. }
  assert (Hap : Subscription.status (schemaPaths approved) = APPROVED)
    by (cbn; exact Hst).
  unfold AdminController.activateSubscription. run_handler.
  rewrite Hfind, Hap. cbn [Status_eqb negb]. rewrite Hnone. cbn [isSome].
  rewrite logTransactionUpdate_spec.
  eexists. eexists. split; [reflexivity |].
  split; [destruct (truthy comments'); reflexivity |].
  split; [destruct (truthy comments'); reflexivity |].
  split; [destruct (truthy comments'); destruct approved; reflexivity |].
  cbn [with_transactions with_subscriptions subscriptions].
  match goal with
  | |- findById id (replaceById ?d _) = _ =>
      replace id with (Subscription._id d)
        by (destruct (truthy comments'); cbn; congruence)
  end.
  apply findById_replaceById_same.
  exists (schemaPaths approved). split.
  - apply find_some in Hfind. tauto.
  - destruct (truthy comments'); cbn; congruence.
Qed.

Lemma approve_then_activate_witness :
  exists activated s2,
    AdminController.activateSubscription numberedTransactionId 2000 "root"
      "sub1" None
      (snd (AdminController.approveSubscription numberedTransactionId 1000
              "admin" "sub1" (Some "ok") false pendingWithLedger))
    = (Ok activated, s2)
    /\ Subscription.status activated = ACTIVE
    /\ Subscription.endDate activated = Some (2000 + 30 * msPerDay).
Proof.
  destruct (AdminController.approveSubscription numberedTransactionId 1000
              "admin" "sub1" (Some "ok") false pendingWithLedger)
    as [[approved | code msg] s1] eqn:E.
  - destruct (approve_then_activate numberedTransactionId 1000 2000 "admin"
                "root" "sub1" (Some "ok") None pendingWithLedger s1 approved
                E)
      as [activated [s2 [H1 [H2 [_ [H4 _]]]]]].
    exists activated, s2. cbn [snd]. split; [exact H1 |].
    split; [exact H2 |].
    rewrite H4. vm_compute in E. inversion E; subst. reflexivity.
  - vm_compute in E. discriminate E.
Defined.

(** X18. When [hasActiveSubscription(imei)] answers true for the IMEI of
    a subscription, every approval of that subscription is refused with
    400, with or without immediate activation, and writes nothing. *)
Theorem approve_refused_when_device_active generateTransactionId (now : Z)
        (adminId id : string) (comments : option string) (activateNow : bool)
        (s : State) (sub : Subscription.t) :
  uniqueIds (subscriptions s) ->
  findById id (subscriptions s) = Some sub ->
  hasActiveSubscription (Subscription.imei sub) s = (Ok true, s) ->
  exists message,
    AdminController.approveSubscription generateTransactionId now adminId id
      comments activateNow s = (Throw 400 message, s).
Proof.
  intros Hu Hfind Hactive.
  unfold hasActiveSubscription, gets in Hactive.
  inversion Hactive as [Hlen]. clear Hactive.
  apply negb_true_iff, Nat.eqb_neq in Hlen.
  destruct (filter (fun d => String.eqb (Subscription.imei d)
                                        (Subscription.imei sub)
                             && Status_eqb (Subscription.status d) ACTIVE)
                   (subscriptions s)) as [| d rest] eqn:Hf;
    [cbn in Hlen; contradiction |].
  assert (Hd : In d (filter (fun d => String.eqb (Subscription.imei d)
                                        (Subscription.imei sub)
                             && Status_eqb (Subscription.status d) ACTIVE)
                   (subscriptions s))) by (rewrite Hf; now left).
  apply filter_In in Hd. destruct Hd as [Hin Hd].
  apply andb_true_iff in Hd. destruct Hd as [Him Hst].
  unfold AdminController.approveSubscription. run_handler. rewrite Hfind.
  destruct (Status_eqb (Subscription.status sub) PENDING) eqn:Hp;
    cbn [negb]; [| eauto].
  apply Status_eqb_eq in Hp.
  match goal with
  | |- context [isSome ?f] => destruct f; cbn [isSome]; [eauto |]
  end.
  match goal with
  | |- context [isSome ?f] => destruct f eqn:Fi; cbn [isSome]; [eauto |]
  end.
  exfalso. pose proof (find_none _ _ Fi d Hin) as Hnone.
  cbn beta in Hnone. rewrite Him, Hst in Hnone. cbn [andb] in Hnone.
  apply negb_false_iff, String.eqb_eq in Hnone.
  apply find_some in Hfind. destruct Hfind as [Hsub Hid].
  apply String.eqb_eq in Hid.
  assert (d = sub) by (apply (uniqueIds_same (subscriptions s)); congruence).
  subst d. apply Status_eqb_eq in Hst. congruence.
Qed.

Lemma approve_refused_when_device_active_witness :
  exists message,
    AdminController.approveSubscription numberedTransactionId 1000 "admin"
      "sub2" None true activeAndPending
    = (Throw 400 message, activeAndPending).
Proof.
  apply (approve_refused_when_device_active numberedTransactionId 1000
           "admin" "sub2" None true activeAndPending
           (subscriptionOf "sub2" "bob" imeiA (Some "1") PENDING 2)).
  - unfold uniqueIds. cbn. repeat constructor; cbn; intuition discriminate.
  - reflexivity.
  - reflexivity.
Defined.

(** ** Bulk operations: counts, and what they do not check *)

Lemma mapM_ids {A : Type} (key : A -> string)
      (f : A -> M AdminController.BulkResult) :
  (forall a s, exists b s',
      f a s = (Ok b, s') /\ AdminController.br_id b = key a) ->
  forall l s, exists bs s',
    AdminController.mapM f l s = (Ok bs, s')
    /\ map AdminController.br_id bs = map key l.
Proof.
  intros Hf. induction l as [| a l IH]; intros s; cbn [AdminController.mapM].
  - exists [], s. split; reflexivity.
  - destruct (Hf a s) as [b [s1 [Ef Eb]]].
    destruct (IH s1) as [bs [s2 [El Ebs]]].
    exists (b :: bs), s2. unfold bind, ret. rewrite Ef, El.
    cbn [map]. now rewrite Eb, Ebs.
Qed.

Lemma bulkApproveOne_answers {platform : Platform} generateTransactionId
      (now : Z) (adminId : string) (data : option AdminController.BulkData)
      (read : string * AdminController.Lookup) (s : State) :
  exists b s',
    AdminController.bulkApproveOne generateTransactionId now adminId data
      read s = (Ok b, s')
    /\ AdminController.br_id b = fst read.
Proof.
  unfold AdminController.bulkApproveOne.
  destruct (snd read) as [sub | |];
    [| eexists; eexists; split; reflexivity ..].
  destruct (Status_eqb (Subscription.status sub) PENDING);
    [| eexists; eexists; split; reflexivity].
  destruct data as [d |]; [| eexists; eexists; split; reflexivity].
  run_handler. rewrite logTransactionUpdate_spec.
  eexists. eexists. split; reflexivity.
Qed.

Lemma bulkRejectOne_answers {platform : Platform} generateTransactionId
      (now : Z) (adminId : string) (data : AdminController.BulkData)
      (read : string * AdminController.Lookup) (s : State) :
  exists b s',
    AdminController.bulkRejectOne generateTransactionId now adminId data
      read s = (Ok b, s')
    /\ AdminController.br_id b = fst read.
Proof.
  unfold AdminController.bulkRejectOne.
  destruct (snd read) as [sub | |];
    [| eexists; eexists; split; reflexivity ..].
  destruct (Status_eqb (Subscription.status sub) PENDING);
    [| eexists; eexists; split; reflexivity].
  run_handler. rewrite logTransactionUpdate_spec.
  eexists. eexists. split; reflexivity.
Qed.

Lemma count_results (rs : list AdminController.BulkResult) :
  (AdminController.countSuccess rs + AdminController.countFailed rs
   = length rs)%nat.
Proof.
  unfold AdminController.countSuccess, AdminController.countFailed.
  induction rs as [| r rs IH]; cbn [filter length]; [reflexivity |].
  destruct (AdminController.br_success r); cbn [negb length]; lia.
Qed.

Section BulkCounts.

Context {platform : Platform}.

(** X19. A bulk request that is answered holds a non-empty list of ids
    and the action [approve] or [reject]; its answer has one entry per id
    of the request, in the order of the request, repeated ids included,
    and the numbers of successes and failures add up to the number
    processed, which is the number of ids. *)
Theorem bulk_counts generateTransactionId (now : Z) (adminId : string)
        (ids : list string) (action : string)
        (data : option AdminController.BulkData) (s s' : State)
        (response : AdminController.BulkResponse) :
  AdminController.bulkUpdateSubscriptions generateTransactionId now adminId
    ids action data s = (Ok response, s') ->
  ids <> []
  /\ (action = "approve" \/ action = "reject")
  /\ map AdminController.br_id (AdminController.results response) = ids
  /\ AdminController.processed response = length ids
  /\ (AdminController.successful response + AdminController.failed response
      = AdminController.processed response)%nat.
Proof.
  unfold AdminController.bulkUpdateSubscriptions. run_handler.
  destruct (Nat.eqb (length ids) 0) eqn:Hlen; [discriminate |].
  destruct (String.eqb action ""); [discriminate |].
  assert (Hne : ids <> []) by (intros ->; discriminate Hlen).
  assert (Hfinish : forall f,
    (forall a s, exists b s', f a s = (Ok b, s')
                              /\ AdminController.br_id b = fst a) ->
    (let (r, s'0) :=
       AdminController.mapM f
         (map (fun id => (id, AdminController.readById id (subscriptions s)))
              ids) s in
     match r with
     | Ok a =>
         (Ok (AdminController.mkBulkResponse a (length ids)
                (AdminController.countSuccess a)
                (AdminController.countFailed a)), s'0)
     | Throw code msg => (Throw code msg, s'0)
     end) = (Ok response, s') ->
    map AdminController.br_id (AdminController.results response) = ids
    /\ AdminController.processed response = length ids
    /\ (AdminController.successful response
        + AdminController.failed response
        = AdminController.processed response)%nat).
  { intros f Hf H.
    destruct (mapM_ids fst f Hf
                (map (fun id =>
                        (id, AdminController.readById id (subscriptions s)))
                     ids) s) as [bs [s2 [El Ebs]]].
    rewrite map_map in Ebs. cbn [fst] in Ebs. rewrite map_id in Ebs.
    rewrite El in H. injection H as Hr Hs. rewrite <- Hr.
    cbn [AdminController.results AdminController.processed
         AdminController.successful AdminController.failed].
    split; [exact Ebs |]. split; [reflexivity |].
    rewrite count_results, <- Ebs. symmetry. apply length_map. }
  destruct (String.eqb action "approve") eqn:Ea.
  - intros H. apply String.eqb_eq in Ea. split; [exact Hne |].
    split; [now left |]. apply (Hfinish _ ) in H; [exact H |].
    apply bulkApproveOne_answers.
  - destruct (String.eqb action "reject") eqn:Er; [| discriminate].
    apply String.eqb_eq in Er.
    destruct data as [d |]; [| discriminate]. run_handler.
    destruct (truthy (AdminController.reason d)); cbn [negb];
      [| discriminate].
    intros H. split; [exact Hne |]. split; [now right |].
    apply (Hfinish _) in H; [exact H |].
    apply bulkRejectOne_answers.
Qed.

End BulkCounts.

Section BulkCountsWorked.

#[local] Existing Instance workedPlatform.

Lemma bulk_counts_witness :
  match AdminController.bulkUpdateSubscriptions numberedTransactionId 1000
          "admin" ["id1"; "id2"; "id1"] "approve"
          (Some (AdminController.mkBulkData false None None)) secondCancelled
  with
  | (Ok response, _) =>
      map AdminController.br_id (AdminController.results response)
      = ["id1"; "id2"; "id1"]
      /\ (AdminController.successful response
          + AdminController.failed response = 3)%nat
  | (Throw _ _, _) => False
  end.
Proof.
  destruct (AdminController.bulkUpdateSubscriptions numberedTransactionId
              1000 "admin" ["id1"; "id2"; "id1"] "approve"
              (Some (AdminController.mkBulkData false None None))
              secondCancelled)
    as [[response | code msg] s'] eqn:E.
  - destruct (bulk_counts numberedTransactionId 1000 "admin"
                ["id1"; "id2"; "id1"] "approve"
                (Some (AdminController.mkBulkData false None None))
                secondCancelled s' response E)
      as [_ [_ [H1 [H2 H3]]]].
    split; [exact H1 |]. rewrite H3, H2. reflexivity.
  - vm_compute in E. discriminate E.
Defined.

End BulkCountsWorked.

Lemma bulk_counts_sum {platform : Platform} generateTransactionId
      (now : Z) (adminId : string) (ids : list string) (action : string)
      (data : option AdminController.BulkData) (s s' : State)
      (response : AdminController.BulkResponse) :
  AdminController.bulkUpdateSubscriptions generateTransactionId now adminId
    ids action data s = (Ok response, s') ->
  AdminController.successful response
  = AdminController.countSuccess (AdminController.results response).
Proof.
  unfold AdminController.bulkUpdateSubscriptions. run_handler.
  destruct (Nat.eqb (length ids) 0); [discriminate |].
  destruct (String.eqb action ""); [discriminate |].
  cbn beta iota.
  match goal with
  | |- (let (_, _) := ?m in _) = _ -> _ => destruct m as [[bs | c m'] s1]
  end; [| discriminate].
  intros H. inversion H. reflexivity.
Qed.

Lemma two_in_filter {A : Type} (p : A -> bool) (l : list A) (x y : A) :
  In x l -> In y l -> x <> y -> p x = true -> p y = true ->
  (2 <= length (filter p l))%nat.
Proof.
  intros Hx Hy Hne Px Py.
  change 2%nat with (length [x; y]).
  apply NoDup_incl_length.
  - constructor; [intros [E | []]; congruence |].
    constructor; [intros [] | constructor].
  - intros z [<- | [<- | []]]; apply filter_In; auto.
Qed.

Section BulkSkipsChecks.

Context {platform : Platform}.

(** X20. The bulk approval does not look for another ACTIVE
    subscription: asked to approve, with immediate activation, two
    PENDING subscriptions of one identity, it activates both, and the
    identity is left with more than one ACTIVE subscription. *)
Theorem bulk_approve_skips_conflict_checks generateTransactionId (now : Z)
        (adminId id1 id2 : string) (data : AdminController.BulkData)
        (s : State) (a b : Subscription.t) :
  id1 <> id2 ->
  findById id1 (subscriptions s) = Some a ->
  findById id2 (subscriptions s) = Some b ->
  Subscription.status a = PENDING ->
  Subscription.status b = PENDING ->
  Subscription.user a = Subscription.user b ->
  AdminController.activateNow data = true ->
  exists response s',
    AdminController.bulkUpdateSubscriptions generateTransactionId now adminId
      [id1; id2] "approve" (Some data) s = (Ok response, s')
    /\ AdminController.successful response = 2%nat
    /\ option_map Subscription.status (findById id1 (subscriptions s'))
       = Some ACTIVE
    /\ option_map Subscription.status (findById id2 (subscriptions s'))
       = Some ACTIVE
    /\ ~ atMostOneActive (subscriptions s').
Proof.
  intros Hne Ha Hb Sa Sb Hu Hnow.
  destruct (bulkUpdateSubscriptions_per_id generateTransactionId now adminId
              [id1; id2] (Some data) s)
    as [[response [s' [Hrun [Hres [_ [Hin _]]]]]] _];
    [discriminate |].
  pose proof (Hin id1 (or_introl eq_refl)) as E1.
  pose proof (Hin id2 (or_intror (or_introl eq_refl))) as E2.
  rewrite Ha in E1. rewrite Hb in E2. unfold approveEffect in E1, E2.
  rewrite Sa in E1. rewrite Sb in E2. cbn [Status_eqb] in E1, E2.
  assert (Pa : forall x, Subscription.status
                 (schemaPaths (bulkApproved now adminId data x)) = ACTIVE).
  { intros x. unfold bulkApproved. rewrite Hnow. destruct x; reflexivity. }
  assert (Ua : forall x, Subscription.user
                 (schemaPaths (bulkApproved now adminId data x))
               = Subscription.user x).
  { intros x. unfold bulkApproved. rewrite Hnow. destruct x; reflexivity. }
  assert (Ia : forall x, Subscription._id
                 (schemaPaths (bulkApproved now adminId data x))
               = Subscription._id x).
  { intros x. unfold bulkApproved. rewrite Hnow. destruct x; reflexivity. }
  exists response, s'. split; [| split; [| split; [| split]]].
  - exact Hrun.
  - pose proof (bulk_counts_sum _ _ _ _ _ _ _ _ _ Hrun) as Hsum.
    rewrite Hsum, Hres. cbn [map]. unfold AdminController.readById.
    rewrite Ha, Hb. unfold approveOutcome. rewrite Sa, Sb. reflexivity.
  - rewrite E1. cbn [option_map]. now rewrite Pa.
  - rewrite E2. cbn [option_map]. now rewrite Pa.
  - intros [Huser _].
    specialize (Huser (Subscription.user a)). unfold activeFor in Huser.
    apply find_some in E1, E2, Ha, Hb.
    destruct E1 as [In1 _], E2 as [In2 _], Ha as [_ Ia1], Hb as [_ Ib1].
    apply String.eqb_eq in Ia1, Ib1.
    pose proof (two_in_filter
                  (fun d => String.eqb (Subscription.user d)
                                       (Subscription.user a)
                            && Status_eqb (Subscription.status d) ACTIVE)
                  (subscriptions s') _ _ In1 In2) as H2.
    assert ((2 <= length (filter (fun d =>
               String.eqb (Subscription.user d) (Subscription.user a)
               && Status_eqb (Subscription.status d) ACTIVE)
               (subscriptions s')))%nat); [| lia].
    apply H2.
    + intros E. apply (f_equal Subscription._id) in E.
      rewrite !Ia in E. congruence.
    + rewrite Ua, Pa, String.eqb_refl. reflexivity.
    + rewrite Ua, Pa, <- Hu, String.eqb_refl. reflexivity.
Qed.

End BulkSkipsChecks.

Section BulkSkipsChecksWorked.

#[local] Existing Instance workedPlatform.

Lemma bulk_approve_skips_conflict_checks_witness :
  ~ atMostOneActive
      (subscriptions
         (snd (AdminController.bulkUpdateSubscriptions numberedTransactionId
                 1000 "admin" ["sub1"; "sub2"] "approve"
                 (Some (AdminController.mkBulkData true None None))
                 (mkState tenPending [] [])))).
Proof.
  destruct (bulk_approve_skips_conflict_checks numberedTransactionId 1000
              "admin" "sub1" "sub2"
              (AdminController.mkBulkData true None None)
              (mkState tenPending [] [])
              (subscriptionOf "sub1" "alice" imeiA (Some "1") PENDING 1)
              (subscriptionOf "sub2" "alice" imeiA (Some "2") PENDING 2))
    as [response [s' [E [_ [_ [_ H]]]]]];
    try reflexivity; try discriminate.
  rewrite E. exact H.
Defined.

End BulkSkipsChecksWorked.

(** ** The ledger under [logTransactionUpdate] *)

Lemma transaction_ids_same (txs : list Transaction.t) (x y : Transaction.t) :
  NoDup (map Transaction._id txs) -> In x txs -> In y txs ->
  Transaction._id x = Transaction._id y -> x = y.
Proof.
  induction txs as [| d txs IH]; cbn [map In]; intros Hn Hx Hy E;
    [contradiction |].
  inversion Hn as [| ? ? Hnot Hn']; subst.
  destruct Hx as [-> | Hx], Hy as [-> | Hy]; auto.
  - exfalso. apply Hnot. rewrite E. now apply in_map.
  - exfalso. apply Hnot. rewrite <- E. now apply in_map.
Qed.

Lemma freshTransactionId_new (txs : list Transaction.t) :
  ~ In (AdminController.freshTransactionId txs) (map Transaction._id txs).
Proof.
  intros H. apply in_map_iff in H. destruct H as [t [E Ht]].
  apply freshTransactionId_above in Ht. lia.
Qed.

(** X21. The ledger is append-only under [logTransactionUpdate]. On a
    ledger with unique ids that holds a latest entry of the subscription,
    exactly one entry is appended and answered: it has a new id, the
    subscription, type, status and admin of the call, the identity,
    device, amount and plan of that latest entry, and points back to it;
    every entry of the ledger stays in its place, the latest entry of
    the subscription with the id of the appended entry pushed on its
    [relatedTransactions] and every other entry as it was; the appended
    entry is from then on the latest entry of the subscription, so that
    successive logs form a chain. Without an entry of the subscription
    the answer is null and the ledger is as it was. The ids stay unique,
    and subscriptions and devices are not touched. *)
Theorem logTransactionUpdate_append_only generateTransactionId (now : Z)
        (id : string) (type : TransactionType) (status : TransactionStatus)
        (adminId : string) (additionalData : AdminController.AdditionalData)
        (s : State) :
  NoDup (map Transaction._id (transactions s)) ->
  let logged :=
    AdminController.logTransactionUpdate generateTransactionId now id type
      status adminId additionalData s in
  subscriptions (snd logged) = subscriptions s
  /\ devices (snd logged) = devices s
  /\ NoDup (map Transaction._id (transactions (snd logged)))
  /\ match AdminController.latestTransaction id (transactions s) with
     | Some prior =>
         exists kept entry,
           fst logged = Ok (Some entry)
           /\ transactions (snd logged) = (kept ++ [entry])%list
           /\ Forall2
                (fun old new =>
                   (old = prior
                    /\ new = Transaction.set_relatedTransactions
                               (Transaction.relatedTransactions prior
                                ++ [Transaction._id entry]) prior)
                   \/ (old <> prior /\ new = old))
                (transactions s) kept
           /\ In prior (transactions s)
           /\ ~ In (Transaction._id entry)
                   (map Transaction._id (transactions s))
           /\ Transaction.subscription entry = id
           /\ Transaction.type entry = type
           /\ Transaction.status entry = status
           /\ Transaction.processedBy entry = Some adminId
           /\ Transaction.processedAt entry = Some now
           /\ Transaction.previousTransaction entry
              = Some (Transaction._id prior)
           /\ Transaction.relatedTransactions entry = []
           /\ Transaction.user entry = Transaction.user prior
           /\ Transaction.device entry = Transaction.device prior
           /\ Transaction.amount entry = Transaction.amount prior
           /\ Transaction.plan entry = Transaction.plan prior
           /\ Transaction.transactionId entry
              = generateTransactionId (transactions s)
           /\ AdminController.latestTransaction id
                (transactions (snd logged))
              = Some entry
     | None =>
         fst logged = Ok None
         /\ transactions (snd logged) = transactions s
     end.
Proof.
  intros Hn logged. unfold logged. rewrite logTransactionUpdate_spec.
  cbn [fst snd with_transactions transactions subscriptions devices].
  split; [reflexivity |]. split; [reflexivity |].
  unfold ledgerAfterLog.
  destruct (AdminController.latestTransaction id (transactions s))
    as [prior |] eqn:L; [| split; [exact Hn | split; reflexivity]].
  destruct (latestTransaction_in _ _ _ L) as [Hin Hsub].
  pose proof (freshTransactionId_above _ _ Hin) as Hfresh.
  cbn [option_map].
  set (entry := loggedEntry generateTransactionId now id type status
                  adminId additionalData (transactions s) prior).
  set (prior' := Transaction.set_relatedTransactions
                   (Transaction.relatedTransactions prior
                    ++ [Transaction._id entry]) prior).
  assert (Hentry : AdminController.saveTransaction prior'
                     (transactions s ++ [entry])
                   = (AdminController.saveTransaction prior' (transactions s)
                      ++ [entry])%list).
  { unfold AdminController.saveTransaction. rewrite map_app. cbn [map].
    replace (Nat.eqb (Transaction._id entry) (Transaction._id prior'))
      with false; [reflexivity |].
    symmetry. apply Nat.eqb_neq. cbn. fold (Transaction._id prior). lia. }
  assert (Hids : map Transaction._id
                   (AdminController.saveTransaction prior' (transactions s))
                 = map Transaction._id (transactions s)).
  { unfold AdminController.saveTransaction. rewrite map_map.
    apply map_ext. intros x.
    destruct (Nat.eqb (Transaction._id x) (Transaction._id prior')) eqn:E;
      [| reflexivity].
    apply Nat.eqb_eq in E. now rewrite E. }
  split.
  { rewrite Hentry, map_app, Hids. cbn [map].
    apply NoDup_app; [exact Hn | repeat constructor; intros [] |].
    intros x Hx [<- | []]. exact (freshTransactionId_new _ Hx). }
  exists (AdminController.saveTransaction prior' (transactions s)), entry.
  split; [reflexivity |]. split; [exact Hentry |].
  split; [| split; [exact Hin | split; [apply freshTransactionId_new |]]].
  - unfold AdminController.saveTransaction.
    assert (Hall : forall x, In x (transactions s) ->
               (x = prior
                /\ (if Nat.eqb (Transaction._id x) (Transaction._id prior')
                    then prior' else x) = prior')
               \/ (x <> prior
                   /\ (if Nat.eqb (Transaction._id x)
                                  (Transaction._id prior')
                       then prior' else x) = x)).
    { intros x Hx.
      destruct (Nat.eqb (Transaction._id x) (Transaction._id prior')) eqn:E.
      - apply Nat.eqb_eq in E. left. split; [| reflexivity].
        apply (transaction_ids_same (transactions s)); auto.
      - right. split; [| reflexivity]. intros ->.
        apply Nat.eqb_neq in E. apply E. reflexivity. }
    revert Hall. generalize (transactions s) as txs.
    induction txs as [| x txs IH]; intros Hall; cbn [map]; constructor.
    + apply Hall. now left.
    + apply IH. intros y Hy. apply Hall. now right.
  - repeat split; try reflexivity.
    rewrite Hentry. unfold AdminController.latestTransaction.
    rewrite rev_unit. cbn [find].
    replace (Transaction.subscription entry) with id by reflexivity.
    now rewrite String.eqb_refl.
Qed.

Lemma logTransactionUpdate_append_only_witness :
  exists kept entry,
    transactions
      (snd (AdminController.logTransactionUpdate numberedTransactionId 1000
              "sub1" SUBSCRIPTION_APPROVED TX_PENDING "admin"
              (AdminController.mkAdditional None None) pendingWithLedger))
    = (kept ++ [entry])%list
    /\ Transaction.previousTransaction entry = Some 1%nat
    /\ Transaction.transactionId entry = "TXN-1".
Proof.
  pose proof (logTransactionUpdate_append_only numberedTransactionId 1000
                "sub1" SUBSCRIPTION_APPROVED TX_PENDING "admin"
                (AdminController.mkAdditional None None) pendingWithLedger)
    as W.
  cbv zeta in W.
  destruct W as [_ [_ [_ Hl]]].
  - cbn. repeat constructor. intros [].
  - change (AdminController.latestTransaction "sub1"
              (transactions pendingWithLedger))
      with (Some (Transaction.mk 1 "alice" "sub1" (Some "dev1") "TXN-0"
                    SUBSCRIPTION_CREATED 2999 "mobile-v4-basic" TX_PENDING
                    None None None [] "" None None)) in Hl.
    destruct Hl
      as (kept & entry & _ & Et & _ & _ & _ & _ & _ & _ & _ & _ & Hp
          & _ & _ & _ & _ & _ & Hi & _).
    exists kept, entry. split; [exact Et |]. split; [exact Hp |].
    rewrite Hi. reflexivity.
Defined.

(** ** Device setup and the activation by one-time code *)

Lemma otp_activation_ok_inv (hotp : string -> Z -> string) (now : Z)
      (userId subscriptionId imei totpCode : string) (s s' : State)
      (answer : SubscriptionController.Activation) :
  SubscriptionController.activateSubscription hotp now userId subscriptionId
    imei totpCode s = (Ok answer, s') ->
  exists sub device,
    findById subscriptionId (subscriptions s) = Some sub
    /\ SubscriptionController.findDevice userId imei (devices s) = Some device
    /\ s' = activatedByOtp now subscriptionId (Device._id device) s.
Proof.
  rewrite otp_activation_run.
  destruct (String.eqb imei "" || String.eqb subscriptionId ""
            || String.eqb totpCode "")%bool; [discriminate |].
  destruct (findById subscriptionId (subscriptions s)) as [sub |];
    [| discriminate].
  destruct (negb (String.eqb (Subscription.user sub) userId));
    [discriminate |].
  destruct (negb (Status_eqb (Subscription.status sub) QUEUED));
    [discriminate |].
  destruct (negb (String.eqb (Subscription.imei sub) imei));
    [discriminate |].
  destruct (SubscriptionController.findDevice userId imei (devices s))
    as [device |]; [| discriminate].
  destruct (SubscriptionController.totpVerify hotp now
              (Device.totpSecret device) totpCode 2); [| discriminate].
  intros H. inversion H; subst. exists sub, device. auto.
Qed.

(** X22. An activation by one-time code cannot be replayed: once it has
    succeeded, every further activation by one-time code of the same
    subscription, with the same or any other code, IMEI or caller,
    fails and writes nothing. *)
Theorem otp_activation_not_replayable (hotp : string -> Z -> string)
        (now : Z) (userId subscriptionId imei totpCode : string)
        (s s' : State) (answer : SubscriptionController.Activation) :
  SubscriptionController.activateSubscription hotp now userId subscriptionId
    imei totpCode s = (Ok answer, s') ->
  forall (hotp' : string -> Z -> string) (later : Z)
         (anyone imei' totpCode' : string),
    exists code message,
      SubscriptionController.activateSubscription hotp' later anyone
        subscriptionId imei' totpCode' s' = (Throw code message, s').
Proof.
  intros H. apply otp_activation_ok_inv in H.
  destruct H as [sub [device [Hfind [_ ->]]]].
  intros hotp' later anyone imei' totpCode'.
  rewrite otp_activation_run.
  rewrite activatedByOtp_subscription, Hfind. cbn [option_map].
  destruct (String.eqb imei' "" || String.eqb subscriptionId ""
            || String.eqb totpCode' "")%bool; [eauto |].
  match goal with
  | |- context [negb (String.eqb ?u anyone)] =>
      destruct (negb (String.eqb u anyone)); [eauto |]
  end.
  destruct sub; cbn. eauto.
Qed.

Lemma otp_activation_not_replayable_witness :
  exists code message,
    SubscriptionController.activateSubscription counterCode 61000 "alice"
      "sub1" imeiA (counterCode "JBSWY3DPEHPK3PXP" 2)
      (snd (SubscriptionController.activateSubscription counterCode 60000
              "alice" "sub1" imeiA (counterCode "JBSWY3DPEHPK3PXP" 2)
              queuedPremium))
    = (Throw code message,
       snd (SubscriptionController.activateSubscription counterCode 60000
              "alice" "sub1" imeiA (counterCode "JBSWY3DPEHPK3PXP" 2)
              queuedPremium)).
Proof.
  apply (otp_activation_not_replayable counterCode 60000 "alice" "sub1"
           imeiA (counterCode "JBSWY3DPEHPK3PXP" 2) queuedPremium _
           (SubscriptionController.mkActivation 30 None)).
  vm_compute. reflexivity.
Defined.

Lemma find_updateFirst (p : Device.t -> bool) (f : Device.t -> Device.t)
      (l : list Device.t) (d : Device.t) :
  find p l = Some d -> p (f d) = true ->
  find p (SelfService.updateFirst p f l) = Some (f d).
Proof.
  induction l as [| x l IH]; cbn [find SelfService.updateFirst];
    intros H Hp; [discriminate |].
  destruct (p x) eqn:E.
  - inversion H; subst. simpl. now rewrite Hp.
  - simpl. rewrite E. now apply IH.
Qed.

Lemma find_app_new {A : Type} (p : A -> bool) (l : list A) (x : A) :
  find p l = None -> p x = true -> find p (l ++ [x]) = Some x.
Proof.
  induction l as [| a l IH]; simpl; intros H Hp.
  - now rewrite Hp.
  - destruct (p a); [discriminate | now apply IH].
Qed.

Section DeviceSetup.

Variable toDataURL : string -> string.
Variable freshDeviceId : list Device.t -> string.
Variable imeiUnique : bool.

(** What a successful [setupDeviceOtp] has written. *)
Lemma setupDeviceOtp_ok (secret otpauthUrl userId imei deviceName : string)
      (s s1 : State) (answer : string * string) :
  SelfService.setupDeviceOtp toDataURL freshDeviceId imeiUnique secret
    otpauthUrl userId imei deviceName s = (Ok answer, s1) ->
  answer = (toDataURL otpauthUrl, secret)
  /\ imei <> ""
  /\ subscriptions s1 = subscriptions s
  /\ transactions s1 = transactions s
  /\ exists device,
       SubscriptionController.findDevice userId imei (devices s1)
       = Some device
       /\ Device.totpSecret device = secret
       /\ Device.deviceName device = deviceName
       /\ Device.isOnboarded device = false.
Proof.
  unfold SelfService.setupDeviceOtp. run_handler.
  destruct (String.eqb imei "") eqn:Ei; [discriminate |].
  destruct (String.eqb deviceName ""); [discriminate |]. cbn [orb].
  apply String.eqb_neq in Ei.
  destruct (SubscriptionController.findDevice userId imei (devices s))
    as [existing |] eqn:Hfind; run_handler.
  - intros H. inversion H; subst; clear H.
    cbn [with_devices subscriptions transactions devices].
    repeat split; auto. eexists. split.
    + unfold SubscriptionController.findDevice in *.
      apply (find_updateFirst _ _ _ existing Hfind).
      cbn [Device.user Device.imei]. now rewrite !String.eqb_refl.
    + repeat split; reflexivity.
  - destruct (imeiUnique && existsb _ (devices s))%bool; [discriminate |].
    intros H. inversion H; subst; clear H.
    cbn [with_devices subscriptions transactions devices].
    repeat split; auto. eexists. split.
    + unfold SubscriptionController.findDevice in *.
      apply (find_app_new _ _ _ Hfind).
      cbn [Device.user Device.imei]. now rewrite !String.eqb_refl.
    + repeat split; reflexivity.
Qed.

(** X23. After a successful [setupDeviceOtp] the device of (identity,
    IMEI) exists, holds the new secret and is not onboarded, which is
    what [checkDeviceIsOnboarded] then answers; subscriptions and ledger
    are not touched. A QUEUED subscription of the identity for that IMEI
    is then activated by any one-time code of the new secret within two
    steps of the current counter, after which [checkDeviceIsOnboarded]
    answers that the device is onboarded. *)
Theorem setup_then_activate (hotp : string -> Z -> string)
        (secret otpauthUrl userId imei deviceName : string)
        (s s1 : State) (answer : string * string) :
  SelfService.setupDeviceOtp toDataURL freshDeviceId imeiUnique secret
    otpauthUrl userId imei deviceName s = (Ok answer, s1) ->
  answer = (toDataURL otpauthUrl, secret)
  /\ subscriptions s1 = subscriptions s
  /\ transactions s1 = transactions s
  /\ SelfService.checkDeviceIsOnboarded userId imei s1
     = (Ok (SelfService.mkOnboarding false true), s1)
  /\ forall (now : Z) (subscriptionId : string) (sub : Subscription.t)
            (i : Z),
       findById subscriptionId (subscriptions s) = Some sub ->
       Subscription.user sub = userId ->
       Subscription.status sub = QUEUED ->
       Subscription.imei sub = imei ->
       subscriptionId <> "" ->
       -2 <= i <= 2 ->
       hotp secret (now / 30000 + i) <> "" ->
       exists s2,
         SubscriptionController.activateSubscription hotp now userId
           subscriptionId imei (hotp secret (now / 30000 + i)) s1
         = (Ok (SubscriptionController.mkActivation 30 None), s2)
         /\ option_map Subscription.status
              (findById subscriptionId (subscriptions s2)) = Some ACTIVE
         /\ SelfService.checkDeviceIsOnboarded userId imei s2
            = (Ok (SelfService.mkOnboarding true true), s2).
Proof.
  intros H. apply setupDeviceOtp_ok in H.
  destruct H as [Ea [Hi [Es [Et [device [Hd [Hsec [_ Hon]]]]]]]].
  apply String.eqb_neq in Hi.
  split; [exact Ea |]. split; [exact Es |]. split; [exact Et |]. split.
  - unfold SelfService.checkDeviceIsOnboarded. run_handler.
    rewrite Hi, Hd, Hon. reflexivity.
  - intros now subscriptionId sub i Hf Hu Hst Him Hs Hw Hc.
    rewrite otp_activation_run, Es, Hf, Hu, Hst, Him, Hd, Hsec.
    apply String.eqb_neq in Hs, Hc. rewrite Hi, Hs, Hc.
    rewrite !String.eqb_refl. cbn [orb negb Status_eqb].
    assert (V : SubscriptionController.totpVerify hotp now secret
                  (hotp secret (now / 30000 + i)) 2 = true).
    { apply totpVerify_iff. now exists i. }
    rewrite V. eexists. split; [reflexivity |]. split.
    + rewrite activatedByOtp_subscription, Es, Hf. reflexivity.
    + unfold SelfService.checkDeviceIsOnboarded. run_handler. rewrite Hi.
      rewrite (activatedByOtp_device now subscriptionId userId imei s1
                 device Hd).
      reflexivity.
Qed.

End DeviceSetup.

Lemma setup_then_activate_witness :
  SelfService.checkDeviceIsOnboarded "alice" imeiA
    (snd (SelfService.setupDeviceOtp (c_toDataURL workedCollaborators)
            (c_freshDeviceId workedCollaborators) false "NB2W45DFOIZA"
            "otpauth://totp/CRS" "alice" imeiA "Phone" queuedPremium))
  = (Ok (SelfService.mkOnboarding false true),
     snd (SelfService.setupDeviceOtp (c_toDataURL workedCollaborators)
            (c_freshDeviceId workedCollaborators) false "NB2W45DFOIZA"
            "otpauth://totp/CRS" "alice" imeiA "Phone" queuedPremium))
  /\ exists s2,
       SubscriptionController.activateSubscription counterCode 60000 "alice"
         "sub1" imeiA (counterCode "NB2W45DFOIZA" (60000 / 30000 + 0))
         (snd (SelfService.setupDeviceOtp (c_toDataURL workedCollaborators)
                 (c_freshDeviceId workedCollaborators) false "NB2W45DFOIZA"
                 "otpauth://totp/CRS" "alice" imeiA "Phone" queuedPremium))
       = (Ok (SubscriptionController.mkActivation 30 None), s2).
Proof.
  destruct (setup_then_activate (c_toDataURL workedCollaborators)
              (c_freshDeviceId workedCollaborators) false counterCode
              "NB2W45DFOIZA" "otpauth://totp/CRS" "alice" imeiA "Phone"
              queuedPremium
              (snd (SelfService.setupDeviceOtp
                      (c_toDataURL workedCollaborators)
                      (c_freshDeviceId workedCollaborators) false
                      "NB2W45DFOIZA" "otpauth://totp/CRS" "alice" imeiA
                      "Phone" queuedPremium))
              (c_toDataURL workedCollaborators "otpauth://totp/CRS",
               "NB2W45DFOIZA"))
    as [_ [_ [_ [Hcheck Hact]]]].
  - vm_compute. reflexivity.
  - split; [exact Hcheck |].
    destruct (Hact 60000 "sub1"
                (Subscription.mk "sub1" "alice" imeiA "full-suite-premium"
                   14999 (Some "1") None None QUEUED None None None 0 0
                   None None) 0)
      as [s2 [H2 _]];
      try reflexivity; try discriminate; try lia.
    exists s2. exact H2.
Defined.

Lemma filter_updateFirst (p : Device.t -> bool) (f : Device.t -> Device.t)
      (l : list Device.t) :
  (forall d, p (f d) = true) ->
  length (filter p (SelfService.updateFirst p f l)) = length (filter p l)
  /\ filter (fun d => negb (p d)) (SelfService.updateFirst p f l)
     = filter (fun d => negb (p d)) l.
Proof.
  intros Hf. induction l as [| d l [IH1 IH2]]; [split; reflexivity |].
  simpl. destruct (p d) eqn:E; simpl.
  - rewrite Hf. simpl. split; reflexivity.
  - rewrite E. simpl. split; [exact IH1 | now rewrite IH2].
Qed.

Lemma filter_find_none {A : Type} (p : A -> bool) (l : list A) :
  find p l = None -> filter p l = [].
Proof.
  induction l as [| a l IH]; simpl; [reflexivity |].
  destruct (p a); [discriminate | exact IH].
Qed.

Lemma filter_find_some {A : Type} (p : A -> bool) (l : list A) (d : A) :
  find p l = Some d -> (1 <= length (filter p l))%nat.
Proof.
  induction l as [| a l IH]; simpl; [discriminate |].
  destruct (p a); simpl; [lia | exact IH].
Qed.

(** X24. [setupDeviceOtp] never duplicates the device of an (identity,
    IMEI) pair: after a successful setup the number of devices of the
    pair is what it was, and one if there was none; the devices of every
    other pair are as they were. *)
Theorem setup_never_duplicates (toDataURL : string -> string)
        (freshDeviceId : list Device.t -> string) (imeiUnique : bool)
        (secret otpauthUrl userId imei deviceName : string)
        (s s1 : State) (answer : string * string) :
  SelfService.setupDeviceOtp toDataURL freshDeviceId imeiUnique secret
    otpauthUrl userId imei deviceName s = (Ok answer, s1) ->
  let ofPair d :=
    (String.eqb (Device.user d) userId && String.eqb (Device.imei d) imei)%bool
  in
  length (filter ofPair (devices s1))
  = Nat.max 1 (length (filter ofPair (devices s)))
  /\ filter (fun d => negb (ofPair d)) (devices s1)
     = filter (fun d => negb (ofPair d)) (devices s).
Proof.
  unfold SelfService.setupDeviceOtp. run_handler.
  destruct (String.eqb imei "" || String.eqb deviceName "")%bool;
    [discriminate |].
  unfold SubscriptionController.findDevice.
  destruct (find _ (devices s)) as [existing |] eqn:Hfind; run_handler.
  - intros H. inversion H; subst; clear H. cbn [with_devices devices].
    match goal with
    | |- context [SelfService.updateFirst ?p ?f (devices s)] =>
        destruct (filter_updateFirst p f (devices s)) as [L1 L2]
    end.
    { intros d. cbn [Device.user Device.imei]. now rewrite !String.eqb_refl. }
    cbv zeta. split; [| exact L2].
    rewrite L1. apply filter_find_some in Hfind. lia.
  - destruct (imeiUnique && existsb _ (devices s))%bool; [discriminate |].
    intros H. inversion H; subst; clear H. cbn [with_devices devices].
    cbv zeta. rewrite !filter_app. apply filter_find_none in Hfind.
    rewrite Hfind. simpl. rewrite !String.eqb_refl. simpl.
    split; [reflexivity | now rewrite app_nil_r].
Qed.

Lemma setup_never_duplicates_witness :
  length
    (filter (fun d => (String.eqb (Device.user d) "alice"
                       && String.eqb (Device.imei d) imeiA)%bool)
       (devices
          (snd (SelfService.setupDeviceOtp (c_toDataURL workedCollaborators)
                  (c_freshDeviceId workedCollaborators) false "NB2W45DFOIZA"
                  "otpauth://totp/CRS" "alice" imeiA "Tablet"
                  queuedPremium))))
  = 1%nat.
Proof.
  apply (setup_never_duplicates (c_toDataURL workedCollaborators)
           (c_freshDeviceId workedCollaborators) false "NB2W45DFOIZA"
           "otpauth://totp/CRS" "alice" imeiA "Tablet" queuedPremium _
           (c_toDataURL workedCollaborators "otpauth://totp/CRS",
            "NB2W45DFOIZA")).
  vm_compute. reflexivity.
Defined.
